(** * Calendar to Notion integration: a shallow embedding

    The development follows the three Python modules of the repository:
      - [src/calendar_server.py]  (module [Calendar] below),
      - [src/notion_server.py]    (module [Notion] below),
      - [src/calendar_to_notion_workflow.py] (module [Workflow] below).

    Python strings are modelled by [string]; the string helpers of
    module [PyStr] are exact on ASCII text (case mapping and white space
    are the ASCII ones, every other byte is uncased and not a space).
    The few non-ASCII glyphs of the source only occur in literals that are
    concatenated, never measured.

    Decoded JSON is the type [value], and the operations the source
    applies to values it has not checked ([.get], [in], [len], iteration,
    subscripts, string methods) are total functions into [result], which
    is the value or the exception Python raises.  A tool is a function of
    the state of its server that returns such a result and the new state;
    what lies outside the process (the clock, the remote APIs, the JSON
    codec) is a record of functions, [world], over which every statement
    quantifies. *)

From Stdlib Require Import String Ascii List Bool Arith ZArith Lia DecimalString.
Import ListNotations.
Open Scope string_scope.
Set Warnings "-register-all,-abstract-large-number".

(* ================================================================== *)
(** ** Python string primitives *)

Module PyStr.

Definition code (c : ascii) : nat := nat_of_ascii c.

Definition is_upper (c : ascii) : bool := Nat.leb 65 (code c) && Nat.leb (code c) 90.
Definition is_lower (c : ascii) : bool := Nat.leb 97 (code c) && Nat.leb (code c) 122.

(** [str.isspace] on one ASCII character: TAB..CR, FS..US and SPACE. *)
Definition isspace (c : ascii) : bool :=
  (Nat.leb 9 (code c) && Nat.leb (code c) 13) || (Nat.leb 28 (code c) && Nat.leb (code c) 32).

Definition lower_char (c : ascii) : ascii :=
  if is_upper c then ascii_of_nat (code c + 32) else c.

Definition upper_char (c : ascii) : ascii :=
  if is_lower c then ascii_of_nat (code c - 32) else c.

(** [s.lower()] on ASCII text: the 26 letters are mapped, every other
    character is left as it is. *)
Fixpoint lower (s : string) : string :=
  match s with
  | EmptyString => EmptyString
  | String c s' => String (lower_char c) (lower s')
  end.

(** [s.title()]: a cased character is upper-cased when the character
    before it is not cased, lower-cased otherwise. *)
Fixpoint title_from (prev_cased : bool) (s : string) : string :=
  match s with
  | EmptyString => EmptyString
  | String c s' =>
      if is_upper c || is_lower c
      then String (if prev_cased then lower_char c else upper_char c)
                  (title_from true s')
      else String c (title_from false s')
  end.

Definition title (s : string) : string := title_from false s.

(** [sub in s] *)
Fixpoint contains (sub s : string) : bool :=
  prefix sub s ||
  match s with
  | EmptyString => false
  | String _ s' => contains sub s'
  end.

(** [s.split(sep)] for a one-character separator. *)
Fixpoint split (sep : ascii) (s : string) : list string :=
  match s with
  | EmptyString => [EmptyString]
  | String c s' =>
      if Ascii.eqb c sep then EmptyString :: split sep s'
      else match split sep s' with
           | [] => [String c EmptyString]
           | piece :: pieces => String c piece :: pieces
           end
  end.

Fixpoint lstrip (s : string) : string :=
  match s with
  | EmptyString => EmptyString
  | String c s' => if isspace c then lstrip s' else s
  end.

Fixpoint rstrip (s : string) : string :=
  match s with
  | EmptyString => EmptyString
  | String c s' =>
      match rstrip s' with
      | EmptyString => if isspace c then EmptyString else String c EmptyString
      | r => String c r
      end
  end.

(** [s.strip()] *)
Definition strip (s : string) : string := rstrip (lstrip s).

(** [s.replace(old, new)] for a non-empty [old]: a left-to-right scan over
    non-overlapping occurrences.  [skip] counts the characters of the
    occurrence just replaced that are still to be passed over. *)
Fixpoint replace_from (old new : string) (skip : nat) (s : string) : string :=
  match s with
  | EmptyString => EmptyString
  | String c s' =>
      match skip with
      | S k => replace_from old new k s'
      | O =>
          if prefix old s
          then new ++ replace_from old new (String.length old - 1) s'
          else String c (replace_from old new 0 s')
      end
  end.

Definition replace (old new s : string) : string := replace_from old new 0 s.

(** [s[:n]] *)
Fixpoint take (n : nat) (s : string) : string :=
  match n, s with
  | S n', String c s' => String c (take n' s')
  | _, _ => EmptyString
  end.

(** Truth value of a string: [bool(s)]. *)
Definition nonempty (s : string) : bool :=
  match s with EmptyString => false | _ => true end.

Definition newline : ascii := ascii_of_nat 10.

(** [sep.join(items)] *)
Fixpoint join (sep : string) (items : list string) : string :=
  match items with
  | [] => EmptyString
  | [x] => x
  | x :: rest => x ++ sep ++ join sep rest
  end.

End PyStr.

(* ================================================================== *)
(** ** Action-item extraction

    [_extract_action_items_from_text] (notion_server.py) and
    [_extract_action_items_simple] (calendar_to_notion_workflow.py) are the
    same loop with two constants changed: the width an item is cut to and
    the number of items kept. *)

Module Extract.
Import PyStr.

Definition action_keywords : list string :=
  ["todo"; "action item"; "follow up"; "assign"; "task"; "deadline"; "due"].

(** [any(keyword in line for keyword in action_keywords)] *)
Definition any_keyword_in (line : string) : bool :=
  existsb (fun keyword => contains keyword line) action_keywords.

(** One iteration of the [for line in lines] loop: the list of items
    collected so far, extended or not.  ([len] and the cut count the
    characters of ASCII text.) *)
Definition scan_line (width : nat) (action_items : list string) (line : string)
  : list string :=
  let line_stripped := strip line in
  if nonempty line_stripped && any_keyword_in line then
    let clean_item := strip (replace "* " "" (replace "- " "" line_stripped)) in
    if nonempty clean_item && Nat.ltb 10 (String.length clean_item)
    then action_items ++ [take width clean_item]
    else action_items
  else action_items.

Definition scan_lines (width : nat) (lines : list string) : list string :=
  fold_left (scan_line width) lines [].

Definition extract_action_items (width cap : nat) (text : string) : list string :=
  let lines := split newline (lower text) in
  firstn cap (scan_lines width lines).

(** notion_server.py *)
Definition _extract_action_items_from_text (text : string) : list string :=
  extract_action_items 100 5 text.

(** calendar_to_notion_workflow.py *)
Definition _extract_action_items_simple (text : string) : list string :=
  extract_action_items 80 3 text.

End Extract.

(* ================================================================== *)
(** ** Decoded JSON, exceptions and the dynamic operations of Python

    JSON numbers are represented by integers.  The wording of the messages
    of exceptions raised by the interpreter itself follows CPython 3.11;
    no statement below depends on it. *)

Module Py.
Import PyStr.

Inductive value : Type :=
| VNone
| VBool (b : bool)
| VInt (n : Z)
| VStr (s : string)
| VList (items : list value)
| VDict (fields : list (string * value)).

(** A Python [dict] with string keys, in insertion order. *)
Definition dict : Type := list (string * value).

Inductive exn_class : Type :=
| KeyError | ValueError | JSONDecodeError | TypeError | AttributeError
| IndexError | OverflowError
| LibraryError.  (* any other subclass of Exception, raised by a library *)

Record exn : Type := mk_exn { exn_cls : exn_class; exn_msg : string }.

(** [str(e)] *)
Definition exn_str (e : exn) : string := exn_msg e.

(** [isinstance(e, ValueError)]: [JSONDecodeError] derives from it. *)
Definition is_ValueError (e : exn) : bool :=
  match exn_cls e with ValueError | JSONDecodeError => true | _ => false end.

Definition is_JSONDecodeError (e : exn) : bool :=
  match exn_cls e with JSONDecodeError => true | _ => false end.

Inductive result (A : Type) : Type :=
| Ok (a : A)
| Raise (e : exn).
Arguments Ok {A} a.
Arguments Raise {A} e.

Definition rbind {A B} (r : result A) (k : A -> result B) : result B :=
  match r with Ok a => k a | Raise e => Raise e end.

Definition type_name (v : value) : string :=
  match v with
  | VNone => "NoneType" | VBool _ => "bool" | VInt _ => "int"
  | VStr _ => "str" | VList _ => "list" | VDict _ => "dict"
  end.

Definition quote : string := "'".

(** [bool(v)] *)
Definition truthy (v : value) : bool :=
  match v with
  | VNone => false
  | VBool b => b
  | VInt n => negb (Z.eqb n 0)
  | VStr s => nonempty s
  | VList items => match items with [] => false | _ => true end
  | VDict fields => match fields with [] => false | _ => true end
  end.

(** [v == s] for a string literal [s] (so [v != s] is its negation). *)
Definition eq_str (v : value) (s : string) : bool :=
  match v with VStr s' => String.eqb s' s | _ => false end.

Fixpoint lookup (fields : dict) (key : string) : option value :=
  match fields with
  | [] => None
  | (k, v) :: rest => if String.eqb k key then Some v else lookup rest key
  end.

(** [d.get(key, default)] on a dict. *)
Definition dict_get (d : dict) (key : string) (default : value) : value :=
  match lookup d key with Some v => v | None => default end.

(** [d[key]] on a dict; [str] of a [KeyError] is the [repr] of the key. *)
Definition dict_getitem (d : dict) (key : string) : result value :=
  match lookup d key with
  | Some v => Ok v
  | None => Raise (mk_exn KeyError (quote ++ key ++ quote))
  end.

(** [d[key] = v] *)
Fixpoint dict_set (d : dict) (key : string) (v : value) : dict :=
  match d with
  | [] => [(key, v)]
  | (k, old) :: rest =>
      if String.eqb k key then (k, v) :: rest else (k, old) :: dict_set rest key v
  end.

Definition no_attribute (v : value) (name : string) : exn :=
  mk_exn AttributeError
    (quote ++ type_name v ++ "' object has no attribute '" ++ name ++ quote).

(** [v.get(key, default)] on any value. *)
Definition py_get (v : value) (key : string) (default : value) : result value :=
  match v with
  | VDict d => Ok (dict_get d key default)
  | _ => Raise (no_attribute v "get")
  end.

(** [v[key]] on any value, for a string key. *)
Definition py_getitem (v : value) (key : string) : result value :=
  match v with
  | VDict d => dict_getitem d key
  | VList _ => Raise (mk_exn TypeError "list indices must be integers or slices, not str")
  | VStr _ => Raise (mk_exn TypeError "string indices must be integers, not 'str'")
  | _ => Raise (mk_exn TypeError (quote ++ type_name v ++ "' object is not subscriptable"))
  end.

(** [v[0]] on any value. *)
Definition py_first (v : value) : result value :=
  match v with
  | VList (x :: _) => Ok x
  | VList [] => Raise (mk_exn IndexError "list index out of range")
  | VStr (String c _) => Ok (VStr (String c EmptyString))
  | VStr EmptyString => Raise (mk_exn IndexError "string index out of range")
  | VDict _ => Raise (mk_exn KeyError "0")
  | _ => Raise (mk_exn TypeError (quote ++ type_name v ++ "' object is not subscriptable"))
  end.

Fixpoint chars (s : string) : list value :=
  match s with
  | EmptyString => []
  | String c s' => VStr (String c EmptyString) :: chars s'
  end.

(** The items a [for x in v] loop goes through. *)
Definition py_iter (v : value) : result (list value) :=
  match v with
  | VList items => Ok items
  | VDict fields => Ok (map (fun kv => VStr (fst kv)) fields)
  | VStr s => Ok (chars s)
  | _ => Raise (mk_exn TypeError (quote ++ type_name v ++ "' object is not iterable"))
  end.

(** [s in v] for a string [s]. *)
Definition py_in (s : string) (v : value) : result bool :=
  match v with
  | VStr t => Ok (contains s t)
  | VList items => Ok (existsb (fun x => eq_str x s) items)
  | VDict fields => Ok (existsb (fun kv => String.eqb (fst kv) s) fields)
  | _ => Raise (mk_exn TypeError
                  ("argument of type '" ++ type_name v ++ "' is not iterable"))
  end.

(** [len(v)]; for a string, the number of characters of ASCII text. *)
Definition py_len (v : value) : result nat :=
  match v with
  | VStr s => Ok (String.length s)
  | VList items => Ok (List.length items)
  | VDict fields => Ok (List.length fields)
  | _ => Raise (mk_exn TypeError
                  ("object of type '" ++ type_name v ++ "' has no len()"))
  end.

(** A string method called on any value: only a [str] has it. *)
Definition as_str (v : value) (method : string) : result string :=
  match v with
  | VStr s => Ok s
  | _ => Raise (no_attribute v method)
  end.

(** *** [str()] and [repr()] *)

Definition str_of_nat (n : nat) : string := NilEmpty.string_of_uint (Nat.to_uint n).
Definition str_of_Z (n : Z) : string := NilEmpty.string_of_int (Z.to_int n).

Definition dquote : ascii := ascii_of_nat 34.
Definition squote : ascii := ascii_of_nat 39.
Definition backslash : ascii := ascii_of_nat 92.

Definition hex_digit (n : nat) : ascii :=
  if Nat.ltb n 10 then ascii_of_nat (48 + n) else ascii_of_nat (87 + n).

Definition has_char (c : ascii) (s : string) : bool :=
  contains (String c EmptyString) s.

Fixpoint repr_body (q : ascii) (s : string) : string :=
  match s with
  | EmptyString => EmptyString
  | String c s' =>
      (if Ascii.eqb c backslash || Ascii.eqb c q then String backslash (String c EmptyString)
       else if Ascii.eqb c (ascii_of_nat 10) then String backslash "n"
       else if Ascii.eqb c (ascii_of_nat 13) then String backslash "r"
       else if Ascii.eqb c (ascii_of_nat 9) then String backslash "t"
       else if Nat.ltb (code c) 32 || Nat.eqb (code c) 127
       then String backslash
              (String "x" (String (hex_digit (code c / 16))
                             (String (hex_digit (code c mod 16)) EmptyString)))
       else String c EmptyString)
      ++ repr_body q s'
  end.

(** [repr(s)] of a string: single quotes unless the text has a single
    quote and no double quote. *)
Definition repr_str (s : string) : string :=
  let q := if has_char squote s && negb (has_char dquote s) then dquote else squote in
  String q (repr_body q s ++ String q EmptyString).

Fixpoint py_repr (v : value) : string :=
  match v with
  | VNone => "None"
  | VBool true => "True"
  | VBool false => "False"
  | VInt n => str_of_Z n
  | VStr s => repr_str s
  | VList items => "[" ++ join ", " (map py_repr items) ++ "]"
  | VDict fields =>
      "{" ++ join ", " (map (fun kv => repr_str (fst kv) ++ ": " ++ py_repr (snd kv)) fields)
          ++ "}"
  end.

(** [str(v)], which is what an f-string inserts. *)
Definition py_str (v : value) : string :=
  match v with
  | VStr s => s
  | _ => py_repr v
  end.

(** [str(o)] of an optional string, as [os.getenv] returns it. *)
Definition str_of_option (o : option string) : string :=
  match o with Some s => s | None => "None" end.

Definition nl : string := String newline EmptyString.

End Py.

(* ================================================================== *)
(** ** Calendar dates: [datetime.strptime(s, '%Y-%m-%d')], [isoformat] and
    [+ timedelta(days=1)] *)

Module Dates.
Import PyStr Py.

Definition date : Type := (nat * nat * nat)%type.   (* year, month, day *)

Definition is_digit (c : ascii) : bool := Nat.leb 48 (code c) && Nat.leb (code c) 57.
Definition between (lo hi : nat) (c : ascii) : bool :=
  Nat.leb (48 + lo) (code c) && Nat.leb (code c) (48 + hi).
Definition digit (c : ascii) : nat := code c - 48.

Definition two (p1 p2 : ascii -> bool) (s : string) : option (nat * string) :=
  match s with
  | String a (String b rest) =>
      if p1 a && p2 b then Some (10 * digit a + digit b, rest) else None
  | _ => None
  end.

Definition one (p : ascii -> bool) (s : string) : option (nat * string) :=
  match s with
  | String a rest => if p a then Some (digit a, rest) else None
  | EmptyString => None
  end.

Definition orelse {A} (x y : option A) : option A :=
  match x with Some _ => x | None => y end.

(** [%Y]: four digits. *)
Definition match_Y (s : string) : option (nat * string) :=
  match two is_digit is_digit s with
  | Some (hi, rest) =>
      match two is_digit is_digit rest with
      | Some (lo, rest') => Some (100 * hi + lo, rest')
      | None => None
      end
  | None => None
  end.

(** [%m]: [1[0-2]|0[1-9]|[1-9]] *)
Definition match_m (s : string) : option (nat * string) :=
  orelse (two (between 1 1) (between 0 2) s)
 (orelse (two (between 0 0) (between 1 9) s)
         (one (between 1 9) s)).

(** [%d]: [3[01]|[12]\d|0[1-9]|[1-9]| [1-9]] *)
Definition match_d (s : string) : option (nat * string) :=
  orelse (two (between 3 3) (between 0 1) s)
 (orelse (two (between 1 2) is_digit s)
 (orelse (two (between 0 0) (between 1 9) s)
 (orelse (one (between 1 9) s)
         (match s with
          | String sp rest => if Ascii.eqb sp " " then one (between 1 9) rest else None
          | EmptyString => None
          end)))).

Definition match_dash (s : string) : option string :=
  match s with
  | String c rest => if Ascii.eqb c "-" then Some rest else None
  | EmptyString => None
  end.

Definition is_leap (y : nat) : bool :=
  (Nat.eqb (y mod 4) 0 && negb (Nat.eqb (y mod 100) 0)) || Nat.eqb (y mod 400) 0.

Definition days_in_month (y m : nat) : nat :=
  match m with
  | 2 => if is_leap y then 29 else 28
  | 4 | 6 | 9 | 11 => 30
  | _ => 31
  end.

Definition no_match (s : string) : exn :=
  mk_exn ValueError ("time data " ++ repr_str s ++ " does not match format '%Y-%m-%d'").

(** [datetime.strptime(s, '%Y-%m-%d')] on a string, for the ASCII
    digits. *)
Definition strptime (s : string) : result date :=
  match match_Y s with
  | None => Raise (no_match s)
  | Some (y, s1) =>
  match match_dash s1 with
  | None => Raise (no_match s)
  | Some s2 =>
  match match_m s2 with
  | None => Raise (no_match s)
  | Some (m, s3) =>
  match match_dash s3 with
  | None => Raise (no_match s)
  | Some s4 =>
  match match_d s4 with
  | None => Raise (no_match s)
  | Some (d, rest) =>
      if nonempty rest
      then Raise (mk_exn ValueError ("unconverted data remains: " ++ rest))
      else if Nat.eqb y 0
      then Raise (mk_exn ValueError "year 0 is out of range")
      else if Nat.ltb (days_in_month y m) d
      then Raise (mk_exn ValueError "day is out of range for month")
      else Ok (y, m, d)
  end end end end end.

(** The same call on any value: only a [str] is accepted. *)
Definition py_strptime (v : value) : result date :=
  match v with
  | VStr s => strptime s
  | VNone => Raise (mk_exn TypeError "strptime() argument 1 must be str, not None")
  | _ => Raise (mk_exn TypeError
                  ("strptime() argument 1 must be str, not " ++ type_name v))
  end.

(** [d + timedelta(days=1)] *)
Definition next_day (d : date) : result date :=
  let '(y, m, dd) := d in
  if Nat.ltb dd (days_in_month y m) then Ok (y, m, dd + 1)
  else if Nat.ltb m 12 then Ok (y, m + 1, 1)
  else if Nat.ltb y 9999 then Ok (y + 1, 1, 1)
  else Raise (mk_exn OverflowError "date value out of range").

Definition pad2 (n : nat) : string :=
  if Nat.ltb n 10 then "0" ++ str_of_nat n else str_of_nat n.

Definition pad4 (n : nat) : string :=
  if Nat.ltb n 10 then "000" ++ str_of_nat n
  else if Nat.ltb n 100 then "00" ++ str_of_nat n
  else if Nat.ltb n 1000 then "0" ++ str_of_nat n
  else str_of_nat n.

(** [isoformat()] of a datetime at midnight. *)
Definition isoformat (d : date) : string :=
  let '(y, m, dd) := d in
  pad4 y ++ "-" ++ pad2 m ++ "-" ++ pad2 dd ++ "T00:00:00".

End Dates.

(* ================================================================== *)
(** ** Tool results and the state-and-exception monad of the servers *)

Module Mcp.

Record TextContent : Type := { type : string; text : string }.

Definition text_content (s : string) : TextContent := {| type := "text"; text := s |}.

End Mcp.

Module Eff.
Import Py.

(** A computation over a state [S] that returns or raises; the state
    reached when it raises is kept, as it is in Python. *)
Definition M (S A : Type) : Type := S -> result A * S.

Definition ret {S A} (a : A) : M S A := fun st => (Ok a, st).
Definition raise {S A} (e : exn) : M S A := fun st => (Raise e, st).
Definition lift {S A} (r : result A) : M S A := fun st => (r, st).

Definition bind {S A B} (m : M S A) (k : A -> M S B) : M S B :=
  fun st =>
    match m st with
    | (Ok a, st') => k a st'
    | (Raise e, st') => (Raise e, st')
    end.

(** [try: body  except <classes>: handler] *)
Definition try_except {S A} (body : M S A) (caught : exn -> bool)
           (handler : exn -> M S A) : M S A :=
  fun st =>
    match body st with
    | (Ok a, st') => (Ok a, st')
    | (Raise e, st') => if caught e then handler e st' else (Raise e, st')
    end.

(** [except Exception] *)
Definition any_exception (e : exn) : bool := true.

(** A [for] loop that threads the variables it updates. *)
Fixpoint for_each {S A X} (xs : list X) (acc : A) (body : A -> X -> M S A) : M S A :=
  match xs with
  | [] => ret acc
  | x :: rest => bind (body acc x) (fun acc' => for_each rest acc' body)
  end.

(** A list comprehension whose element expression may raise. *)
Fixpoint map_result {A B} (f : A -> result B) (xs : list A) : result (list B) :=
  match xs with
  | [] => Ok []
  | x :: rest => rbind (f x) (fun y => rbind (map_result f rest) (fun ys => Ok (y :: ys)))
  end.

End Eff.

Declare Scope eff_scope.
Delimit Scope eff_scope with eff.
Notation "x <- m ;; k" := (Eff.bind m (fun x => k))
  (at level 61, m at next level, right associativity) : eff_scope.
Notation "m ;;; k" := (Eff.bind m (fun _ => k))
  (at level 61, right associativity) : eff_scope.
Notation "x <~ r ;; k" := (Py.rbind r (fun x => k))
  (at level 61, r at next level, right associativity) : eff_scope.

(** The glyphs the source puts in front of its messages and titles. *)
Module Glyph.
Definition ok : string := "‚úÖ".
Definition err : string := "‚ùå".
Definition bullet : string := "‚Ä¢".
Definition calendar : string := "üìÖ".
Definition target : string := "üéØ".
Definition people : string := "üë•".
Definition clipboard : string := "üìã".
Definition chart : string := "üìä".
Definition pin : string := "üìç".
Definition memo : string := "üìù".
End Glyph.

(* ================================================================== *)
(** ** notion_server.py *)

Module Http.
Import Py.

Record request : Type :=
  { url : string; headers : list (string * string); json : value }.

(** What [requests.post] returns: [status_code], [text], and what
    [response.json()] gives (it may raise). *)
Record response : Type :=
  { status_code : Z; text : string; body : result value }.

End Http.

Module Notion.
Import PyStr Py Eff Mcp.
Local Open Scope eff_scope.

(** What the server reads from outside: the clock, [json.loads] and the
    remote API.  The remote answer may depend on the requests sent before;
    [http_post] returns a response or raises. *)
Record world : Type :=
  { now_isoformat : string;          (* datetime.now().isoformat() *)
    now_ymd : string;                (* datetime.now().strftime('%Y-%m-%d') *)
    json_loads : string -> result value;
    http_post : list Http.request -> Http.request -> result Http.response }.

(** The fields [__init__] sets on the server object. *)
Record server : Type :=
  { notion_api_key : option string;
    notion_database_id : option string;
    notion_url : string }.

(** [NotionMCPServer()] with the two environment variables as read. *)
Definition new_server (api_key database_id : option string) : server :=
  {| notion_api_key := api_key;
     notion_database_id := database_id;
     notion_url := "https://api.notion.com/v1" |}.

(** The state a run goes through: the requests sent to the remote API
    and, as a record of the calls, the argument dictionaries handed to
    [_create_task]. *)
Record state : Type :=
  { sent : list Http.request; handed : list dict }.

Definition N (A : Type) : Type := M state A.

Definition post (w : world) (rq : Http.request) : N Http.response :=
  fun st => (http_post w (sent st) rq,
             {| sent := sent st ++ [rq]; handed := handed st |}).

Definition note_task (arguments : dict) : N unit :=
  fun st => (Ok tt, {| sent := sent st; handed := handed st ++ [arguments] |}).

(** [bool(o)] of what [os.getenv] returned. *)
Definition configured (o : option string) : bool :=
  match o with Some s => nonempty s | None => false end.

Definition value_of_option (o : option string) : value :=
  match o with Some s => VStr s | None => VNone end.

(** [json.loads(v)] on any value. *)
Definition loads (w : world) (v : value) : result value :=
  match v with
  | VStr s => json_loads w s
  | _ => Raise (mk_exn TypeError
                  ("the JSON object must be str, bytes or bytearray, not " ++ type_name v))
  end.

Definition _get_notion_headers (self : server) : list (string * string) :=
  [ ("Authorization", "Bearer " ++ str_of_option (notion_api_key self));
    ("Content-Type", "application/json");
    ("Notion-Version", "2022-06-28") ].

Definition not_configured : string :=
  "Error: Notion API key or database ID not configured.".

(** [payload["properties"]["Due Date"] = {"date": {"start": due_date}}] *)
Definition set_due_date (payload : dict) (due_date : value) : dict :=
  match lookup payload "properties" with
  | Some (VDict properties) =>
      dict_set payload "properties"
        (VDict (dict_set properties "Due Date"
                  (VDict [("date", VDict [("start", due_date)])])))
  | _ => payload
  end.

Definition _create_task (w : world) (self : server) (arguments : dict)
  : N (list TextContent) :=
  note_task arguments ;;;
  if negb (configured (notion_api_key self)) || negb (configured (notion_database_id self))
  then ret [text_content not_configured]
  else
    title <- lift (dict_getitem arguments "title") ;;
    let description := dict_get arguments "description" (VStr "") in
    let due_date := dict_get arguments "due_date" (VStr "") in
    let priority := dict_get arguments "priority" (VStr "Medium") in
    let source := dict_get arguments "source" (VStr "Calendar") in
    let payload : dict :=
      [ ("parent", VDict [("database_id", value_of_option (notion_database_id self))]);
        ("properties", VDict
           [ ("Name", VDict [("title", VList [VDict [("text", VDict [("content", title)])]])]);
             ("Status", VDict [("select", VDict [("name", VStr "Not started")])]);
             ("Priority", VDict [("select", VDict [("name", priority)])]);
             ("Source", VDict [("select", VDict [("name", source)])]);
             ("Created", VDict [("date", VDict [("start", VStr (now_isoformat w))])]) ]) ] in
    payload <-
      (if truthy due_date
       then try_except
              (lift (Dates.py_strptime due_date) ;;; ret (set_due_date payload due_date))
              is_ValueError
              (fun _ => ret payload)
       else ret payload) ;;
    let payload :=
      if truthy description
      then dict_set payload "children"
             (VList [VDict [ ("object", VStr "block");
                             ("type", VStr "paragraph");
                             ("paragraph", VDict
                                [("rich_text", VList
                                    [VDict [("type", VStr "text");
                                            ("text", VDict [("content", description)])]])]) ]])
      else payload in
    try_except
      (response <- post w {| Http.url := notion_url self ++ "/pages";
                             Http.headers := _get_notion_headers self;
                             Http.json := VDict payload |} ;;
       if Z.eqb (Http.status_code response) 200
       then
         result <- lift (Http.body response) ;;
         page_id <- lift (py_getitem result "id") ;;
         ret [text_content (Glyph.ok ++ " Task created successfully: '" ++ py_str title
                              ++ "'" ++ nl ++ "Page ID: " ++ py_str page_id)]
       else
         ret [text_content (Glyph.err ++ " Error creating task: "
                              ++ str_of_Z (Http.status_code response) ++ " - "
                              ++ Http.text response)])
      any_exception
      (fun e => ret [text_content (Glyph.err ++ " Error creating task: " ++ exn_str e)]).

(** The due date the bulk path derives from [start_time]; the bare
    [except: pass] leaves it empty whatever is raised. *)
Definition due_date_of (start_time : value) : value :=
  if truthy start_time then
    match py_in "T" start_time with
    | Ok true =>
        match as_str start_time "split" with
        | Ok s => VStr (hd EmptyString (split "T" s))
        | Raise _ => VStr ""
        end
    | Ok false => start_time
    | Raise _ => VStr ""
    end
  else VStr "".

Definition main_task_args (title : value) (event_description : string) (due_date : value)
  : dict :=
  [ ("title", VStr (Glyph.calendar ++ " " ++ py_str title));
    ("description", VStr event_description);
    ("due_date", due_date);
    ("priority", VStr "Medium");
    ("source", VStr "Calendar") ].

Definition action_task_args (item : string) (title : value) (due_date : value) : dict :=
  [ ("title", VStr (Glyph.target ++ " " ++ item));
    ("description", VStr ("Action item from meeting: " ++ py_str title));
    ("due_date", due_date);
    ("priority", VStr "High");
    ("source", VStr "Meeting") ].

(** The body of [for event in events]. *)
Definition process_event (w : world) (self : server) (extract_action_items : value)
           (created_tasks : list string) (event : value) : N (list string) :=
  title <- lift (py_get event "title" (VStr "Untitled Event")) ;;
  description <- lift (py_get event "description" (VStr "")) ;;
  start_time <- lift (py_get event "start_time" (VStr "")) ;;
  location <- lift (py_get event "location" (VStr "")) ;;
  let due_date := due_date_of start_time in
  let event_description := Glyph.calendar ++ " Calendar Event" ++ nl in
  let event_description :=
    if negb (eq_str location "No location specified")
    then event_description ++ Glyph.pin ++ " Location: " ++ py_str location ++ nl
    else event_description in
  let event_description :=
    if negb (eq_str description "No description")
    then event_description ++ Glyph.memo ++ " Notes: " ++ py_str description ++ nl
    else event_description in
  _create_task w self (main_task_args title event_description due_date) ;;;
  let created_tasks := (created_tasks ++ [("Event: " ++ py_str title)%string])%list in
  if truthy extract_action_items && negb (eq_str description "No description")
  then
    text <- lift (as_str description "lower") ;;
    let action_items := Extract._extract_action_items_from_text text in
    for_each action_items created_tasks
      (fun created_tasks item =>
         _create_task w self (action_task_args item title due_date) ;;;
         ret (created_tasks ++ [("Action: " ++ item)%string])%list)
  else ret created_tasks.

Definition created_summary (created_tasks : list string) : string :=
  Glyph.ok ++ " Created " ++ str_of_nat (List.length created_tasks)
    ++ " tasks from calendar events:" ++ nl
    ++ join nl (map (fun task => Glyph.bullet ++ " " ++ task) created_tasks).

Definition _create_tasks_from_calendar_events (w : world) (self : server)
           (arguments : dict) : N (list TextContent) :=
  events_json <- lift (dict_getitem arguments "events") ;;
  let extract_action_items := dict_get arguments "extract_action_items" (VBool true) in
  try_except
    (events <- lift (loads w events_json) ;;
     events <- lift (py_iter events) ;;
     created_tasks <- for_each events [] (process_event w self extract_action_items) ;;
     ret [text_content (created_summary created_tasks)])
    any_exception
    (fun e =>
       if is_JSONDecodeError e
       then ret [text_content (Glyph.err ++ " Error: Invalid JSON format for events.")]
       else ret [text_content (Glyph.err ++ " Error creating tasks from events: "
                                 ++ exn_str e)]).

(** The items [for item in v[:n]] goes through. *)
Definition first_items (n : nat) (v : value) : result (list value) :=
  match v with
  | VList items => Ok (firstn n items)
  | VStr s => Ok (chars (take n s))
  | VDict _ => Raise (mk_exn TypeError "unhashable type: 'slice'")
  | _ => Raise (mk_exn TypeError (quote ++ type_name v ++ "' object is not subscriptable"))
  end.

Definition summary_task_args (meeting_title : value) (meeting_description : string)
           (meeting_date : value) : dict :=
  [ ("title", VStr (Glyph.chart ++ " Meeting Summary: " ++ py_str meeting_title));
    ("description", VStr meeting_description);
    ("due_date", meeting_date);
    ("priority", VStr "Medium");
    ("source", VStr "Meeting") ].

Definition _create_meeting_summary (w : world) (self : server) (arguments : dict)
  : N (list TextContent) :=
  meeting_title <- lift (dict_getitem arguments "meeting_title") ;;
  let meeting_date := dict_get arguments "meeting_date" (VStr (now_ymd w)) in
  let attendees := dict_get arguments "attendees" (VStr "") in
  summary <- lift (dict_getitem arguments "summary") ;;
  let action_items_json := dict_get arguments "action_items" (VStr "[]") in
  try_except
    (action_items <-
       lift (if truthy action_items_json then loads w action_items_json else Ok (VList [])) ;;
     let meeting_description := Glyph.chart ++ " Meeting Summary" ++ nl in
     let meeting_description :=
       if truthy attendees
       then meeting_description ++ Glyph.people ++ " Attendees: " ++ py_str attendees ++ nl
       else meeting_description in
     let meeting_description :=
       meeting_description ++ Glyph.memo ++ " Summary:" ++ nl ++ py_str summary ++ nl in
     meeting_description <-
       (if truthy action_items
        then
          listed <- lift (first_items 5 action_items) ;;
          ret (fold_left
                 (fun text item => text ++ Glyph.bullet ++ " " ++ py_str item ++ nl)
                 listed
                 (meeting_description ++ nl ++ Glyph.target ++ " Action Items:" ++ nl))
        else ret meeting_description) ;;
     _create_task w self (summary_task_args meeting_title meeting_description meeting_date) ;;;
     items <- lift (first_items 5 action_items) ;;
     created_actions <-
       for_each items 0
         (fun created_actions item =>
            _create_task w self (action_task_args (py_str item) meeting_title meeting_date) ;;;
            ret (created_actions + 1)) ;;
     ret [text_content (Glyph.ok ++ " Created meeting summary and "
                          ++ str_of_nat created_actions ++ " action items for: "
                          ++ py_str meeting_title)])
    any_exception
    (fun e => ret [text_content (Glyph.err ++ " Error creating meeting summary: "
                                   ++ exn_str e)]).

(** [name in properties and properties[name].get(field)], as a condition. *)
Definition has_field (properties : value) (name field : string) : result bool :=
  present <~ py_in name properties ;;
  if present
  then (entry <~ py_getitem properties name ;;
        v <~ py_get entry field VNone ;;
        Ok (truthy v))
  else Ok false.

(** One line of the listing, for one page of the query result. *)
Definition task_line (page : value) : result string :=
  properties <~ py_get page "properties" (VDict []) ;;
  named <~ has_field properties "Name" "title" ;;
  title <~ (if named
            then (entry <~ py_getitem properties "Name" ;;
                  parts <~ py_getitem entry "title" ;;
                  part <~ py_first parts ;;
                  inner <~ py_getitem part "text" ;;
                  py_getitem inner "content")
            else Ok (VStr "Untitled")) ;;
  has_status <~ has_field properties "Status" "select" ;;
  status <~ (if has_status
             then (entry <~ py_getitem properties "Status" ;;
                   selected <~ py_getitem entry "select" ;;
                   py_getitem selected "name")
             else Ok (VStr "Unknown")) ;;
  has_priority <~ has_field properties "Priority" "select" ;;
  priority <~ (if has_priority
               then (entry <~ py_getitem properties "Priority" ;;
                     selected <~ py_getitem entry "select" ;;
                     py_getitem selected "name")
               else Ok (VStr "Unknown")) ;;
  Ok (Glyph.bullet ++ " " ++ py_str title ++ " [" ++ py_str status ++ "] - "
        ++ py_str priority ++ " priority").

(** The query payload [_get_tasks] builds before it posts. *)
Definition query_payload (filter_by : value) : result dict :=
  let payload : dict := [("page_size", VInt 10)] in
  if truthy filter_by
  then
    s <~ as_str filter_by "lower" ;;
    if existsb (String.eqb (lower s)) ["high"; "medium"; "low"]
    then
      s <~ as_str filter_by "title" ;;
      Ok (dict_set payload "filter"
            (VDict [ ("property", VStr "Priority");
                     ("select", VDict [("equals", VStr (title s))]) ]))
    else Ok payload
  else Ok payload.

Definition _get_tasks (w : world) (self : server) (arguments : dict)
  : N (list TextContent) :=
  let filter_by := dict_get arguments "filter_by" (VStr "") in
  try_except
    (let url := notion_url self ++ "/databases/"
                  ++ str_of_option (notion_database_id self) ++ "/query" in
     payload <- lift (query_payload filter_by) ;;
     response <- post w {| Http.url := url;
                           Http.headers := _get_notion_headers self;
                           Http.json := VDict payload |} ;;
     if Z.eqb (Http.status_code response) 200
     then
       data <- lift (Http.body response) ;;
       results <- lift (py_get data "results" (VList [])) ;;
       pages <- lift (py_iter results) ;;
       tasks <- lift (map_result task_line pages) ;;
       match tasks with
       | _ :: _ =>
           ret [text_content (Glyph.clipboard ++ " Found " ++ str_of_nat (List.length tasks)
                                ++ " tasks:" ++ nl ++ join nl tasks)]
       | [] => ret [text_content (Glyph.clipboard ++ " No tasks found in the database.")]
       end
     else
       ret [text_content (Glyph.err ++ " Error fetching tasks: "
                            ++ str_of_Z (Http.status_code response) ++ " - "
                            ++ Http.text response)])
    any_exception
    (fun e => ret [text_content (Glyph.err ++ " Error fetching tasks: " ++ exn_str e)]).

Definition handle_call_tool (w : world) (self : server) (name : string)
           (arguments : option dict) : N (list TextContent) :=
  let arguments := match arguments with None => [] | Some a => a end in
  try_except
    (if String.eqb name "create_task" then _create_task w self arguments
     else if String.eqb name "create_tasks_from_calendar_events"
     then _create_tasks_from_calendar_events w self arguments
     else if String.eqb name "create_meeting_summary"
     then _create_meeting_summary w self arguments
     else if String.eqb name "get_tasks" then _get_tasks w self arguments
     else raise (mk_exn ValueError ("Unknown tool: " ++ name)))
    any_exception
    (fun e => ret [text_content ("Error executing " ++ name ++ ": " ++ exn_str e)]).

Definition start : state := {| sent := []; handed := [] |}.

End Notion.

(* ================================================================== *)
(** ** calendar_server.py *)

Module Calendar.
Import PyStr Py Eff Mcp.
Local Open Scope eff_scope.

(** What the server reads from outside: the day on the clock, the
    credential flow of [_authenticate_google_calendar], the answer of
    [service.events().list(...).execute()] and [json.dumps(_, indent=2)]. *)
Record world : Type :=
  { today : Dates.date;
    authenticate : result unit;
    events_list : value -> string -> string -> result value;
    json_dumps : value -> string }.

(** The state is [self.service]: built or not. *)
Definition C (A : Type) : Type := M bool A.

(** [if not self.service: await self._authenticate_google_calendar()] *)
Definition ensure_service (w : world) : C unit :=
  fun service =>
    if service then (Ok tt, service)
    else match authenticate w with
         | Ok _ => (Ok tt, true)
         | Raise e => (Raise e, service)
         end.

(** The dictionary built for one raw event in the [for event in events]
    loop of both listing tools. *)
Definition event_info (event : value) : result value :=
  start_obj <~ py_getitem event "start" ;;
  day <~ py_get start_obj "date" VNone ;;
  start <~ py_get start_obj "dateTime" day ;;
  summary <~ py_get event "summary" (VStr "No title") ;;
  description <~ py_get event "description" (VStr "No description") ;;
  location <~ py_get event "location" (VStr "No location specified") ;;
  raw_attendees <~ py_get event "attendees" (VList []) ;;
  raw_attendees <~ py_iter raw_attendees ;;
  attendees <~ map_result (fun attendee => py_get attendee "email" VNone) raw_attendees ;;
  Ok (VDict [ ("title", summary);
              ("start_time", start);
              ("description", description);
              ("location", location);
              ("attendees", VList attendees) ]).

(** The part shared by the two listing tools once the day interval is
    known: the query, the empty case and the formatting. *)
Definition list_events (w : world) (calendar_id : value) (time_min time_max : string)
           (none_found : string) : C (list TextContent) :=
  events_result <- lift (events_list w calendar_id time_min time_max) ;;
  events <- lift (py_get events_result "items" (VList [])) ;;
  if negb (truthy events)
  then ret [text_content none_found]
  else
    events <- lift (py_iter events) ;;
    event_list <- lift (map_result event_info events) ;;
    ret [text_content (json_dumps w (VList event_list))].

Definition _get_todays_events (w : world) (arguments : dict) : C (list TextContent) :=
  ensure_service w ;;;
  let calendar_id := dict_get arguments "calendar_id" (VStr "primary") in
  tomorrow <- lift (Dates.next_day (today w)) ;;
  let today_iso := Dates.isoformat (today w) ++ "Z" in
  let tomorrow_iso := Dates.isoformat tomorrow ++ "Z" in
  try_except
    (list_events w calendar_id today_iso tomorrow_iso "No events found for today.")
    any_exception
    (fun e => ret [text_content ("Error fetching events: " ++ exn_str e)]).

Definition _get_events_by_date (w : world) (arguments : dict) : C (list TextContent) :=
  ensure_service w ;;;
  date_str <- lift (dict_getitem arguments "date") ;;
  let calendar_id := dict_get arguments "calendar_id" (VStr "primary") in
  try_except
    (start_of_day <- lift (Dates.py_strptime date_str) ;;
     end_of_day <- lift (Dates.next_day start_of_day) ;;
     let start_iso := Dates.isoformat start_of_day ++ "Z" in
     let end_iso := Dates.isoformat end_of_day ++ "Z" in
     list_events w calendar_id start_iso end_iso
       ("No events found for " ++ py_str date_str ++ "."))
    any_exception
    (fun e =>
       if is_ValueError e
       then ret [text_content "Invalid date format. Please use YYYY-MM-DD."]
       else ret [text_content ("Error fetching events: " ++ exn_str e)]).

Definition topic_keywords : list string :=
  ["discuss"; "review"; "plan"; "strategy"; "budget"; "timeline"; "project"].

Definition _extract_meeting_details (w : world) (arguments : dict) : C (list TextContent) :=
  event_text <- lift (dict_getitem arguments "event_text") ;;
  event_text <- lift (as_str event_text "lower") ;;
  let lines := split newline (lower event_text) in
  let potential_action_items :=
    map strip (filter Extract.any_keyword_in lines) in
  let key_topics :=
    map strip
      (filter (fun line => existsb (fun keyword => contains keyword (lower line))
                             topic_keywords) lines) in
  let analysis :=
    VDict [ ("summary", VStr "Meeting details extracted");
            ("potential_action_items", VList (map VStr potential_action_items));
            ("key_topics", VList (map VStr key_topics));
            ("attendees_mentioned", VList []) ] in
  ret [text_content (json_dumps w analysis)].

Definition handle_call_tool (w : world) (name : string) (arguments : option dict)
  : C (list TextContent) :=
  let arguments := match arguments with None => [] | Some a => a end in
  try_except
    (if String.eqb name "get_todays_events" then _get_todays_events w arguments
     else if String.eqb name "get_events_by_date" then _get_events_by_date w arguments
     else if String.eqb name "extract_meeting_details"
     then _extract_meeting_details w arguments
     else raise (mk_exn ValueError ("Unknown tool: " ++ name)))
    any_exception
    (fun e => ret [text_content ("Error executing " ++ name ++ ": " ++ exn_str e)]).

End Calendar.

(* ================================================================== *)
(** ** calendar_to_notion_workflow.py *)

Module Workflow.
Import PyStr Py Eff.
Local Open Scope eff_scope.

(** The meeting date [_create_meeting_summaries] derives from
    [start_time]; [today_ymd] is [datetime.now().strftime('%Y-%m-%d')]. *)
Definition meeting_date_of (today_ymd : string) (start_time : value) : value :=
  if truthy start_time then
    match py_in "T" start_time with
    | Ok true =>
        match as_str start_time "split" with
        | Ok s => VStr (hd EmptyString (split "T" s))
        | Raise _ => VStr today_ymd
        end
    | Ok false => start_time
    | Raise _ => VStr today_ymd
    end
  else VStr today_ymd.

Definition meeting_keywords : list string :=
  ["meeting"; "discuss"; "review"; "action"; "todo"; "follow"].

(** The condition under which an event gets a meeting summary. *)
Definition looks_like_meeting (description : value) : result bool :=
  if eq_str description "No description" then Ok false
  else
    n <~ py_len description ;;
    if Nat.ltb 50 n
    then (s <~ as_str description "lower" ;;
          Ok (existsb (fun keyword => contains keyword (lower s)) meeting_keywords))
    else Ok false.

(** The strings of the items of a [join], or the [TypeError] that names
    the first item that is not one. *)
Fixpoint join_items (i : nat) (items : list value) : result (list string) :=
  match items with
  | [] => Ok []
  | VStr s :: rest => rest' <~ join_items (i + 1) rest ;; Ok (s :: rest')
  | item :: _ =>
      Raise (mk_exn TypeError
               ("sequence item " ++ str_of_nat i ++ ": expected str instance, "
                  ++ type_name item ++ " found"))
  end.

(** [sep.join(v)] on any value. *)
Definition py_join (sep : string) (v : value) : result string :=
  match py_iter v with
  | Ok items => strings <~ join_items 0 items ;; Ok (join sep strings)
  | Raise _ => Raise (mk_exn TypeError "can only join an iterable")
  end.

(** What the loop of [_create_meeting_summaries] does with one event:
    nothing, a [create_meeting_summary] call with these arguments, or an
    error caught and printed by the [try] around the call. *)
Inductive summary_step : Type :=
| Skip
| Call (arguments : dict)
| Printed (e : exn).

Definition summary_step_of (json_dumps : value -> string) (today_ymd : string)
           (event : value) : result summary_step :=
  title <~ py_get event "title" (VStr "") ;;
  description <~ py_get event "description" (VStr "") ;;
  attendees <~ py_get event "attendees" (VList []) ;;
  start_time <~ py_get event "start_time" (VStr "") ;;
  meeting <~ looks_like_meeting description ;;
  if meeting
  then
    let meeting_date := meeting_date_of today_ymd start_time in
    text <~ as_str description "lower" ;;
    let action_items := Extract._extract_action_items_simple text in
    match (if truthy attendees then py_join ", " attendees else Ok EmptyString) with
    | Raise e => Ok (Printed e)
    | Ok joined =>
        Ok (Call [ ("meeting_title", title);
                   ("meeting_date", meeting_date);
                   ("attendees", VStr joined);
                   ("summary", description);
                   ("action_items", VStr (json_dumps (VList (map VStr action_items)))) ])
    end
  else Ok Skip.

End Workflow.

(* ================================================================== *)
(** ** Definitions used to state the properties *)

Module Spec.
Import PyStr Py.

(** Text made of ASCII characters only (codes below 128).  On such text
    the helpers of [PyStr] and [String.length] are exactly the methods of
    Python's [str] and [len]; statements about what a text is turned into
    are made for such text. *)
Definition ascii_char (c : ascii) : bool := Nat.ltb (code c) 128.

Fixpoint ascii_text (s : string) : bool :=
  match s with
  | EmptyString => true
  | String c s' => ascii_char c && ascii_text s'
  end.

(** A line as the extraction cleans it: lower-cased and stripped, then
    the result of [.replace('- ', '')], then the result of
    [.replace('* ', '')] on that, stripped again.  The two replacements
    follow each other: a ["- "] that only comes together once a ["* "] is
    gone stays. *)
Definition cleaned (line : string) : string :=
  strip (replace "* " "" (replace "- " "" (strip (lower line)))).

(** The action item a line of the text gives, if it gives one. *)
Definition item_of (width : nat) (line : string) : list string :=
  if Extract.any_keyword_in (lower line) && Nat.ltb 10 (String.length (cleaned line))
  then [take width (cleaned line)]
  else [].

Definition is_str (v : value) : bool :=
  match v with VStr _ => true | _ => false end.

(** The part of a string before its first [sep]; the whole string when
    it has none. *)
Fixpoint before (sep : ascii) (s : string) : string :=
  match s with
  | EmptyString => EmptyString
  | String c s' => if Ascii.eqb c sep then EmptyString else String c (before sep s')
  end.

(** An event as the calendar server hands it over, as far as the bulk
    path depends on it: a dictionary whose description is a string and
    whose start time is a string or is empty. *)
Definition well_formed_event (event : value) : bool :=
  match event with
  | VDict fields =>
      is_str (dict_get fields "description" (VStr ""))
      && (let start_time := dict_get fields "start_time" (VStr "") in
          is_str start_time || negb (truthy start_time))
  | _ => false
  end.

(** The action items the bulk path extracts for one event. *)
Definition action_items_of (extract_action_items : value) (event : value) : list string :=
  match event with
  | VDict fields =>
      match dict_get fields "description" (VStr "") with
      | VStr description =>
          if truthy extract_action_items
             && negb (String.eqb description "No description")
          then Extract._extract_action_items_from_text description
          else []
      | _ => []
      end
  | _ => []
  end.

(** The title under which the bulk path reports an event. *)
Definition title_of (event : value) : string :=
  match event with
  | VDict fields => py_str (dict_get fields "title" (VStr "Untitled Event"))
  | _ => EmptyString
  end.

(** The entries of [created_tasks] for one event. *)
Definition entries_of (extract_action_items : value) (event : value) : list string :=
  ("Event: " ++ title_of event)
    :: map (fun item => "Action: " ++ item) (action_items_of extract_action_items event).

(** [answers m]: when [m] returns, it returns a list of exactly one text.
    [always_answers m]: [m] returns, from every state, such a list. *)
Definition answers {S} (m : Eff.M S (list Mcp.TextContent)) : Prop :=
  forall st, match fst (m st) with
             | Ok out => exists t, out = [t]
             | Raise _ => True
             end.

Definition always_answers {S} (m : Eff.M S (list Mcp.TextContent)) : Prop :=
  forall st, exists t st', m st = (Ok [t], st').

(** [keeps_handed m]: [m] calls [_create_task] nowhere. *)
Definition keeps_handed {A} (m : Notion.N A) : Prop :=
  forall st, Notion.handed (snd (m st)) = Notion.handed st.

(** A word of lower-case letters, and the same word with a capital. *)
Fixpoint all_lower (s : string) : bool :=
  match s with
  | EmptyString => true
  | String c s' => is_lower c && all_lower s'
  end.

Definition capitalize (s : string) : string :=
  match s with
  | EmptyString => EmptyString
  | String c s' => String (upper_char c) s'
  end.

End Spec.

(* ================================================================== *)
(** ** Sample inputs *)

Module Sample.
Import Py.

Definition vendor_fields : dict :=
  [ ("title", VStr "Vendor sync");
    ("start_time", VStr "2024-03-01T10:00:00Z");
    ("description", VStr "- TODO: call vendor");
    ("location", VStr "Room 4");
    ("attendees", VList [VStr "ann@example.com"]) ].

Definition lunch_fields : dict :=
  [ ("title", VStr "Lunch");
    ("start_time", VStr "2024-03-01");
    ("description", VStr "No description");
    ("location", VStr "No location specified");
    ("attendees", VList []) ].

Definition events : list value := [VDict vendor_fields; VDict lunch_fields].

(** A world whose decoder answers with the two sample events and whose
    remote API accepts every page. *)
Definition world : Notion.world :=
  {| Notion.now_isoformat := "2024-03-01T09:00:00";
     Notion.now_ymd := "2024-03-01";
     Notion.json_loads := fun _ => Ok (VList events);
     Notion.http_post := fun _ _ =>
       Ok {| Http.status_code := 200;
             Http.text := "{}";
             Http.body := Ok (VDict [("id", VStr "page-1")]) |} |}.

Definition server : Notion.server := Notion.new_server (Some "secret") (Some "db-1").

Definition no_secrets : Notion.server := Notion.new_server None None.

(** A raw calendar event with an attendee record that has no ['email']. *)
Definition raw_event : value :=
  VDict [ ("summary", VStr "Planning");
          ("start", VDict [("dateTime", VStr "2024-03-01T10:00:00Z")]);
          ("attendees", VList [ VDict [("email", VStr "ann@example.com")];
                                VDict [("displayName", VStr "Bob")] ]) ].

End Sample.

(* ================================================================== *)
(** ** The tools the two servers advertise *)

Module Tools.
Import Py.

(** [types.Tool(name=..., description=..., inputSchema=...)] *)
Record Tool : Type :=
  { name : string; description : string; inputSchema : value }.

Definition string_property (text : string) : value :=
  VDict [("type", VStr "string"); ("description", VStr text)].

Definition string_property_default (text default : string) : value :=
  VDict [("type", VStr "string"); ("description", VStr text); ("default", VStr default)].

Definition object_schema (properties : dict) (required : list string) : value :=
  VDict [ ("type", VStr "object");
          ("properties", VDict properties);
          ("required", VList (map VStr required)) ].

(** [handle_list_tools] of notion_server.py *)
Definition notion_tools : list Tool :=
  [ {| name := "create_task";
       description := "Create a new task in Notion database";
       inputSchema :=
         object_schema
           [ ("title", string_property "Task title");
             ("description", string_property_default "Task description" "");
             ("due_date", string_property_default "Due date in YYYY-MM-DD format" "");
             ("priority",
              VDict [ ("type", VStr "string");
                      ("description", VStr "Task priority (High, Medium, Low)");
                      ("enum", VList [VStr "High"; VStr "Medium"; VStr "Low"]);
                      ("default", VStr "Medium") ]);
             ("source",
              string_property_default "Source of the task (e.g., Calendar, Meeting)"
                "Calendar") ]
           ["title"] |};
    {| name := "create_tasks_from_calendar_events";
       description := "Create tasks from calendar events and extract action items";
       inputSchema :=
         object_schema
           [ ("events", string_property "JSON string of calendar events");
             ("extract_action_items",
              VDict [ ("type", VStr "boolean");
                      ("description",
                       VStr "Whether to extract action items from event descriptions");
                      ("default", VBool true) ]) ]
           ["events"] |};
    {| name := "create_meeting_summary";
       description := "Create a meeting summary with action items in Notion";
       inputSchema :=
         object_schema
           [ ("meeting_title", string_property "Meeting title");
             ("meeting_date", string_property "Meeting date in YYYY-MM-DD format");
             ("attendees", string_property "Comma-separated list of attendees");
             ("summary", string_property "Meeting summary/notes");
             ("action_items", string_property "JSON string of action items") ]
           ["meeting_title"; "summary"] |};
    {| name := "get_tasks";
       description := "Get tasks from Notion database";
       inputSchema :=
         object_schema
           [ ("filter_by",
              string_property_default "Filter tasks by status, priority, or source" "") ]
           [] |} ].

(** [handle_list_tools] of calendar_server.py *)
Definition calendar_tools : list Tool :=
  [ {| name := "get_todays_events";
       description := "Get all events for today from Google Calendar";
       inputSchema :=
         object_schema
           [ ("calendar_id",
              string_property_default "Calendar ID (default: 'primary')" "primary") ]
           [] |};
    {| name := "get_events_by_date";
       description := "Get events for a specific date";
       inputSchema :=
         object_schema
           [ ("date", string_property "Date in YYYY-MM-DD format");
             ("calendar_id",
              string_property_default "Calendar ID (default: 'primary')" "primary") ]
           ["date"] |};
    {| name := "extract_meeting_details";
       description := "Extract and summarize details from a meeting/event";
       inputSchema :=
         object_schema
           [ ("event_text", string_property "Event description or meeting notes") ]
           ["event_text"] |} ].

(** The keys a tool's schema lists under ["required"]. *)
Definition required_keys (tool : Tool) : list string :=
  match inputSchema tool with
  | VDict schema =>
      match lookup schema "required" with
      | Some (VList keys) =>
          flat_map (fun key => match key with VStr k => [k] | _ => [] end) keys
      | _ => []
      end
  | _ => []
  end.

End Tools.

(* ================================================================== *)
(** ** A sample calendar *)

Module SampleCalendar.
Import Py.

(** A calendar with one timed event and one all-day event on every day,
    an encoder that prints values the way Python's [repr] does, and a
    credential flow that succeeds. *)
Definition world : Calendar.world :=
  {| Calendar.today := (2024, 2, 29);
     Calendar.authenticate := Ok tt;
     Calendar.events_list := fun _ time_min _ =>
       Ok (VDict [("items",
                   VList [ Sample.raw_event;
                           VDict [ ("summary", VStr "Offsite");
                                   ("start", VDict [("date", VStr time_min)]) ] ])]);
     Calendar.json_dumps := py_repr |}.

(** The same calendar with no event at all. *)
Definition empty_world : Calendar.world :=
  {| Calendar.today := (2024, 2, 29);
     Calendar.authenticate := Ok tt;
     Calendar.events_list := fun _ _ _ => Ok (VDict [("items", VList [])]);
     Calendar.json_dumps := py_repr |}.

(** A calendar whose day has the sample event and an event without a
    ['start']. *)
Definition spoiled_world : Calendar.world :=
  {| Calendar.today := (2024, 2, 29);
     Calendar.authenticate := Ok tt;
     Calendar.events_list := fun _ _ _ =>
       Ok (VDict [("items",
                   VList [Sample.raw_event; VDict [("summary", VStr "Draft")]])]);
     Calendar.json_dumps := py_repr |}.

(** A raw event as the calendar API returns it, with two attendees who
    have an address, and no description. *)
Definition review : dict :=
  [ ("summary", VStr "Review");
    ("start", VDict [("dateTime", VStr "2024-03-01T10:00:00Z")]);
    ("attendees", VList [ VDict [("email", VStr "ann@example.com")];
                          VDict [("email", VStr "bob@example.com");
                                 ("displayName", VStr "Bob")] ]) ].

(** A calendar nobody can sign in to. *)
Definition locked_world : Calendar.world :=
  {| Calendar.today := (2024, 2, 29);
     Calendar.authenticate :=
       Raise (mk_exn LibraryError "credentials.json file not found.");
     Calendar.events_list := fun _ _ _ => Ok (VDict [("items", VList [])]);
     Calendar.json_dumps := py_repr |}.

End SampleCalendar.

(* ================================================================== *)
(** ** Definitions used to state the further properties *)

Module Cover.
Import PyStr Py.

(** [keeps proj m]: whatever [m] does, the part [proj] of the state comes
    out as it went in. *)
Definition keeps {S X A} (proj : S -> X) (m : Eff.M S A) : Prop :=
  forall st, proj (snd (m st)) = proj st.

(** A request that creates a page. *)
Definition creates_page (self : Notion.server) (rq : Http.request) : Prop :=
  Http.url rq = Notion.notion_url self ++ "/pages".

Definition is_main_task (arguments : dict) : Prop :=
  lookup arguments "priority" = Some (VStr "Medium")
  /\ lookup arguments "source" = Some (VStr "Calendar").

Definition is_action_task (arguments : dict) : Prop :=
  lookup arguments "priority" = Some (VStr "High")
  /\ lookup arguments "source" = Some (VStr "Meeting").

(** The action tasks of one event, as the bulk path hands them over. *)
Definition action_tasks_of (extract_action_items : value) (event : value) : list dict :=
  match event with
  | VDict fields =>
      map (fun item =>
             Notion.action_task_args item
               (dict_get fields "title" (VStr "Untitled Event"))
               (Notion.due_date_of (dict_get fields "start_time" (VStr ""))))
        (Spec.action_items_of extract_action_items event)
  | _ => []
  end.

(** The tasks handed over for a list of events: for each event in turn a
    main task, then its action tasks. *)
Fixpoint handed_for (extract_action_items : value) (events : list value)
         (tasks : list dict) : Prop :=
  match events with
  | [] => tasks = []
  | event :: rest =>
      exists main tasks',
        tasks = (main :: action_tasks_of extract_action_items event ++ tasks')%list
        /\ is_main_task main
        /\ handed_for extract_action_items rest tasks'
  end.

(** A date of the calendar, between years 1 and 9999. *)
Definition valid_date (d : Dates.date) : bool :=
  let '(y, m, dd) := d in
  Nat.leb 1 y && Nat.leb y 9999 && Nat.leb 1 m && Nat.leb m 12
  && Nat.leb 1 dd && Nat.leb dd (Dates.days_in_month y m).

(** A date written [YYYY-MM-DD]. *)
Definition iso_day (d : Dates.date) : string :=
  let '(y, m, dd) := d in
  Dates.pad4 y ++ "-" ++ Dates.pad2 m ++ "-" ++ Dates.pad2 dd.

(** [pad2 n] is two digits that read [n]; [pad4 n] is four. *)
Definition pad2_ok (n : nat) : bool :=
  match Dates.pad2 n with
  | String a (String b EmptyString) =>
      Dates.is_digit a && Dates.is_digit b
      && Nat.eqb (10 * Dates.digit a + Dates.digit b) n
  | _ => false
  end.

Definition pad4_ok (n : nat) : bool :=
  match Dates.pad4 n with
  | String a (String b (String c (String d EmptyString))) =>
      Dates.is_digit a && Dates.is_digit b && Dates.is_digit c && Dates.is_digit d
      && Nat.eqb (100 * (10 * Dates.digit a + Dates.digit b)
                  + (10 * Dates.digit c + Dates.digit d)) n
  | _ => false
  end.

(** The world [w] with another credential flow. *)
Definition with_authenticate (w : Calendar.world) (flow : result unit) : Calendar.world :=
  {| Calendar.today := Calendar.today w;
     Calendar.authenticate := flow;
     Calendar.events_list := Calendar.events_list w;
     Calendar.json_dumps := Calendar.json_dumps w |}.

(** Dates in the order of the calendar. *)
Definition date_lt (a b : Dates.date) : Prop :=
  let '(y, m, d) := a in
  let '(y', m', d') := b in
  y < y' \/ (y = y' /\ (m < m' \/ (m = m' /\ d < d'))).

End Cover.

(* ================================================================== *)
(** ** More sample worlds for the Notion server *)

Module SampleNotion.
Import Py.

(** A world whose decoder rejects every text. *)
Definition undecodable : Notion.world :=
  {| Notion.now_isoformat := "2024-03-01T09:00:00";
     Notion.now_ymd := "2024-03-01";
     Notion.json_loads := fun _ =>
       Raise (mk_exn JSONDecodeError "Expecting value: line 1 column 1 (char 0)");
     Notion.http_post := fun _ _ =>
       Ok {| Http.status_code := 200;
             Http.text := "{}";
             Http.body := Ok (VDict [("id", VStr "page-1")]) |} |}.

(** A page of the task database as the remote API returns it. *)
Definition page (title status priority : string) : value :=
  VDict [("properties",
          VDict [ ("Name", VDict [("title",
                     VList [VDict [("text", VDict [("content", VStr title)])]])]);
                  ("Status", VDict [("select", VDict [("name", VStr status)])]);
                  ("Priority", VDict [("select", VDict [("name", VStr priority)])]) ])].

(** A world whose remote API lists two tasks, the second one bare, and
    whose decoder reads ["<items>"] as a list of seven action items. *)
Definition listing : Notion.world :=
  {| Notion.now_isoformat := "2024-03-01T09:00:00";
     Notion.now_ymd := "2024-03-01";
     Notion.json_loads := fun _ =>
       Ok (VList (map VStr ["one"; "two"; "three"; "four"; "five"; "six"; "seven"]));
     Notion.http_post := fun _ _ =>
       Ok {| Http.status_code := 200;
             Http.text := "{}";
             Http.body :=
               Ok (VDict [ ("id", VStr "page-1");
                           ("results",
                            VList [ page "Pay rent" "Not started" "High";
                                    VDict [] ]) ]) |} |}.

(** A world whose remote API refuses every request. *)
Definition refusing : Notion.world :=
  {| Notion.now_isoformat := "2024-03-01T09:00:00";
     Notion.now_ymd := "2024-03-01";
     Notion.json_loads := fun _ => Ok (VList Sample.events);
     Notion.http_post := fun _ _ =>
       Ok {| Http.status_code := 401;
             Http.text := "unauthorized";
             Http.body := Ok (VDict []) |} |}.

(** A kickoff whose notes look like a meeting and hold two action
    items. *)
Definition kickoff_notes : string :=
  "Kickoff meeting to discuss the launch plan." ++ nl
  ++ "- TODO: send the budget to finance" ++ nl
  ++ "* follow up with the vendor next week".

Definition kickoff_fields : dict :=
  [ ("title", VStr "Kickoff");
    ("start_time", VStr "2024-03-04T09:00:00Z");
    ("description", VStr kickoff_notes);
    ("location", VStr "Room 2");
    ("attendees", VList [VStr "ann@example.com"; VStr "bob@example.com"]) ].

(** A world whose decoder gives back the action items of the kickoff. *)
Definition kickoff_world : Notion.world :=
  {| Notion.now_isoformat := "2024-03-01T09:00:00";
     Notion.now_ymd := "2024-03-01";
     Notion.json_loads := fun _ =>
       Ok (VList (map VStr (Extract._extract_action_items_simple kickoff_notes)));
     Notion.http_post := fun _ _ =>
       Ok {| Http.status_code := 200;
             Http.text := "{}";
             Http.body := Ok (VDict [("id", VStr "page-1")]) |} |}.

(** A stand-up without a description, in a room. *)
Definition standup_fields : dict :=
  [ ("title", VStr "Stand-up");
    ("start_time", VStr "2024-03-01T09:30:00Z");
    ("description", VStr "No description");
    ("location", VStr "Room 1");
    ("attendees", VList []) ].

(** A world whose decoder answers with two events without a description. *)
Definition quiet_day : Notion.world :=
  {| Notion.now_isoformat := "2024-03-01T09:00:00";
     Notion.now_ymd := "2024-03-01";
     Notion.json_loads := fun _ =>
       Ok (VList [VDict Sample.lunch_fields; VDict standup_fields]);
     Notion.http_post := fun _ _ =>
       Ok {| Http.status_code := 200;
             Http.text := "{}";
             Http.body := Ok (VDict [("id", VStr "page-1")]) |} |}.

(** A world whose decoder answers with the vendor event, then a number
    where an event should be, then the lunch event. *)
Definition broken_batch : Notion.world :=
  {| Notion.now_isoformat := "2024-03-01T09:00:00";
     Notion.now_ymd := "2024-03-01";
     Notion.json_loads := fun _ =>
       Ok (VList [VDict Sample.vendor_fields; VInt 7; VDict Sample.lunch_fields]);
     Notion.http_post := fun _ _ =>
       Ok {| Http.status_code := 200;
             Http.text := "{}";
             Http.body := Ok (VDict [("id", VStr "page-1")]) |} |}.

End SampleNotion.

(* ================================================================== *)
(** * Properties *)

Import PyStr Py Eff Mcp Spec.

(** ** The primitives on sample values *)

Example strip_sample : strip ("  - Todo " ++ String (ascii_of_nat 9) "") = "- Todo".
Proof. reflexivity. Qed.

Example replace_sample : replace "- " "" "a - b - c" = "a b c".
Proof. reflexivity. Qed.

Example title_sample : title "hIGH pRIORITY" = "High Priority".
Proof. reflexivity. Qed.

Example split_sample : split newline ("a" ++ nl ++ "b" ++ nl) = ["a"; "b"; ""].
Proof. reflexivity. Qed.

Example strptime_sample :
  Dates.strptime "2024-3-1" = Ok (2024, 3, 1)
  /\ Dates.strptime "2024-02-29" = Ok (2024, 2, 29)
  /\ Dates.strptime "2023-02-29"
     = Raise (mk_exn ValueError "day is out of range for month")
  /\ Dates.strptime "2024-03-01T10:00:00Z"
     = Raise (mk_exn ValueError "unconverted data remains: T10:00:00Z")
  /\ Dates.strptime "tomorrow"
     = Raise (mk_exn ValueError "time data 'tomorrow' does not match format '%Y-%m-%d'").
Proof. repeat split; reflexivity. Qed.

Example str_sample :
  py_str (VList [VInt 1; VStr "a"; VNone; VDict [("k", VBool true)]])
  = "[1, 'a', None, {'k': True}]".
Proof. reflexivity. Qed.

(** ** Strings *)

Lemma lower_char_newline (c : ascii) :
  Ascii.eqb (lower_char c) newline = Ascii.eqb c newline.
Proof.
  destruct c as [[] [] [] [] [] [] [] []]; reflexivity.
Qed.

Lemma split_nonempty (sep : ascii) (s : string) : split sep s <> [].
Proof.
  destruct s as [|c s]; simpl; [discriminate|].
  destruct (Ascii.eqb c sep); [discriminate|].
  destruct (split sep s); discriminate.
Qed.

Lemma split_lower (s : string) :
  split newline (lower s) = map lower (split newline s).
Proof.
  induction s as [|c s IH]; simpl; [reflexivity|].
  rewrite lower_char_newline.
  destruct (Ascii.eqb c newline) eqn:E.
  - simpl. now rewrite IH.
  - rewrite IH. destruct (split newline s); reflexivity.
Qed.

Lemma rstrip_keeps (c : ascii) (s : string) :
  isspace c = false -> nonempty (rstrip (String c s)) = true.
Proof.
  intros H. simpl. destruct (rstrip s); [rewrite H|]; reflexivity.
Qed.

Lemma strip_cons_nonempty (a : ascii) (s : string) :
  nonempty (strip s) = true -> nonempty (strip (String a s)) = true.
Proof.
  unfold strip. simpl. destruct (isspace a) eqn:E; [trivial|].
  intros _. now apply rstrip_keeps.
Qed.

Lemma prefix_head (c a : ascii) (k s : string) :
  prefix (String c k) (String a s) = true -> a = c.
Proof.
  simpl. destruct (ascii_dec c a); [congruence | discriminate].
Qed.

Lemma contains_nonblank (c : ascii) (k s : string) :
  isspace c = false -> contains (String c k) s = true -> nonempty (strip s) = true.
Proof.
  intros Hc. induction s as [|a s IH]; intros H.
  - discriminate.
  - change (contains (String c k) (String a s))
      with (prefix (String c k) (String a s) || contains (String c k) s) in H.
    apply orb_true_iff in H as [H|H].
    + apply prefix_head in H. subst a. unfold strip. simpl lstrip.
      rewrite Hc. now apply rstrip_keeps.
    + apply strip_cons_nonempty. auto.
Qed.

Lemma keyword_nonblank (line : string) :
  Extract.any_keyword_in line = true -> nonempty (strip line) = true.
Proof.
  unfold Extract.any_keyword_in. intros H.
  apply existsb_exists in H as (kw & Hin & Hc).
  simpl in Hin.
  repeat (destruct Hin as [<-|Hin];
          [eapply contains_nonblank; [|exact Hc]; reflexivity|]).
  contradiction.
Qed.

(** ** Action-item extraction *)

Lemma scan_line_step (width : nat) (acc : list string) (line : string) :
  Extract.scan_line width acc (lower line) = (acc ++ Spec.item_of width line)%list.
Proof.
  unfold Extract.scan_line, Spec.item_of, Spec.cleaned.
  destruct (Extract.any_keyword_in (lower line)) eqn:K.
  - rewrite (keyword_nonblank _ K). simpl.
    set (c := strip (replace "* " "" (replace "- " "" (strip (lower line))))).
    destruct (Nat.ltb 10 (String.length c)) eqn:L.
    + destruct c; [discriminate|]. reflexivity.
    + rewrite andb_false_r. now rewrite app_nil_r.
  - rewrite andb_false_r. simpl. now rewrite app_nil_r.
Qed.

Lemma scan_lines_from (width : nat) (lines acc : list string) :
  fold_left (Extract.scan_line width) (map lower lines) acc
  = (acc ++ flat_map (Spec.item_of width) lines)%list.
Proof.
  revert acc. induction lines as [|l ls IH]; intros acc; simpl.
  - now rewrite app_nil_r.
  - rewrite scan_line_step, IH. now rewrite <- app_assoc.
Qed.

Lemma extract_action_items_eq (width cap : nat) (text : string) :
  Extract.extract_action_items width cap text
  = firstn cap (flat_map (Spec.item_of width) (split newline text)).
Proof.
  unfold Extract.extract_action_items, Extract.scan_lines.
  now rewrite split_lower, scan_lines_from.
Qed.

(** C1, as stated, fails: the text is lower-cased before it is split into
    lines, so the item that comes out of ["- TODO: call vendor"] is
    ["todo: call vendor"] and not ["TODO: call vendor"], on both paths; and
    a ["- "] inside a line is removed like a leading one. *)
Lemma vendor_line_loses_its_case :
  Extract._extract_action_items_from_text "- TODO: call vendor" = ["todo: call vendor"]
  /\ Extract._extract_action_items_simple "- TODO: call vendor" = ["todo: call vendor"]
  /\ ~ In "TODO: call vendor"
         (Extract._extract_action_items_from_text "- TODO: call vendor")
  /\ ~ In "TODO: call vendor"
         (Extract._extract_action_items_simple "- TODO: call vendor")
  /\ Extract._extract_action_items_from_text "todo: ping - vendor" = ["todo: ping vendor"].
Proof.
  repeat split; try reflexivity;
    (vm_compute; intros [H|[]]; discriminate H).
Qed.

(** C1 (amended): for ASCII text, the items extracted are, in the order
    of the lines of the text and up to the cap of the path (5 or 3), one
    item for every line that contains an action keyword once lower-cased and
    whose cleaned form is longer than 10 characters; the item is that
    cleaned form cut to the width of the path (100 or 80), where the cleaned
    form is the lower-cased line, stripped, after [.replace('- ', '')]
    followed by [.replace('* ', '')], and stripped again.  The line
    ["- TODO: call vendor"] gives ["todo: call vendor"]; a marker inside a
    line goes like a leading one; and since the two replacements follow each
    other, ["todo: -*  call vendor"] keeps a ["- "]. *)
Theorem extracted_items_are_cleaned_lowercase_lines :
  (forall text,
      Spec.ascii_text text = true ->
      Extract._extract_action_items_from_text text
      = firstn 5 (flat_map (Spec.item_of 100) (split newline text))
      /\ Extract._extract_action_items_simple text
         = firstn 3 (flat_map (Spec.item_of 80) (split newline text)))
  /\ Spec.item_of 100 "- TODO: call vendor" = ["todo: call vendor"]
  /\ Spec.item_of 80 "  * Follow up - Vendor Call " = ["follow up vendor call"]
  /\ Spec.item_of 100 "todo: -*  call vendor" = ["todo: - call vendor"].
Proof.
  split; [|split; [|split]].
  - intros text _. split; apply extract_action_items_eq.
  - reflexivity.
  - reflexivity.
  - reflexivity.
Qed.

(** C5: whatever the text and however many of its lines match, the bulk
    path returns at most 5 action items and the meeting-summary path at
    most 3. *)
Theorem action_items_within_cap (text : string) :
  List.length (Extract._extract_action_items_from_text text) <= 5
  /\ List.length (Extract._extract_action_items_simple text) <= 3.
Proof.
  unfold Extract._extract_action_items_from_text, Extract._extract_action_items_simple,
    Extract.extract_action_items.
  split; apply firstn_le_length.
Qed.

(** Both caps are reached: seven matching lines give five items on the
    bulk path and three on the meeting-summary path. *)
Example caps_are_reached :
  let text := join nl (map (fun n => "todo: item number " ++ n)
                         ["1"; "2"; "3"; "4"; "5"; "6"; "7"]) in
  Extract._extract_action_items_from_text text
  = map (fun n => "todo: item number " ++ n) ["1"; "2"; "3"; "4"; "5"]
  /\ Extract._extract_action_items_simple text
     = map (fun n => "todo: item number " ++ n) ["1"; "2"; "3"].
Proof. split; reflexivity. Qed.

(** ** Computations that answer with one text *)

Section Answers.
Context {S : Type}.

Lemma answers_ret (t : TextContent) : answers (S := S) (ret [t]).
Proof. intros st. simpl. now exists t. Qed.

Lemma answers_raise (e : exn) : answers (S := S) (raise e).
Proof. intros st. exact I. Qed.

Lemma answers_bind {A} (m : M S A) (k : A -> M S (list TextContent)) :
  (forall a, answers (k a)) -> answers (bind m k).
Proof.
  intros H st. unfold bind. destruct (m st) as [[a|e] st']; [apply H | exact I].
Qed.

Lemma answers_try (body : M S (list TextContent)) caught handler :
  answers body -> (forall e, answers (handler e)) ->
  answers (try_except body caught handler).
Proof.
  intros Hb Hh st. unfold try_except. specialize (Hb st).
  destruct (body st) as [[a|e] st']; [exact Hb|].
  destruct (caught e); [apply Hh | exact I].
Qed.

Lemma always_answers_ret (t : TextContent) : always_answers (S := S) (ret [t]).
Proof. intros st. now exists t, st. Qed.

Lemma always_answers_try (body : M S (list TextContent)) handler :
  answers body -> (forall e, always_answers (handler e)) ->
  always_answers (try_except body any_exception handler).
Proof.
  intros Hb Hh st. unfold try_except. specialize (Hb st).
  destruct (body st) as [[a|e] st']; simpl in *.
  - destruct Hb as [t ->]. now exists t, st'.
  - apply Hh.
Qed.

End Answers.

(** Goes through a computation built from binds, conditionals and
    [try] blocks down to its [ret [_]] leaves. *)
Ltac answers_step :=
  match goal with
  | |- answers (ret [_]) => apply answers_ret
  | |- answers (raise _) => apply answers_raise
  | |- answers (bind _ _) => apply answers_bind; intros
  | |- answers (try_except _ _ _) => apply answers_try; intros
  | |- answers (if ?c then _ else _) => destruct c
  | |- answers (match ?x with _ => _ end) => destruct x
  | |- answers (let _ := _ in _) => cbv zeta
  end.

Lemma notion_create_task_answers w self arguments :
  answers (Notion._create_task w self arguments).
Proof. unfold Notion._create_task. repeat answers_step. Qed.

Lemma notion_bulk_answers w self arguments :
  answers (Notion._create_tasks_from_calendar_events w self arguments).
Proof. unfold Notion._create_tasks_from_calendar_events. repeat answers_step. Qed.

Lemma notion_summary_answers w self arguments :
  answers (Notion._create_meeting_summary w self arguments).
Proof. unfold Notion._create_meeting_summary. repeat answers_step. Qed.

Lemma notion_get_tasks_answers w self arguments :
  answers (Notion._get_tasks w self arguments).
Proof. unfold Notion._get_tasks. repeat answers_step. Qed.

Lemma calendar_list_events_answers w calendar_id time_min time_max none_found :
  answers (Calendar.list_events w calendar_id time_min time_max none_found).
Proof. unfold Calendar.list_events. repeat answers_step. Qed.

Lemma calendar_today_answers w arguments :
  answers (Calendar._get_todays_events w arguments).
Proof.
  unfold Calendar._get_todays_events. repeat answers_step.
  apply calendar_list_events_answers.
Qed.

Lemma calendar_by_date_answers w arguments :
  answers (Calendar._get_events_by_date w arguments).
Proof.
  unfold Calendar._get_events_by_date. repeat answers_step.
  apply calendar_list_events_answers.
Qed.

Lemma calendar_details_answers w arguments :
  answers (Calendar._extract_meeting_details w arguments).
Proof. unfold Calendar._extract_meeting_details. repeat answers_step. Qed.

(** C4: whatever the tool name (known or not) and whatever the arguments
    (absent, incomplete or of the wrong type), the tool-call handler of the
    Notion server and that of the calendar server return, from every state
    and for every behaviour of the outside world, a list of one text; they
    never raise. *)
Theorem handlers_always_answer :
  (forall w self name arguments st,
      exists t st', Notion.handle_call_tool w self name arguments st = (Ok [t], st'))
  /\ (forall w name arguments service,
      exists t service',
        Calendar.handle_call_tool w name arguments service = (Ok [t], service')).
Proof.
  split; intros.
  - revert st. change (always_answers (Notion.handle_call_tool w self name arguments)).
    unfold Notion.handle_call_tool. apply always_answers_try.
    + repeat answers_step;
        auto using notion_create_task_answers, notion_bulk_answers,
          notion_summary_answers, notion_get_tasks_answers.
    + intros e. apply always_answers_ret.
  - revert service. change (always_answers (Calendar.handle_call_tool w name arguments)).
    unfold Calendar.handle_call_tool. apply always_answers_try.
    + repeat answers_step;
        auto using calendar_today_answers, calendar_by_date_answers,
          calendar_details_answers.
    + intros e. apply always_answers_ret.
Qed.

(** ** The record of the calls of [_create_task] *)

Import Notion.

Lemma keeps_ret {A} (a : A) : keeps_handed (ret a).
Proof. intros st. reflexivity. Qed.

Lemma keeps_lift {A} (r : result A) : keeps_handed (lift r).
Proof. intros st. reflexivity. Qed.

Lemma keeps_post w rq : keeps_handed (post w rq).
Proof. intros st. reflexivity. Qed.

Lemma keeps_bind {A B} (m : N A) (k : A -> N B) :
  keeps_handed m -> (forall a, keeps_handed (k a)) -> keeps_handed (bind m k).
Proof.
  intros Hm Hk st. unfold bind. specialize (Hm st).
  destruct (m st) as [[a|e] st']; simpl in *; [|exact Hm].
  now rewrite Hk.
Qed.

Lemma keeps_try {A} (body : N A) caught handler :
  keeps_handed body -> (forall e, keeps_handed (handler e)) ->
  keeps_handed (try_except body caught handler).
Proof.
  intros Hb Hh st. unfold try_except. specialize (Hb st).
  destruct (body st) as [[a|e] st']; simpl in *; [exact Hb|].
  destruct (caught e); simpl; [|exact Hb]. now rewrite Hh.
Qed.

Ltac keeps_step :=
  match goal with
  | |- keeps_handed (ret _) => apply keeps_ret
  | |- keeps_handed (lift _) => apply keeps_lift
  | |- keeps_handed (post _ _) => apply keeps_post
  | |- keeps_handed (bind _ _) => apply keeps_bind; intros
  | |- keeps_handed (try_except _ _ _) => apply keeps_try; intros
  | |- keeps_handed (if ?c then _ else _) => destruct c
  | |- keeps_handed (let _ := _ in _) => cbv zeta
  end.

(** Whatever happens in it, a call of [_create_task] is recorded once. *)
Lemma create_task_handed w self arguments st :
  handed (snd (_create_task w self arguments st)) = (handed st ++ [arguments])%list.
Proof.
  unfold _create_task.
  match goal with
  | |- handed (snd (bind (note_task ?a) ?k ?st)) = _ =>
      change (bind (note_task a) k st)
        with (k tt {| sent := sent st; handed := (handed st ++ [a])%list |});
      assert (H : keeps_handed (k tt)) by (cbv beta; repeat keeps_step);
      now rewrite H
  end.
Qed.

(** Without its two secrets [_create_task] answers locally and sends
    nothing. *)
Lemma create_task_not_configured w self arguments st :
  configured (notion_api_key self) && configured (notion_database_id self) = false ->
  _create_task w self arguments st
  = (Ok [text_content not_configured],
     {| sent := sent st; handed := (handed st ++ [arguments])%list |}).
Proof.
  intros H. unfold _create_task.
  replace (negb (configured (notion_api_key self))
           || negb (configured (notion_database_id self))) with true.
  - reflexivity.
  - symmetry. rewrite <- negb_andb. now rewrite H.
Qed.

(** ** Missing secrets *)

Lemma glyph_message_differs (g rest : string) :
  (g = Glyph.err \/ g = Glyph.clipboard) -> g ++ rest <> not_configured.
Proof.
  intros [-> | ->]; discriminate.
Qed.

(** C2 fails on [get_tasks]: with neither secret set and no filter, the
    call does not answer "not configured".  It posts a query to the remote
    API, for the database ["None"] and with the bearer token ["None"], and
    answers with what comes of that request.  ([_create_task] has the guard,
    see [create_task_not_configured]; [_get_tasks] has none.) *)
Theorem get_tasks_without_secrets_posts (w : world) (st : state) :
  let self := new_server None None in
  exists msg st',
    _get_tasks w self [] st = (Ok [text_content msg], st')
    /\ msg <> not_configured
    /\ sent st'
       = (sent st ++
          [ {| Http.url := "https://api.notion.com/v1/databases/None/query";
               Http.headers := [ ("Authorization", "Bearer None");
                                 ("Content-Type", "application/json");
                                 ("Notion-Version", "2022-06-28") ];
               Http.json := VDict [("page_size", VInt 10)] |} ])%list.
Proof.
  intros self. unfold _get_tasks, try_except, bind, lift, post, query_payload, ret.
  cbn [dict_get lookup truthy nonempty sent handed].
  match goal with
  | |- context [http_post w (sent st) ?rq] =>
      destruct (http_post w (sent st) rq) as [response|e]
  end.
  2:{ eexists _, _. split; [reflexivity|]. split; [|reflexivity].
      apply glyph_message_differs. now left. }
  destruct (Z.eqb (Http.status_code response) 200).
  2:{ eexists _, _. split; [reflexivity|]. split; [|reflexivity].
      apply glyph_message_differs. now left. }
  destruct (Http.body response) as [data|e].
  2:{ eexists _, _. split; [reflexivity|]. split; [|reflexivity].
      apply glyph_message_differs. now left. }
  destruct (py_get data "results" (VList [])) as [results|e].
  2:{ eexists _, _. split; [reflexivity|]. split; [|reflexivity].
      apply glyph_message_differs. now left. }
  destruct (py_iter results) as [pages|e].
  2:{ eexists _, _. split; [reflexivity|]. split; [|reflexivity].
      apply glyph_message_differs. now left. }
  destruct (map_result task_line pages) as [[|line lines]|e].
  all: eexists _, _; (split; [reflexivity|]); (split; [|reflexivity]);
    apply glyph_message_differs; auto.
Qed.

(** ** Due dates *)

Lemma dict_get_found (d : dict) (key : string) (v default : value) :
  lookup d key = Some v -> dict_get d key default = v.
Proof. unfold dict_get. now intros ->. Qed.


Lemma strptime_raises_ValueError (s : string) (e : exn) :
  Dates.strptime s = Raise e -> is_ValueError e = true.
Proof.
  unfold Dates.strptime, Dates.no_match.
  repeat match goal with
         | |- context [match ?x with _ => _ end] => destruct x
         end;
    intros H; inversion H; reflexivity.
Qed.

(** C7: a [create_task] call on a configured server, with a title and
    with a non-empty [due_date] string that [strptime] rejects for
    ["%Y-%m-%d"], still posts its request and answers with one text; the
    properties of the page that is posted are Name, Status, Priority,
    Source and Created, with the values of the call, and no Due Date; the
    description, when there is one, goes along as the page's children.
    When the remote API answers 200 with a page id, the answer is the
    success message. *)
Theorem unparsable_due_date_is_left_out :
  forall w self arguments st title due e,
    configured (notion_api_key self) = true ->
    configured (notion_database_id self) = true ->
    lookup arguments "title" = Some title ->
    lookup arguments "due_date" = Some (VStr due) ->
    due <> "" ->
    Dates.strptime due = Raise e ->
    exists rq payload properties t st',
      _create_task w self arguments st = (Ok [t], st')
      /\ sent st' = (sent st ++ [rq])%list
      /\ Http.url rq = notion_url self ++ "/pages"
      /\ Http.json rq = VDict payload
      /\ lookup payload "properties" = Some (VDict properties)
      /\ map fst properties = ["Name"; "Status"; "Priority"; "Source"; "Created"]
      /\ lookup properties "Due Date" = None
      /\ lookup properties "Name"
         = Some (VDict [("title", VList [VDict [("text", VDict [("content", title)])]])])
      /\ lookup properties "Priority"
         = Some (VDict [("select",
                         VDict [("name", dict_get arguments "priority" (VStr "Medium"))])])
      /\ lookup properties "Source"
         = Some (VDict [("select",
                         VDict [("name", dict_get arguments "source" (VStr "Calendar"))])])
      /\ (truthy (dict_get arguments "description" (VStr "")) = true ->
          exists children, lookup payload "children" = Some children)
      /\ (forall response result page_id,
             http_post w (sent st) rq = Ok response ->
             Http.status_code response = 200%Z ->
             Http.body response = Ok result ->
             py_getitem result "id" = Ok page_id ->
             text t = Glyph.ok ++ " Task created successfully: '" ++ py_str title
                        ++ "'" ++ nl ++ "Page ID: " ++ py_str page_id).
Proof.
  intros w self arguments st title due e Hkey Hdb Htitle Hdue Hne Hparse.
  unfold _create_task.
  rewrite Hkey, Hdb. cbn [negb orb].
  unfold dict_getitem. rewrite Htitle.
  rewrite (dict_get_found _ _ _ _ Hdue).
  assert (Ht : truthy (VStr due) = true) by (destruct due; [congruence | reflexivity]).
  rewrite Ht. cbn [Dates.py_strptime]. rewrite Hparse.
  cbv [bind note_task lift try_except ret post any_exception].
  rewrite (strptime_raises_ValueError _ _ Hparse).
  cbn [sent handed].
  destruct (truthy (dict_get arguments "description" (VStr ""))) eqn:Hd;
    cbn [dict_set String.eqb Ascii.eqb Bool.eqb];
    match goal with
    | |- context [http_post w (sent st) ?rq] =>
        destruct (http_post w (sent st) rq) as [response|e'] eqn:Hpost
    end;
    try destruct (Z.eqb (Http.status_code response) 200) eqn:Hstatus;
    try destruct (Http.body response) as [result|e'] eqn:Hbody;
    try destruct (py_getitem result "id") as [page_id|e'] eqn:Hid.
  all: do 5 eexists.
  all: repeat match goal with |- _ /\ _ => split end; try reflexivity.
  all: try (intros _; eexists; reflexivity).
  all: try discriminate.
  all: intros response' result' page_id' H1 H2 H3 H4.
  all: rewrite Hpost in H1; try discriminate H1; injection H1 as <-.
  all: try (rewrite H2 in Hstatus; discriminate Hstatus).
  all: cbn [text text_content]; congruence.
Qed.

(** ** The priority filter of [get_tasks] *)

Lemma lower_char_cased (c : ascii) :
  is_lower (lower_char c) = true ->
  (is_upper c || is_lower c) = true /\ upper_char c = upper_char (lower_char c).
Proof.
  destruct c as [[] [] [] [] [] [] [] []]; vm_compute; intros H;
    first [discriminate H | split; reflexivity].
Qed.

Lemma title_from_true_word (s : string) :
  Spec.all_lower (lower s) = true -> title_from true s = lower s.
Proof.
  induction s as [|c s IH]; simpl; [reflexivity|].
  intros H. apply andb_true_iff in H as [Hc Hs].
  destruct (lower_char_cased c Hc) as [-> _]. now rewrite IH.
Qed.

Lemma title_word (s : string) :
  Spec.all_lower (lower s) = true -> title s = Spec.capitalize (lower s).
Proof.
  destruct s as [|c s]; [reflexivity|]. unfold title. simpl.
  intros H. apply andb_true_iff in H as [Hc Hs].
  destruct (lower_char_cased c Hc) as [-> <-].
  now rewrite title_from_true_word.
Qed.

Lemma query_payload_level (s level : string) :
  In (lower s, level) [("high", "High"); ("medium", "Medium"); ("low", "Low")] ->
  query_payload (VStr s)
  = Ok [ ("page_size", VInt 10);
         ("filter", VDict [ ("property", VStr "Priority");
                            ("select", VDict [("equals", VStr level)]) ]) ].
Proof.
  intros Hin.
  assert (Hs : s <> "").
  { intros ->. simpl in Hin. intuition discriminate. }
  assert (Hw : Spec.all_lower (lower s) = true /\ Spec.capitalize (lower s) = level
               /\ existsb (String.eqb (lower s)) ["high"; "medium"; "low"] = true).
  { simpl in Hin. destruct Hin as [H|[H|[H|[]]]]; injection H as H1 H2;
      rewrite <- H1, <- H2; repeat split; reflexivity. }
  destruct Hw as (Hw & Hcap & Hex).
  unfold query_payload.
  replace (truthy (VStr s)) with true by (destruct s; [congruence | reflexivity]).
  cbn [as_str rbind]. rewrite Hex. rewrite (title_word _ Hw), Hcap. reflexivity.
Qed.

(** C8: a [get_tasks] call whose filter is ["high"], ["medium"] or ["low"]
    in any letter case posts one query whose payload asks for at most 10
    records ([page_size] 10) and carries a filter that requires the
    Priority property to equal the title-cased value (["High"], ["Medium"],
    ["Low"]). *)
Theorem priority_filter_is_title_cased :
  forall w self arguments st s level,
    lookup arguments "filter_by" = Some (VStr s) ->
    In (lower s, level) [("high", "High"); ("medium", "Medium"); ("low", "Low")] ->
    exists rq,
      sent (snd (_get_tasks w self arguments st)) = (sent st ++ [rq])%list
      /\ Http.url rq = notion_url self ++ "/databases/"
                         ++ str_of_option (notion_database_id self) ++ "/query"
      /\ Http.json rq
         = VDict [ ("page_size", VInt 10);
                   ("filter", VDict [ ("property", VStr "Priority");
                                      ("select", VDict [("equals", VStr level)]) ]) ].
Proof.
  intros w self arguments st s level Hf Hin.
  eexists. unfold _get_tasks.
  rewrite (dict_get_found _ _ _ _ Hf), (query_payload_level _ _ Hin).
  cbv [try_except bind lift post ret any_exception]. cbn [sent handed].
  match goal with
  | |- context [http_post w (sent st) ?rq] =>
      destruct (http_post w (sent st) rq) as [response|e]
  end; [|repeat split; reflexivity].
  destruct (Z.eqb (Http.status_code response) 200); [|repeat split; reflexivity].
  destruct (Http.body response) as [data|e]; [|repeat split; reflexivity].
  destruct (py_get data "results" (VList [])) as [results|e];
    [|repeat split; reflexivity].
  destruct (py_iter results) as [pages|e]; [|repeat split; reflexivity].
  destruct (map_result task_line pages) as [[|line lines]|e];
    repeat split; reflexivity.
Qed.

(** ** The date part of a start time *)

Lemma contains_sep_cons (sep c : ascii) (s : string) :
  contains (String sep EmptyString) (String c s)
  = Ascii.eqb c sep || contains (String sep EmptyString) s.
Proof.
  change (contains (String sep EmptyString) (String c s))
    with (prefix (String sep EmptyString) (String c s)
          || contains (String sep EmptyString) s).
  f_equal. simpl. destruct (ascii_dec sep c) as [->|Hn].
  - rewrite Ascii.eqb_refl. now destruct s.
  - symmetry. apply Ascii.eqb_neq. congruence.
Qed.

Lemma hd_split_before (sep : ascii) (s : string) :
  hd EmptyString (split sep s) = Spec.before sep s.
Proof.
  induction s as [|c s IH]; simpl; [reflexivity|].
  destruct (Ascii.eqb c sep); [reflexivity|].
  pose proof (split_nonempty sep s) as Hne.
  destruct (split sep s) as [|piece pieces]; [congruence|].
  simpl in *. now rewrite IH.
Qed.

Lemma before_without (sep : ascii) (s : string) :
  contains (String sep EmptyString) s = false -> Spec.before sep s = s.
Proof.
  induction s as [|c s IH]; [reflexivity|].
  rewrite contains_sep_cons. intros H. apply orb_false_iff in H as [Hc Hs].
  simpl. rewrite Hc. now rewrite IH.
Qed.

Lemma before_first (sep : ascii) (d rest : string) :
  contains (String sep EmptyString) d = false ->
  Spec.before sep (d ++ String sep rest) = d.
Proof.
  induction d as [|c d IH]; simpl append.
  - intros _. simpl. now rewrite Ascii.eqb_refl.
  - rewrite contains_sep_cons. intros H. apply orb_false_iff in H as [Hc Hs].
    simpl. rewrite Hc. now rewrite IH.
Qed.

Lemma due_date_of_string (today_ymd start : string) :
  start <> "" ->
  due_date_of (VStr start) = VStr (Spec.before "T" start)
  /\ Workflow.meeting_date_of today_ymd (VStr start) = VStr (Spec.before "T" start).
Proof.
  intros Hne. unfold due_date_of, Workflow.meeting_date_of.
  replace (truthy (VStr start)) with true by (destruct start; [congruence | reflexivity]).
  cbn [py_in as_str]. rewrite hd_split_before.
  destruct (contains "T" start) eqn:E; [split; reflexivity|].
  now rewrite (before_without "T" start E).
Qed.

Lemma due_date_of_is_string (start_time : value) :
  Spec.is_str start_time || negb (truthy start_time) = true ->
  exists due, due_date_of start_time = VStr due.
Proof.
  unfold due_date_of. intros H.
  destruct (truthy start_time) eqn:T; [|now exists ""].
  rewrite orb_false_r in H. destruct start_time; try discriminate H.
  cbn [py_in as_str]. destruct (contains "T" s); eexists; reflexivity.
Qed.

(** ** The bulk path, event by event *)

Lemma create_task_run w self arguments st :
  exists r st',
    _create_task w self arguments st = (r, st')
    /\ handed st' = (handed st ++ [arguments])%list.
Proof.
  pose proof (create_task_handed w self arguments st) as H.
  destruct (_create_task w self arguments st) as [r st']. now exists r, st'.
Qed.

(** The loop over the action items of one event records one call for
    each item it reaches. *)
Lemma action_loop_handed w self title due (items : list string) :
  forall created st,
  exists reached,
    handed (snd (for_each items created
                   (fun created item =>
                      bind (_create_task w self (action_task_args item title due))
                        (fun _ => ret (created ++ [("Action: " ++ item)%string])%list))
                   st))
    = (handed st ++ map (fun item => action_task_args item title due) reached)%list.
Proof.
  induction items as [|item items IH]; intros created st.
  - exists []. simpl. now rewrite app_nil_r.
  - cbn [for_each]. unfold bind at 1. unfold bind at 1.
    destruct (create_task_run w self (action_task_args item title due) st)
      as (r & st1 & -> & H1).
    destruct r as [out|e].
    + unfold ret at 1.
      destruct (IH (created ++ [("Action: " ++ item)%string])%list st1) as [reached ->].
      exists (item :: reached). rewrite H1. simpl. now rewrite <- app_assoc.
    + exists [item]. simpl. exact H1.
Qed.

(** The calls one event gives rise to: the main task first, then action
    tasks, all with the title and the due date of the event. *)
Lemma process_event_handed w self flag created fields st :
  let title := dict_get fields "title" (VStr "Untitled Event") in
  let due := due_date_of (dict_get fields "start_time" (VStr "")) in
  exists notes items,
    handed (snd (process_event w self flag created (VDict fields) st))
    = (handed st ++ main_task_args title notes due
                 :: map (fun item => action_task_args item title due) items)%list.
Proof.
  intros title due. unfold process_event. cbn [py_get].
  repeat (unfold bind at 1; unfold lift at 1).
  fold title. fold due. cbv zeta.
  match goal with
  | |- context [_create_task w self (main_task_args title ?n due) st] =>
      exists n; generalize n; intros notes
  end.
  destruct (create_task_run w self (main_task_args title notes due) st)
    as (r & st1 & E & H1).
  unfold bind at 1. rewrite E. destruct r as [out|e].
  2:{ exists []. simpl. exact H1. }
  match goal with
  | |- context [if ?c then _ else _] => destruct c
  end.
  2:{ exists []. simpl. exact H1. }
  destruct (as_str (dict_get fields "description" (VStr "")) "lower") as [text|e].
  2:{ exists []. simpl. exact H1. }
  match goal with
  | |- context [for_each ?items ?acc _ st1] =>
      destruct (action_loop_handed w self title due items acc st1) as [reached ->]
  end.
  exists reached. rewrite H1. now rewrite <- app_assoc.
Qed.

(** C9: for an event whose [start_time] is a non-empty string, the due
    date is the part of it before its first ['T'], which is the whole of it
    when it has no ['T']: so it is for [due_date] in the bulk path, where
    every task derived from the event (the main task and the action tasks)
    is handed over with it, and for [meeting_date] in the meeting-summary
    path. *)
Theorem due_date_is_date_part_of_start_time :
  forall w self flag created fields st today_ymd start,
    lookup fields "start_time" = Some (VStr start) ->
    start <> "" ->
    let day := Spec.before "T" start in
    (forall d rest, contains "T" d = false -> start = d ++ "T" ++ rest -> day = d)
    /\ (contains "T" start = false -> day = start)
    /\ due_date_of (VStr start) = VStr day
    /\ Workflow.meeting_date_of today_ymd (VStr start) = VStr day
    /\ (exists new,
           new <> []
           /\ handed (snd (process_event w self flag created (VDict fields) st))
              = (handed st ++ new)%list
           /\ Forall (fun args => lookup args "due_date" = Some (VStr day)) new)
    /\ (forall json_dumps args,
           Workflow.summary_step_of json_dumps today_ymd (VDict fields)
           = Ok (Workflow.Call args) ->
           lookup args "meeting_date" = Some (VStr day)).
Proof.
  intros w self flag created fields st today_ymd start Hstart Hne day.
  destruct (due_date_of_string today_ymd start Hne) as [Hdue Hmeet].
  fold day in Hdue, Hmeet.
  split; [|split; [|split; [|split; [|split]]]].
  - intros d rest Hd ->. apply (before_first "T" d rest Hd).
  - apply before_without.
  - exact Hdue.
  - exact Hmeet.
  - destruct (process_event_handed w self flag created fields st) as (notes & items & ->).
    rewrite (dict_get_found _ _ _ _ Hstart), Hdue.
    eexists. split; [|split; [reflexivity|]].
    + discriminate.
    + constructor; [reflexivity|].
      apply Forall_forall. intros args Hin.
      apply in_map_iff in Hin as (item & <- & _). reflexivity.
  - intros json_dumps args. unfold Workflow.summary_step_of. cbn [py_get rbind].
    rewrite (dict_get_found _ _ _ _ Hstart), Hmeet.
    destruct (Workflow.looks_like_meeting _) as [[|]|e]; try discriminate.
    cbn [rbind].
    destruct (as_str _ "lower") as [text|e]; try discriminate.
    cbn [rbind].
    match goal with
    | |- context [if ?c then _ else _] => destruct c
    end.
    + destruct (Workflow.py_join _ _); try discriminate.
      intros H. injection H as <-. reflexivity.
    + intros H. injection H as <-. reflexivity.
Qed.

(** ** The bulk path as a whole *)

(** With a title and a due date that is a string, [_create_task]
    returns: whatever the configuration and whatever the remote API does,
    every failure has become a text. *)
Lemma create_task_returns w self arguments st title due :
  lookup arguments "title" = Some title ->
  dict_get arguments "due_date" (VStr "") = VStr due ->
  exists out st', _create_task w self arguments st = (Ok out, st').
Proof.
  intros Htitle Hdue. unfold _create_task, dict_getitem.
  rewrite Htitle, Hdue.
  destruct (negb (configured (notion_api_key self))
            || negb (configured (notion_database_id self))).
  { eexists _, _. reflexivity. }
  cbn [Dates.py_strptime].
  cbv [bind note_task lift try_except ret post any_exception].
  destruct (truthy (VStr due)).
  - destruct (Dates.strptime due) as [d|e] eqn:Hparse.
    + repeat match goal with
             | |- context [match ?x with _ => _ end] => destruct x
             end; eexists _, _; reflexivity.
    + rewrite (strptime_raises_ValueError _ _ Hparse).
      repeat match goal with
             | |- context [match ?x with _ => _ end] => destruct x
             end; eexists _, _; reflexivity.
  - repeat match goal with
           | |- context [match ?x with _ => _ end] => destruct x
           end; eexists _, _; reflexivity.
Qed.

Lemma action_loop_returns w self title due (items : list string) :
  forall created st,
  exists st',
    for_each items created
      (fun created item =>
         bind (_create_task w self (action_task_args item title (VStr due)))
           (fun _ => ret (created ++ [("Action: " ++ item)%string])%list))
      st
    = (Ok (created ++ map (fun item => ("Action: " ++ item)%string) items)%list, st').
Proof.
  induction items as [|item items IH]; intros created st.
  - exists st. simpl. now rewrite app_nil_r.
  - cbn [for_each]. unfold bind at 1. unfold bind at 1.
    destruct (create_task_returns w self (action_task_args item title (VStr due)) st
                (VStr (Glyph.target ++ " " ++ item)) due eq_refl eq_refl)
      as (out & st1 & ->).
    unfold ret at 1.
    destruct (IH (created ++ [("Action: " ++ item)%string])%list st1) as [st' ->].
    exists st'. simpl. now rewrite <- app_assoc.
Qed.

Lemma process_event_returns w self flag event :
  Spec.well_formed_event event = true ->
  forall created st,
  exists st',
    process_event w self flag created event st
    = (Ok (created ++ Spec.entries_of flag event)%list, st').
Proof.
  intros Hwf created st.
  destruct event as [| | | | |fields]; try discriminate Hwf.
  cbn [Spec.well_formed_event] in Hwf. apply andb_true_iff in Hwf as [Hd Hs].
  destruct (due_date_of_is_string _ Hs) as [due Hdue].
  unfold Spec.entries_of, Spec.action_items_of, Spec.title_of.
  destruct (dict_get fields "description" (VStr "")) as [| | |description| |] eqn:Hdesc;
    try discriminate Hd.
  unfold process_event. cbn [py_get].
  repeat (unfold bind at 1; unfold lift at 1).
  rewrite Hdesc, Hdue. cbv zeta.
  match goal with
  | |- context [_create_task w self (main_task_args ?t ?n (VStr due)) st] =>
      destruct (create_task_returns w self (main_task_args t n (VStr due)) st
                  (VStr (Glyph.calendar ++ " " ++ py_str t)) due eq_refl eq_refl)
        as (out & st1 & E)
  end.
  unfold bind at 1. rewrite E. cbn [eq_str as_str].
  destruct (truthy flag && negb (String.eqb description "No description")).
  - match goal with
    | |- context [for_each ?items ?acc _ st1] =>
        destruct (action_loop_returns w self
                    (dict_get fields "title" (VStr "Untitled Event")) due items acc st1)
          as [st' ->]
    end.
    exists st'. now rewrite <- app_assoc.
  - exists st1. reflexivity.
Qed.

Lemma events_loop_returns w self flag (events : list value) :
  forallb Spec.well_formed_event events = true ->
  forall created st,
  exists st',
    for_each events created (process_event w self flag) st
    = (Ok (created ++ flat_map (Spec.entries_of flag) events)%list, st').
Proof.
  induction events as [|event events IH]; intros Hwf created st.
  - exists st. simpl. now rewrite app_nil_r.
  - cbn [forallb] in Hwf. apply andb_true_iff in Hwf as [Hev Hrest].
    cbn [for_each]. unfold bind at 1.
    destruct (process_event_returns w self flag event Hev created st) as [st1 ->].
    destruct (IH Hrest (created ++ Spec.entries_of flag event)%list st1) as [st' ->].
    exists st'. cbn [flat_map]. now rewrite app_assoc.
Qed.

Lemma entries_count flag (events : list value) :
  List.length (flat_map (Spec.entries_of flag) events)
  = List.length events + List.length (flat_map (Spec.action_items_of flag) events).
Proof.
  induction events as [|event events IH]; [reflexivity|].
  cbn [flat_map]. rewrite !length_app, IH.
  unfold Spec.entries_of. cbn [List.length]. rewrite length_map. lia.
Qed.

(** What a loop that only appends has collected when it returns. *)
Lemma for_each_appends {S X} (f : X -> list string)
      (body : list string -> X -> M S (list string)) :
  (forall acc x st acc' st',
      body acc x st = (Ok acc', st') -> acc' = (acc ++ f x)%list) ->
  forall xs acc st acc' st',
    for_each xs acc body st = (Ok acc', st') ->
    acc' = (acc ++ flat_map f xs)%list.
Proof.
  intros Hbody. induction xs as [|x xs IH]; intros acc st acc' st' H.
  - injection H as <- _. simpl. now rewrite app_nil_r.
  - cbn [for_each] in H. unfold bind in H.
    destruct (body acc x st) as [[acc1|e] st1] eqn:E; [|discriminate H].
    apply Hbody in E. subst acc1. apply IH in H. subst acc'.
    cbn [flat_map]. now rewrite app_assoc.
Qed.

Lemma flat_map_singleton {X Y} (g : X -> Y) (xs : list X) :
  flat_map (fun x => [g x]) xs = map g xs.
Proof. induction xs as [|x xs IH]; [reflexivity|]. simpl. now rewrite IH. Qed.

(** The entries an event has added when the body of the loop returns. *)
Lemma process_event_ok w self flag created event st created' st' :
  process_event w self flag created event st = (Ok created', st') ->
  created' = (created ++ Spec.entries_of flag event)%list.
Proof.
  unfold process_event.
  destruct event as [| | | | |fields]; try (intros H; discriminate H).
  cbn [py_get]. repeat (unfold bind at 1; unfold lift at 1). cbv zeta.
  match goal with
  | |- context [_create_task w self ?a st] =>
      destruct (_create_task w self a st) as [[out|e] st1]
  end; [|intros H; discriminate H].
  unfold Spec.entries_of, Spec.action_items_of, Spec.title_of.
  destruct (dict_get fields "description" (VStr "")) as [| | |description| |] eqn:Hdesc;
    cbn [eq_str negb as_str];
    try (rewrite andb_true_r; destruct (truthy flag);
         intros H; [discriminate H | injection H as <- _; reflexivity]).
  destruct (truthy flag && negb (String.eqb description "No description")).
  - intros H.
    apply (for_each_appends (fun item => [("Action: " ++ item)%string])) in H.
    + rewrite flat_map_singleton in H. rewrite H. now rewrite <- app_assoc.
    + clear. intros acc x st acc' st'. unfold bind.
      destruct (_create_task _ _ _ st) as [[out|e] st1]; intros H;
        [injection H as <- _; reflexivity | discriminate H].
  - intros H. injection H as <- _. reflexivity.
Qed.

(** ** Events without a description *)

Lemma undescribed_entries flag (fields : dict) :
  lookup fields "description" = Some (VStr "No description") ->
  Spec.entries_of flag (VDict fields)
  = ["Event: " ++ py_str (dict_get fields "title" (VStr "Untitled Event"))].
Proof.
  intros Hdesc. unfold Spec.entries_of, Spec.action_items_of, Spec.title_of.
  rewrite (dict_get_found _ _ _ _ Hdesc).
  change (String.eqb "No description" "No description") with true.
  cbn [negb]. rewrite andb_false_r. reflexivity.
Qed.

Lemma undescribed_event_handed w self flag created (fields : dict) st :
  lookup fields "description" = Some (VStr "No description") ->
  handed (snd (process_event w self flag created (VDict fields) st))
  = (handed st
       ++ [main_task_args (dict_get fields "title" (VStr "Untitled Event"))
             (if negb (eq_str (dict_get fields "location" (VStr ""))
                         "No location specified")
              then ((Glyph.calendar ++ " Calendar Event" ++ nl)
                      ++ Glyph.pin ++ " Location: "
                      ++ py_str (dict_get fields "location" (VStr "")) ++ nl)%string
              else (Glyph.calendar ++ " Calendar Event" ++ nl)%string)
             (due_date_of (dict_get fields "start_time" (VStr "")))])%list.
Proof.
  intros Hdesc. unfold process_event. cbn [py_get].
  repeat (unfold bind at 1; unfold lift at 1).
  rewrite (dict_get_found _ _ _ _ Hdesc).
  change (eq_str (VStr "No description") "No description") with true.
  cbn [negb]. rewrite andb_false_r. cbv zeta.
  match goal with
  | |- context [_create_task w self ?a st] =>
      destruct (create_task_run w self a st) as (r & st1 & E & H1)
  end.
  unfold bind. rewrite E. destruct r as [out|e]; exact H1.
Qed.

Lemma undescribed_loop w self flag (events : list dict) :
  Forall (fun fields =>
            lookup fields "description" = Some (VStr "No description")
            /\ Spec.well_formed_event (VDict fields) = true) events ->
  forall created st,
  exists st',
    for_each (map VDict events) created (process_event w self flag) st
    = (Ok (created
             ++ map (fun fields =>
                       ("Event: "
                          ++ py_str (dict_get fields "title" (VStr "Untitled Event")))%string)
                  events)%list, st')
    /\ handed st'
       = (handed st
            ++ map (fun fields =>
                      main_task_args (dict_get fields "title" (VStr "Untitled Event"))
                        (if negb (eq_str (dict_get fields "location" (VStr ""))
                                    "No location specified")
                         then ((Glyph.calendar ++ " Calendar Event" ++ nl)
                                 ++ Glyph.pin ++ " Location: "
                                 ++ py_str (dict_get fields "location" (VStr ""))
                                 ++ nl)%string
                         else (Glyph.calendar ++ " Calendar Event" ++ nl)%string)
                        (due_date_of (dict_get fields "start_time" (VStr ""))))
                 events)%list.
Proof.
  induction 1 as [|fields events [Hdesc Hwf] _ IH]; intros created st.
  - exists st. cbn [map for_each]. rewrite !app_nil_r. split; reflexivity.
  - cbn [map for_each]. unfold bind at 1.
    pose proof (undescribed_event_handed w self flag created fields st Hdesc) as Hh.
    destruct (process_event_returns w self flag (VDict fields) Hwf created st) as [st1 E].
    rewrite E in Hh |- *. cbn [snd] in Hh.
    rewrite (undescribed_entries flag fields Hdesc).
    destruct (IH (created
                    ++ [("Event: "
                           ++ py_str (dict_get fields "title" (VStr "Untitled Event")))%string])%list
                st1) as (st' & -> & Hh').
    exists st'. split; [now rewrite <- app_assoc|].
    rewrite Hh', Hh, <- app_assoc. reflexivity.
Qed.

(** C6: for an event whose description is ["No description"], whatever
    the flag [extract_action_items], the body of the loop of
    [create_tasks_from_calendar_events] hands exactly one task over to
    [_create_task], and it is the main task of that event: its title is the
    calendar glyph and the title of the event, its description is the header
    line followed by the location line when the event has a location, its
    due date is the one derived from the start time, its priority is Medium
    and its source Calendar; there is no action-item task, and when the body
    returns the event has added the one entry ["Event: <title>"].  So does
    the whole call for any list of such events (with start times that are
    strings or empty): it hands over exactly one task per event, the main
    task of each, in the order of the list, and its summary counts and lists
    one entry per event.  For a start time that is a string the due date of
    the task is its part before the first ["T"]. *)
Theorem undescribed_event_gives_one_task :
  forall w self flag,
    let main_of := fun fields : dict =>
      let title := dict_get fields "title" (VStr "Untitled Event") in
      let location := dict_get fields "location" (VStr "") in
      let header := Glyph.calendar ++ " Calendar Event" ++ nl in
      [ ("title", VStr (Glyph.calendar ++ " " ++ py_str title));
        ("description",
         VStr (if negb (eq_str location "No location specified")
               then header ++ Glyph.pin ++ " Location: " ++ py_str location ++ nl
               else header));
        ("due_date", due_date_of (dict_get fields "start_time" (VStr "")));
        ("priority", VStr "Medium");
        ("source", VStr "Calendar") ] in
    let entry_of := fun fields : dict =>
      "Event: " ++ py_str (dict_get fields "title" (VStr "Untitled Event")) in
    (forall created fields st,
        lookup fields "description" = Some (VStr "No description") ->
        handed (snd (process_event w self flag created (VDict fields) st))
        = (handed st ++ [main_of fields])%list
        /\ forall created',
            fst (process_event w self flag created (VDict fields) st) = Ok created' ->
            created' = (created ++ [entry_of fields])%list)
    /\ (forall raw arguments events st,
           lookup arguments "events" = Some raw ->
           dict_get arguments "extract_action_items" (VBool true) = flag ->
           loads w raw = Ok (VList (map VDict events)) ->
           Forall (fun fields =>
                     lookup fields "description" = Some (VStr "No description")
                     /\ Spec.well_formed_event (VDict fields) = true) events ->
           exists st',
             _create_tasks_from_calendar_events w self arguments st
             = (Ok [text_content (created_summary (map entry_of events))], st')
             /\ handed st' = (handed st ++ map main_of events)%list)
    /\ (forall fields start,
           dict_get fields "start_time" (VStr "") = VStr start ->
           lookup (main_of fields) "due_date" = Some (VStr (Spec.before "T" start))).
Proof.
  intros w self flag main_of entry_of. split; [|split].
  - intros created fields st Hdesc. split.
    + exact (undescribed_event_handed w self flag created fields st Hdesc).
    + intros created' H.
      destruct (process_event w self flag created (VDict fields) st) as [r st'] eqn:E.
      cbn [fst] in H. subst r.
      rewrite (process_event_ok _ _ _ _ _ _ _ _ E).
      now rewrite (undescribed_entries flag fields Hdesc).
  - intros raw arguments events st Hraw Hflag Hloads Hevents.
    destruct (undescribed_loop w self flag events Hevents [] st) as (st' & Hrun & Hh).
    exists st'. unfold _create_tasks_from_calendar_events, dict_getitem.
    rewrite Hraw, Hflag.
    cbv [try_except bind lift any_exception ret]. rewrite Hloads.
    cbn [py_iter]. rewrite Hrun. cbn [app]. split; [reflexivity|exact Hh].
  - intros fields start Hstart. unfold main_of.
    cbn [lookup String.eqb Ascii.eqb Bool.eqb]. rewrite Hstart. f_equal.
    destruct start as [|c start]; [reflexivity|].
    apply (due_date_of_string "" (String c start)). discriminate.
Qed.

(** C10: take a call whose events decode to a list.  On the path where
    nothing is raised in the loop over the events, the call returns the
    success summary, and the number of created tasks it reports is the
    number of events plus the number of action items extracted from them;
    what the calls of [_create_task] returned, a page or an error text, has
    no part in it.  That path is the one taken whenever the events are
    well formed, for every configuration of the server and every behaviour
    of the remote API. *)
Theorem bulk_summary_counts_every_task :
  forall w self arguments st raw decoded events,
    lookup arguments "events" = Some raw ->
    loads w raw = Ok decoded ->
    py_iter decoded = Ok events ->
    let flag := dict_get arguments "extract_action_items" (VBool true) in
    let extracted := flat_map (Spec.action_items_of flag) events in
    let summary :=
      Glyph.ok ++ " Created "
        ++ str_of_nat (List.length events + List.length extracted)
        ++ " tasks from calendar events:" ++ nl
        ++ join nl (map (fun task => Glyph.bullet ++ " " ++ task)
                      (flat_map (Spec.entries_of flag) events)) in
    (forall created st1,
        for_each events [] (process_event w self flag) st = (Ok created, st1) ->
        _create_tasks_from_calendar_events w self arguments st
        = (Ok [text_content summary], st1))
    /\ (forallb Spec.well_formed_event events = true ->
        exists st',
          _create_tasks_from_calendar_events w self arguments st
          = (Ok [text_content summary], st')).
Proof.
  intros w self arguments st raw decoded events Hraw Hloads Hiter flag extracted summary.
  assert (Hpath : forall created st1,
             for_each events [] (process_event w self flag) st = (Ok created, st1) ->
             _create_tasks_from_calendar_events w self arguments st
             = (Ok [text_content summary], st1)).
  { intros created st1 Hloop.
    unfold _create_tasks_from_calendar_events, dict_getitem.
    rewrite Hraw. fold flag.
    cbv [try_except bind lift any_exception ret]. rewrite Hloads, Hiter, Hloop.
    apply (for_each_appends (Spec.entries_of flag)) in Hloop.
    2:{ intros acc x s acc' s'. apply process_event_ok. }
    cbn [app] in Hloop. subst created.
    unfold created_summary, summary, extracted. now rewrite entries_count. }
  split; [exact Hpath|].
  intros Hwf.
  destruct (events_loop_returns w self flag events Hwf [] st) as [st' Hloop].
  exists st'. exact (Hpath _ _ Hloop).
Qed.

(** ** Attendees *)

(** C3 fails on the code: for an attendee record without an ['email']
    field, [attendee.get('email')] is [None], and [None] goes into the
    attendees of the event as it is.  Such a list is not a sequence of
    strings, and the [", ".join(attendees)] of the workflow raises on it. *)
Theorem attendee_without_email_is_none :
  Calendar.event_info Sample.raw_event
  = Ok (VDict [ ("title", VStr "Planning");
                ("start_time", VStr "2024-03-01T10:00:00Z");
                ("description", VStr "No description");
                ("location", VStr "No location specified");
                ("attendees", VList [VStr "ann@example.com"; VNone]) ])
  /\ forallb Spec.is_str [VStr "ann@example.com"; VNone] = false
  /\ Workflow.py_join ", " (VList [VStr "ann@example.com"; VNone])
     = Raise (mk_exn TypeError "sequence item 1: expected str instance, NoneType found").
Proof.
  repeat split; reflexivity.
Qed.

(** ** Instances *)

(** Three lines of ASCII notes: a bullet, a marker inside the line, and
    a line too short to count. *)
Lemma extracted_items_are_cleaned_lowercase_lines_witness :
  let text := "- TODO: call vendor" ++ nl ++ "Follow up - Vendor Call" ++ nl ++ "due now" in
  Spec.ascii_text text = true
  /\ Extract._extract_action_items_from_text text
     = ["todo: call vendor"; "follow up vendor call"]
  /\ Extract._extract_action_items_simple text
     = ["todo: call vendor"; "follow up vendor call"].
Proof.
  cbv zeta. split; [reflexivity|].
  destruct (proj1 extracted_items_are_cleaned_lowercase_lines
              ("- TODO: call vendor" ++ nl ++ "Follow up - Vendor Call" ++ nl ++ "due now")
              eq_refl) as [Hbulk Hsimple].
  rewrite Hbulk, Hsimple. split; reflexivity.
Defined.

(** A day with a lunch and a stand-up, neither with a description:
    two tasks, the main task of each, although extraction is asked for. *)
Lemma undescribed_event_gives_one_task_witness :
  exists st',
    _create_tasks_from_calendar_events SampleNotion.quiet_day Sample.server
      [("events", VStr "<events>"); ("extract_action_items", VBool true)] start
    = (Ok [text_content (created_summary ["Event: Lunch"; "Event: Stand-up"])], st')
    /\ handed st'
       = [ [ ("title", VStr (Glyph.calendar ++ " Lunch"));
             ("description", VStr (Glyph.calendar ++ " Calendar Event" ++ nl));
             ("due_date", VStr "2024-03-01");
             ("priority", VStr "Medium");
             ("source", VStr "Calendar") ];
           [ ("title", VStr (Glyph.calendar ++ " Stand-up"));
             ("description",
              VStr (Glyph.calendar ++ " Calendar Event" ++ nl
                      ++ Glyph.pin ++ " Location: Room 1" ++ nl));
             ("due_date", VStr "2024-03-01");
             ("priority", VStr "Medium");
             ("source", VStr "Calendar") ] ].
Proof.
  destruct (proj1 (proj2 (undescribed_event_gives_one_task SampleNotion.quiet_day
                            Sample.server (VBool true)))
              (VStr "<events>")
              [("events", VStr "<events>"); ("extract_action_items", VBool true)]
              [Sample.lunch_fields; SampleNotion.standup_fields] start
              eq_refl eq_refl eq_refl)
    as (st' & Hrun & Hh).
  - repeat constructor.
  - exists st'. split; [exact Hrun|]. rewrite Hh. reflexivity.
Defined.

(** A task due on the 30th of February is created without a Due Date. *)
Lemma unparsable_due_date_is_left_out_witness :
  Dates.strptime "2024-02-30"
  = Raise (mk_exn ValueError "day is out of range for month")
  /\ exists rq properties t st',
      _create_task Sample.world Sample.server
        [("title", VStr "Pay rent"); ("due_date", VStr "2024-02-30")] start
      = (Ok [t], st')
      /\ sent st' = [rq]
      /\ lookup properties "Due Date" = None
      /\ map fst properties = ["Name"; "Status"; "Priority"; "Source"; "Created"].
Proof.
  split; [reflexivity|].
  destruct (unparsable_due_date_is_left_out Sample.world Sample.server
              [("title", VStr "Pay rent"); ("due_date", VStr "2024-02-30")] start
              (VStr "Pay rent") "2024-02-30"
              (mk_exn ValueError "day is out of range for month")
              eq_refl eq_refl eq_refl eq_refl ltac:(discriminate) eq_refl)
    as (rq & payload & properties & t & st' & H1 & H2 & _ & _ & _ & H6 & H7 & _).
  exists rq, properties, t, st'. auto.
Defined.

(** The filter ["hIgH"] asks for the priority ["High"]. *)
Lemma priority_filter_is_title_cased_witness :
  exists rq,
    sent (snd (_get_tasks Sample.world Sample.server [("filter_by", VStr "hIgH")] start))
    = [rq]
    /\ Http.json rq
       = VDict [ ("page_size", VInt 10);
                 ("filter", VDict [ ("property", VStr "Priority");
                                    ("select", VDict [("equals", VStr "High")]) ]) ].
Proof.
  destruct (priority_filter_is_title_cased Sample.world Sample.server
              [("filter_by", VStr "hIgH")] start "hIgH" "High"
              eq_refl (or_introl eq_refl))
    as (rq & H1 & _ & H3).
  exists rq. auto.
Defined.

(** The start time ["2024-03-01T10:00:00Z"] gives the date ["2024-03-01"]. *)
Lemma due_date_is_date_part_of_start_time_witness :
  lookup Sample.vendor_fields "start_time" = Some (VStr "2024-03-01T10:00:00Z")
  /\ due_date_of (VStr "2024-03-01T10:00:00Z") = VStr "2024-03-01"
  /\ Workflow.meeting_date_of "2024-05-05" (VStr "2024-03-01T10:00:00Z") = VStr "2024-03-01".
Proof.
  split; [reflexivity|].
  destruct (due_date_is_date_part_of_start_time Sample.world Sample.server (VBool true) []
              Sample.vendor_fields start "2024-05-05" "2024-03-01T10:00:00Z"
              eq_refl ltac:(discriminate))
    as (_ & _ & H3 & H4 & _).
  split; [exact H3 | exact H4].
Defined.

(** Without secrets every creation fails and nothing is sent, and the two
    sample events with their one action item are reported as 3 created
    tasks. *)
Lemma bulk_summary_counts_every_task_witness :
  loads Sample.world (VStr "<events>") = Ok (VList Sample.events)
  /\ forallb Spec.well_formed_event Sample.events = true
  /\ exists st',
      _create_tasks_from_calendar_events Sample.world Sample.no_secrets
        [("events", VStr "<events>")] start
      = (Ok [text_content
               (Glyph.ok ++ " Created 3 tasks from calendar events:" ++ nl
                  ++ Glyph.bullet ++ " Event: Vendor sync" ++ nl
                  ++ Glyph.bullet ++ " Action: todo: call vendor" ++ nl
                  ++ Glyph.bullet ++ " Event: Lunch")],
         st')
      /\ sent st' = [].
Proof.
  split; [reflexivity|]. split; [reflexivity|].
  destruct (bulk_summary_counts_every_task Sample.world Sample.no_secrets
              [("events", VStr "<events>")] start (VStr "<events>")
              (VList Sample.events) Sample.events eq_refl eq_refl eq_refl)
    as [Hpath _].
  eexists. split.
  - exact (Hpath _ _ eq_refl).
  - reflexivity.
Defined.

(* ================================================================== *)
(** * Further properties of the code *)

(** ** The two extraction paths side by side *)

Lemma take_take (n m : nat) (s : string) :
  n <= m -> take n (take m s) = take n s.
Proof.
  revert m s. induction n as [|n IH]; intros m s H; [now destruct (take m s)|].
  destruct m as [|m]; [lia|]. destruct s as [|c s]; [reflexivity|].
  simpl. rewrite IH by lia. reflexivity.
Qed.

Lemma item_of_narrower (n m : nat) (line : string) :
  n <= m -> item_of n line = map (take n) (item_of m line).
Proof.
  intros H. unfold item_of.
  destruct (Extract.any_keyword_in (lower line)
            && Nat.ltb 10 (String.length (cleaned line))); [|reflexivity].
  simpl. now rewrite take_take.
Qed.

(** The items of the meeting-summary path are the first three items of
    the bulk path, each cut from 100 to 80 characters. *)
Theorem summary_items_are_bulk_items_cut (text : string) :
  Extract._extract_action_items_simple text
  = map (take 80) (firstn 3 (Extract._extract_action_items_from_text text)).
Proof.
  unfold Extract._extract_action_items_simple, Extract._extract_action_items_from_text.
  rewrite !extract_action_items_eq.
  rewrite firstn_firstn. change (Nat.min 3 5) with 3.
  rewrite <- firstn_map. f_equal.
  induction (split newline text) as [|line lines IH]; [reflexivity|].
  cbn [flat_map]. rewrite map_app, <- IH.
  now rewrite (item_of_narrower 80 100) by lia.
Qed.

(** *** What an extracted item looks like *)

Lemma lower_char_idempotent (c : ascii) : lower_char (lower_char c) = lower_char c.
Proof. destruct c as [[] [] [] [] [] [] [] []]; reflexivity. Qed.

Lemma lower_idempotent (s : string) : lower (lower s) = lower s.
Proof.
  induction s as [|c s IH]; [reflexivity|]. simpl.
  now rewrite lower_char_idempotent, IH.
Qed.

Lemma lowered_cons (c : ascii) (s : string) :
  lower (String c s) = String c s <-> lower_char c = c /\ lower s = s.
Proof.
  simpl. split.
  - intros H. now injection H.
  - intros [-> ->]. reflexivity.
Qed.

Lemma lowered_lstrip (s : string) : lower s = s -> lower (lstrip s) = lstrip s.
Proof.
  induction s as [|c s IH]; [reflexivity|].
  intros H. pose proof H as H'. apply lowered_cons in H' as [Hc Hs].
  simpl lstrip. destruct (isspace c); auto.
Qed.

Lemma lowered_rstrip (s : string) : lower s = s -> lower (rstrip s) = rstrip s.
Proof.
  induction s as [|c s IH]; [reflexivity|].
  intros H. apply lowered_cons in H as [Hc Hs]. specialize (IH Hs).
  simpl rstrip. destruct (rstrip s) as [|r rs].
  - destruct (isspace c); [reflexivity|]. apply lowered_cons. auto.
  - apply lowered_cons. auto.
Qed.

Lemma lowered_remove (old : string) (s : string) :
  forall skip, lower s = s ->
               lower (replace_from old "" skip s) = replace_from old "" skip s.
Proof.
  induction s as [|c s IH]; intros skip H; [reflexivity|].
  apply lowered_cons in H as [Hc Hs].
  cbn [replace_from]. destruct skip as [|k]; [|auto].
  destruct (prefix old (String c s)).
  - cbn [append]. auto.
  - apply lowered_cons. auto.
Qed.

Lemma lowered_take (n : nat) (s : string) : lower s = s -> lower (take n s) = take n s.
Proof.
  revert s. induction n as [|n IH]; intros s H; [now destruct s|].
  destruct s as [|c s]; [reflexivity|].
  apply lowered_cons in H as [Hc Hs]. cbn [take]. apply lowered_cons. auto.
Qed.

Lemma cleaned_lowered (line : string) : lower (cleaned line) = cleaned line.
Proof.
  unfold cleaned, strip, replace.
  apply lowered_rstrip, lowered_lstrip, lowered_remove, lowered_remove,
    lowered_rstrip, lowered_lstrip, lower_idempotent.
Qed.

(** A string that is empty or starts with a character that is no space. *)
Lemma lstrip_tight (s : string) : lstrip (lstrip s) = lstrip s.
Proof.
  induction s as [|c s IH]; [reflexivity|].
  simpl. destruct (isspace c) eqn:E; [exact IH|]. simpl. now rewrite E.
Qed.

Lemma rstrip_tight (s : string) : lstrip s = s -> lstrip (rstrip s) = rstrip s.
Proof.
  destruct s as [|c s]; [reflexivity|].
  simpl lstrip. destruct (isspace c) eqn:E.
  - intros H. exfalso.
    assert (Hlen : String.length (lstrip s) <= String.length s).
    { clear. induction s as [|a s IH]; simpl; [lia|]. destruct (isspace a); simpl; lia. }
    rewrite H in Hlen. simpl in Hlen. lia.
  - intros _. simpl rstrip. destruct (rstrip s); simpl; now rewrite E.
Qed.

Lemma take_tight (n : nat) (s : string) : lstrip s = s -> lstrip (take n s) = take n s.
Proof.
  destruct n as [|n]; [now destruct s|].
  destruct s as [|c s]; [reflexivity|].
  simpl lstrip. destruct (isspace c) eqn:E.
  - intros H. exfalso.
    assert (Hlen : String.length (lstrip s) <= String.length s).
    { clear. induction s as [|a s IH]; simpl; [lia|]. destruct (isspace a); simpl; lia. }
    rewrite H in Hlen. simpl in Hlen. lia.
  - intros _. simpl. try rewrite E. reflexivity.
Qed.

Lemma take_length (n : nat) (s : string) :
  String.length (take n s) = Nat.min n (String.length s).
Proof.
  revert s. induction n as [|n IH]; intros s; [now destruct s|].
  destruct s as [|c s]; [reflexivity|]. simpl. now rewrite IH.
Qed.

Lemma item_of_shape (width : nat) (line item : string) :
  10 < width -> In item (item_of width line) ->
  10 < String.length item <= width
  /\ lower item = item
  /\ lstrip item = item.
Proof.
  intros Hw. unfold item_of.
  destruct (Extract.any_keyword_in (lower line)
            && Nat.ltb 10 (String.length (cleaned line))) eqn:E; [|contradiction].
  apply andb_true_iff in E as [_ L]. apply Nat.ltb_lt in L.
  intros [<-|[]]. split; [|split].
  - rewrite take_length. lia.
  - apply lowered_take, cleaned_lowered.
  - apply take_tight. unfold cleaned, strip. apply rstrip_tight, lstrip_tight.
Qed.

Lemma in_firstn {A} (n : nat) (l : list A) (x : A) : In x (firstn n l) -> In x l.
Proof.
  intros H. rewrite <- (firstn_skipn n l). apply in_or_app. now left.
Qed.

(** Every action item either path returns for an ASCII text has more
    than 10 characters and at most 100 (80 on the meeting-summary path), has
    no upper-case letter in it, and does not begin with white space. *)
Theorem extracted_item_shape :
  forall text item,
    Spec.ascii_text text = true ->
    In item (Extract._extract_action_items_from_text text
             ++ Extract._extract_action_items_simple text) ->
    10 < String.length item <= 100
    /\ lower item = item
    /\ lstrip item = item
    /\ (In item (Extract._extract_action_items_simple text) ->
        String.length item <= 80).
Proof.
  intros text item _.
  unfold Extract._extract_action_items_simple, Extract._extract_action_items_from_text.
  rewrite !extract_action_items_eq. intros H.
  assert (Hs : In item (firstn 3 (flat_map (item_of 80) (split newline text))) ->
               10 < String.length item <= 80 /\ lower item = item /\ lstrip item = item).
  { intros H'. apply in_firstn in H'. apply in_flat_map in H' as (line & _ & H').
    apply (item_of_shape _ line); auto; lia. }
  apply in_app_or in H as [H|H].
  - apply in_firstn in H. apply in_flat_map in H as (line & _ & H).
    destruct (item_of_shape 100 line item) as (H1 & H2 & H3); auto; [lia|].
    repeat split; auto; try lia. intros H'. apply Hs in H'. lia.
  - destruct (Hs H) as (H1 & H2 & H3). repeat split; auto; lia.
Qed.

(** The line ["- TODO: call vendor"] gives an item of that shape. *)
Lemma extracted_item_shape_witness :
  Spec.ascii_text "- TODO: call vendor" = true
  /\ In "todo: call vendor"
       (Extract._extract_action_items_from_text "- TODO: call vendor"
        ++ Extract._extract_action_items_simple "- TODO: call vendor")
  /\ 10 < String.length "todo: call vendor" <= 100.
Proof.
  split; [reflexivity|].
  assert (H : In "todo: call vendor"
                (Extract._extract_action_items_from_text "- TODO: call vendor"
                 ++ Extract._extract_action_items_simple "- TODO: call vendor"))
    by (left; reflexivity).
  split; [exact H|].
  exact (proj1 (extracted_item_shape "- TODO: call vendor" "todo: call vendor" eq_refl H)).
Defined.

(** ** [extract_meeting_details] *)

Lemma matching_items_bound (width : nat) (lines : list string) :
  List.length (flat_map (item_of width) lines)
  <= List.length (filter (fun line => Extract.any_keyword_in (lower line)) lines).
Proof.
  induction lines as [|line lines IH]; [reflexivity|].
  cbn [flat_map filter]. rewrite length_app. unfold item_of at 1.
  destruct (Extract.any_keyword_in (lower line)); cbn [andb].
  - destruct (Nat.ltb 10 (String.length (cleaned line))); simpl; lia.
  - simpl. lia.
Qed.

Lemma bulk_item_from_matching_line (text item : string) :
  In item (Extract._extract_action_items_from_text text) ->
  exists line,
    In line (filter (fun line => Extract.any_keyword_in (lower line)) (split newline text))
    /\ item = take 100 (strip (replace "* " "" (replace "- " "" (strip (lower line))))).
Proof.
  unfold Extract._extract_action_items_from_text. rewrite extract_action_items_eq.
  intros H. apply in_firstn in H. apply in_flat_map in H as (line & Hline & H).
  unfold item_of in H.
  destruct (Extract.any_keyword_in (lower line)) eqn:K; [|destruct H].
  destruct (Nat.ltb 10 (String.length (cleaned line))); [|destruct H].
  destruct H as [<-|[]]. exists line. split; [|reflexivity].
  apply filter_In. split; [exact Hline|exact K].
Qed.

(** [extract_meeting_details] lists every matching line, and the bulk
    extraction of the Notion server only takes from that list.  For an
    [event_text] that is an ASCII string, the tool answers with the encoding
    of an analysis whose potential action items are the lines of the text
    that contain an action keyword once lower-cased, each lower-cased and
    stripped, in order and without any cap, whose key topics are the lines
    that contain a topic keyword, treated the same way, and whose list of
    attendees mentioned is empty; the service is left as it was.  Every
    action item the bulk extraction returns for the same text is one of the
    listed potential action items with the markers replaced away, stripped
    and cut to 100 characters; so the bulk path never extracts more items
    than the tool lists. *)
Theorem meeting_details_list_every_matching_line :
  forall w arguments text service,
    lookup arguments "event_text" = Some (VStr text) ->
    Spec.ascii_text text = true ->
    let tidy := fun line => strip (lower line) in
    let items :=
      map tidy (filter (fun line => Extract.any_keyword_in (lower line))
                  (split newline text)) in
    let topics :=
      map tidy (filter (fun line => existsb (fun keyword => contains keyword (lower line))
                                      Calendar.topic_keywords)
                  (split newline text)) in
    Calendar._extract_meeting_details w arguments service
    = (Ok [text_content
             (Calendar.json_dumps w
                (VDict [ ("summary", VStr "Meeting details extracted");
                         ("potential_action_items", VList (map VStr items));
                         ("key_topics", VList (map VStr topics));
                         ("attendees_mentioned", VList []) ]))],
       service)
    /\ (forall item,
           In item (Extract._extract_action_items_from_text text) ->
           exists listed,
             In listed items
             /\ item = take 100 (strip (replace "* " "" (replace "- " "" listed))))
    /\ List.length (Extract._extract_action_items_from_text text) <= List.length items.
Proof.
  intros w arguments text service Htext _ tidy items topics. split; [|split].
  - unfold Calendar._extract_meeting_details, dict_getitem. rewrite Htext.
    cbv [bind lift ret as_str]. rewrite split_lower, !filter_map_swap.
    unfold items, topics, tidy. rewrite !map_map.
    rewrite (filter_ext
               (fun line => existsb (fun keyword => contains keyword (lower (lower line)))
                              Calendar.topic_keywords)
               (fun line => existsb (fun keyword => contains keyword (lower line))
                              Calendar.topic_keywords))
      by (intros line; now rewrite lower_idempotent).
    reflexivity.
  - intros item H.
    destruct (bulk_item_from_matching_line text item H) as (line & Hline & ->).
    exists (tidy line). split; [|reflexivity].
    unfold items. now apply in_map.
  - unfold Extract._extract_action_items_from_text. rewrite extract_action_items_eq.
    unfold items. rewrite length_map.
    etransitivity; [|apply (matching_items_bound 100)].
    rewrite length_firstn. apply Nat.le_min_r.
Qed.

(** ** Tool names and required arguments *)

Lemma not_in_cons_eqb (name a : string) (rest : list string) :
  ~ In name (a :: rest) -> String.eqb name a = false /\ ~ In name rest.
Proof.
  intros H. split.
  - apply String.eqb_neq. intros ->. apply H. now left.
  - intros Hin. apply H. now right.
Qed.

(** A tool name that a server does not advertise in [handle_list_tools]
    is refused by its [handle_call_tool] with the text
    ["Error executing <name>: Unknown tool: <name>"], whatever the
    arguments, and the call has no effect: the Notion server sends nothing
    and the calendar server does not sign in. *)
Theorem unadvertised_tool_is_refused :
  forall nw self cw name arguments st service,
    (~ In name (map Tools.name Tools.notion_tools) ->
     Notion.handle_call_tool nw self name arguments st
     = (Ok [text_content ("Error executing " ++ name ++ ": Unknown tool: " ++ name)], st))
    /\ (~ In name (map Tools.name Tools.calendar_tools) ->
        Calendar.handle_call_tool cw name arguments service
        = (Ok [text_content ("Error executing " ++ name ++ ": Unknown tool: " ++ name)],
           service)).
Proof.
  intros nw self cw name arguments st service. split; intros H.
  - change (map Tools.name Tools.notion_tools)
      with ["create_task"; "create_tasks_from_calendar_events";
            "create_meeting_summary"; "get_tasks"] in H.
    apply not_in_cons_eqb in H as [E1 H]. apply not_in_cons_eqb in H as [E2 H].
    apply not_in_cons_eqb in H as [E3 H]. apply not_in_cons_eqb in H as [E4 _].
    unfold Notion.handle_call_tool.
    rewrite E1, E2, E3, E4. reflexivity.
  - change (map Tools.name Tools.calendar_tools)
      with ["get_todays_events"; "get_events_by_date"; "extract_meeting_details"] in H.
    apply not_in_cons_eqb in H as [E1 H]. apply not_in_cons_eqb in H as [E2 H].
    apply not_in_cons_eqb in H as [E3 _].
    unfold Calendar.handle_call_tool. rewrite E1, E2, E3. reflexivity.
Qed.

(** The calendar's tool [get_todays_events] is unknown to the Notion
    server. *)
Lemma unadvertised_tool_is_refused_witness :
  Notion.handle_call_tool Sample.world Sample.server "get_todays_events" None start
  = (Ok [text_content
           "Error executing get_todays_events: Unknown tool: get_todays_events"],
     start).
Proof.
  refine (proj1 (unadvertised_tool_is_refused Sample.world Sample.server
                   SampleCalendar.world "get_todays_events" None start false) _).
  cbn. intuition discriminate.
Defined.

(** A call of an advertised Notion tool that lacks a key its schema
    requires is answered with ["Error executing <tool>: '<key>'"], for a
    required key that is missing, and sends nothing.  ([create_task] looks
    at its secrets first, so for it the server has to be configured.) *)
Theorem notion_call_without_required_key :
  forall w self tool key arguments st,
    In tool Tools.notion_tools ->
    In key (Tools.required_keys tool) ->
    lookup arguments key = None ->
    (Tools.name tool = "create_task" ->
     configured (notion_api_key self) && configured (notion_database_id self) = true) ->
    exists missing st',
      In missing (Tools.required_keys tool)
      /\ lookup arguments missing = None
      /\ Notion.handle_call_tool w self (Tools.name tool) (Some arguments) st
         = (Ok [text_content ("Error executing " ++ Tools.name tool ++ ": '"
                                ++ missing ++ "'")], st')
      /\ sent st' = sent st.
Proof.
  intros w self tool key arguments st Htool Hkey Hnone Hconf.
  cbn [Tools.notion_tools In] in Htool.
  destruct Htool as [<-|[<-|[<-|[<-|[]]]]]; cbn in Hkey.
  - destruct Hkey as [<-|[]]. specialize (Hconf eq_refl).
    apply andb_true_iff in Hconf as [Hk Hd].
    exists "title". eexists. split; [now left|]. split; [exact Hnone|].
    cbn [Tools.name]. unfold Notion.handle_call_tool. cbn [String.eqb Ascii.eqb Bool.eqb].
    unfold _create_task, dict_getitem. rewrite Hk, Hd, Hnone.
    split; reflexivity.
  - destruct Hkey as [<-|[]].
    exists "events". eexists. split; [now left|]. split; [exact Hnone|].
    cbn [Tools.name]. unfold Notion.handle_call_tool. cbn [String.eqb Ascii.eqb Bool.eqb].
    unfold _create_tasks_from_calendar_events, dict_getitem. rewrite Hnone.
    split; reflexivity.
  - cbn [Tools.name]. unfold Notion.handle_call_tool. cbn [String.eqb Ascii.eqb Bool.eqb].
    unfold _create_meeting_summary, dict_getitem.
    destruct (lookup arguments "meeting_title") as [meeting_title|] eqn:Hm.
    + destruct Hkey as [<-|[<-|[]]]; [congruence|].
      exists "summary". eexists. split; [right; now left|]. split; [exact Hnone|].
      rewrite Hnone. split; reflexivity.
    + exists "meeting_title". eexists. split; [now left|]. split; [exact Hm|].
      split; reflexivity.
  - destruct Hkey.
Qed.

(** A meeting summary without its summary text. *)
Lemma notion_call_without_required_key_witness :
  exists missing st',
    Notion.handle_call_tool Sample.world Sample.server "create_meeting_summary"
      (Some [("meeting_title", VStr "Planning")]) start
    = (Ok [text_content ("Error executing create_meeting_summary: '" ++ missing ++ "'")],
       st')
    /\ sent st' = [].
Proof.
  destruct (notion_call_without_required_key Sample.world Sample.server
              {| Tools.name := "create_meeting_summary";
                 Tools.description := "Create a meeting summary with action items in Notion";
                 Tools.inputSchema :=
                   Tools.object_schema
                     [ ("meeting_title", Tools.string_property "Meeting title");
                       ("meeting_date",
                        Tools.string_property "Meeting date in YYYY-MM-DD format");
                       ("attendees",
                        Tools.string_property "Comma-separated list of attendees");
                       ("summary", Tools.string_property "Meeting summary/notes");
                       ("action_items",
                        Tools.string_property "JSON string of action items") ]
                     ["meeting_title"; "summary"] |}
              "summary" [("meeting_title", VStr "Planning")] start
              (or_intror (or_intror (or_introl eq_refl)))
              (or_intror (or_introl eq_refl)) eq_refl
              ltac:(discriminate))
    as (missing & st' & _ & _ & Hrun & Hsent).
  exists missing, st'. split; [exact Hrun | exact Hsent].
Defined.

(** ** What a computation leaves alone *)

Import Cover.

Section Keeps.
Context {S X : Type} (proj : S -> X).

Lemma keeps_ret' {A} (a : A) : keeps proj (ret a).
Proof. intros st. reflexivity. Qed.

Lemma keeps_raise' {A} (e : exn) : keeps proj (@raise S A e).
Proof. intros st. reflexivity. Qed.

Lemma keeps_lift' {A} (r : result A) : keeps proj (lift r).
Proof. intros st. reflexivity. Qed.

Lemma keeps_bind' {A B} (m : M S A) (k : A -> M S B) :
  keeps proj m -> (forall a, keeps proj (k a)) -> keeps proj (bind m k).
Proof.
  intros Hm Hk st. unfold bind. specialize (Hm st).
  destruct (m st) as [[a|e] st']; simpl in *; [|exact Hm].
  now rewrite Hk.
Qed.

Lemma keeps_try' {A} (body : M S A) caught handler :
  keeps proj body -> (forall e, keeps proj (handler e)) ->
  keeps proj (try_except body caught handler).
Proof.
  intros Hb Hh st. unfold try_except. specialize (Hb st).
  destruct (body st) as [[a|e] st']; simpl in *; [exact Hb|].
  destruct (caught e); simpl; [|exact Hb]. now rewrite Hh.
Qed.

Lemma keeps_for_each {A Y} (xs : list Y) (body : A -> Y -> M S A) :
  (forall acc x, keeps proj (body acc x)) ->
  forall acc, keeps proj (for_each xs acc body).
Proof.
  intros Hbody. induction xs as [|x xs IH]; intros acc.
  - apply keeps_ret'.
  - cbn [for_each]. apply keeps_bind'; auto.
Qed.

End Keeps.

Ltac keeps_go :=
  repeat match goal with
         | |- keeps _ (ret _) => apply keeps_ret'
         | |- keeps _ (raise _) => apply keeps_raise'
         | |- keeps _ (lift _) => apply keeps_lift'
         | |- keeps _ (bind _ _) => apply keeps_bind'; intros
         | |- keeps _ (try_except _ _ _) => apply keeps_try'; intros
         | |- keeps _ (for_each _ _ _) => apply keeps_for_each; intros
         | |- keeps _ (if ?c then _ else _) => destruct c
         | |- keeps _ (let _ := _ in _) => cbv zeta
         end.

(** ** The Notion server without its secrets *)

Lemma create_task_keeps_sent_unconfigured w self arguments :
  configured (notion_api_key self) && configured (notion_database_id self) = false ->
  keeps sent (_create_task w self arguments).
Proof.
  intros H st. now rewrite (create_task_not_configured w self arguments st H).
Qed.

(** When one of the two secrets is missing or empty, three of the four
    tools never send a request, whatever their arguments: [create_task],
    [create_tasks_from_calendar_events] and [create_meeting_summary].
    ([get_tasks] is the exception.)  [create_task] then answers "not
    configured" even to a call that has no title. *)
Theorem nothing_sent_without_secrets :
  forall w self name arguments st,
    configured (notion_api_key self) && configured (notion_database_id self) = false ->
    name <> "get_tasks" ->
    sent (snd (Notion.handle_call_tool w self name arguments st)) = sent st
    /\ (name = "create_task" ->
        fst (Notion.handle_call_tool w self name arguments st)
        = Ok [text_content not_configured]).
Proof.
  intros w self name arguments st Hconf Hname. split.
  - revert st. change (keeps sent (Notion.handle_call_tool w self name arguments)).
    assert (Hct : forall a, keeps sent (_create_task w self a))
      by (intros a; now apply create_task_keeps_sent_unconfigured).
    unfold Notion.handle_call_tool.
    apply keeps_try'; [|intros; apply keeps_ret'].
    destruct (String.eqb name "create_task"); [apply Hct|].
    destruct (String.eqb name "create_tasks_from_calendar_events").
    { unfold _create_tasks_from_calendar_events, process_event. keeps_go; apply Hct. }
    destruct (String.eqb name "create_meeting_summary").
    { unfold _create_meeting_summary. keeps_go; apply Hct. }
    destruct (String.eqb name "get_tasks") eqn:E.
    { apply String.eqb_eq in E. contradiction. }
    apply keeps_raise'.
  - intros ->. unfold Notion.handle_call_tool. cbn [String.eqb Ascii.eqb Bool.eqb].
    unfold try_except. now rewrite create_task_not_configured.
Qed.

(** Without secrets, a bulk call over the two sample events sends
    nothing. *)
Lemma nothing_sent_without_secrets_witness :
  sent (snd (Notion.handle_call_tool Sample.world Sample.no_secrets
               "create_tasks_from_calendar_events"
               (Some [("events", VStr "<events>")]) start))
  = [].
Proof.
  exact (proj1 (nothing_sent_without_secrets Sample.world Sample.no_secrets
                  "create_tasks_from_calendar_events"
                  (Some [("events", VStr "<events>")]) start eq_refl
                  ltac:(discriminate))).
Defined.

(** ** One call of [_create_task] *)

Lemma strptime_ok_nonempty (s : string) (d : Dates.date) :
  Dates.strptime s = Ok d -> truthy (VStr s) = true.
Proof. destruct s; [discriminate | reflexivity]. Qed.

(** On a configured server, a [create_task] call with a title and a
    [due_date] string that [strptime] accepts for ["%Y-%m-%d"] posts exactly
    one request, to the pages endpoint, with the API key as bearer token and
    the database as parent; the page has the properties Name, Status,
    Priority, Source, Created and Due Date, and its Due Date starts on the
    string that was given. *)
Theorem valid_due_date_is_posted :
  forall w self arguments st title due day key database,
    notion_api_key self = Some key -> key <> "" ->
    notion_database_id self = Some database -> database <> "" ->
    lookup arguments "title" = Some title ->
    lookup arguments "due_date" = Some (VStr due) ->
    Dates.strptime due = Ok day ->
    exists rq payload properties t st',
      _create_task w self arguments st = (Ok [t], st')
      /\ sent st' = (sent st ++ [rq])%list
      /\ creates_page self rq
      /\ In ("Authorization", "Bearer " ++ key) (Http.headers rq)
      /\ Http.json rq = VDict payload
      /\ lookup payload "parent" = Some (VDict [("database_id", VStr database)])
      /\ lookup payload "properties" = Some (VDict properties)
      /\ map fst properties
         = ["Name"; "Status"; "Priority"; "Source"; "Created"; "Due Date"]
      /\ lookup properties "Due Date"
         = Some (VDict [("date", VDict [("start", VStr due)])]).
Proof.
  intros w self arguments st title due day key database
         Hkey Hk Hdb Hd Htitle Hdue Hparse.
  unfold _create_task, creates_page.
  rewrite Hkey, Hdb.
  replace (configured (Some key)) with true by (destruct key; [congruence|reflexivity]).
  replace (configured (Some database)) with true
    by (destruct database; [congruence|reflexivity]).
  cbn [negb orb].
  unfold dict_getitem. rewrite Htitle.
  rewrite (dict_get_found _ _ _ _ Hdue).
  rewrite (strptime_ok_nonempty _ _ Hparse). cbn [Dates.py_strptime]. rewrite Hparse.
  cbv [bind note_task lift try_except ret post any_exception].
  cbn [sent handed set_due_date lookup String.eqb Ascii.eqb Bool.eqb dict_set
       value_of_option].
  destruct (truthy (dict_get arguments "description" (VStr ""))) eqn:Hdesc;
    cbn [dict_set String.eqb Ascii.eqb Bool.eqb];
    match goal with
    | |- context [http_post w (sent st) ?rq] =>
        destruct (http_post w (sent st) rq) as [response|e'] eqn:Hpost
    end;
    try destruct (Z.eqb (Http.status_code response) 200) eqn:Hstatus;
    try destruct (Http.body response) as [result|e'] eqn:Hbody;
    try destruct (py_getitem result "id") as [page_id|e'] eqn:Hid.
  all: do 5 eexists.
  all: repeat match goal with |- _ /\ _ => split end; try reflexivity.
  all: cbn [Http.headers]; unfold _get_notion_headers; rewrite Hkey; now left.
Qed.

(** A task due on the 29th of February of a leap year. *)
Lemma valid_due_date_is_posted_witness :
  Dates.strptime "2024-02-29" = Ok (2024, 2, 29)
  /\ exists rq properties t st',
      _create_task Sample.world Sample.server
        [("title", VStr "Pay rent"); ("due_date", VStr "2024-02-29")] start
      = (Ok [t], st')
      /\ sent st' = [rq]
      /\ lookup properties "Due Date"
         = Some (VDict [("date", VDict [("start", VStr "2024-02-29")])]).
Proof.
  split; [reflexivity|].
  destruct (valid_due_date_is_posted Sample.world Sample.server
              [("title", VStr "Pay rent"); ("due_date", VStr "2024-02-29")] start
              (VStr "Pay rent") "2024-02-29" (2024, 2, 29) "secret" "db-1"
              eq_refl ltac:(discriminate) eq_refl ltac:(discriminate)
              eq_refl eq_refl eq_refl)
    as (rq & payload & properties & t & st' & H1 & H2 & _ & _ & _ & _ & _ & _ & H9).
  exists rq, properties, t, st'. auto.
Defined.

(** Goes through the answers of the remote API to one posted request and
    keeps the one that is announced as a success. *)
Ltac only_success w st :=
  cbn [sent handed];
  match goal with
  | |- context [http_post w (sent st) ?rq] =>
      let response := fresh "response" in
      let Hpost := fresh "Hpost" in
      destruct (http_post w (sent st) rq) as [response|?] eqn:Hpost;
      [ let Hstatus := fresh "Hstatus" in
        destruct (Z.eqb (Http.status_code response) 200) eqn:Hstatus;
        [ let result := fresh "result" in
          let Hbody := fresh "Hbody" in
          destruct (Http.body response) as [result|?] eqn:Hbody;
          [ let page_id := fresh "page_id" in
            let Hid := fresh "Hid" in
            destruct (py_getitem result "id") as [page_id|?] eqn:Hid;
            [ intros H; injection H as <- <-; intros _;
              eexists _, response, result, page_id;
              repeat split; try reflexivity; try assumption;
              now apply Z.eqb_eq
            | ]
          | ]
        | ]
      | ]
  end;
  intros H; injection H as <- <-; intros Hp; discriminate Hp.

(** [_create_task] never announces a success the remote API has not
    confirmed: when its answer starts with the success glyph, a request was
    posted to the pages endpoint and the remote API answered it with status
    200 and a body that has an ["id"]. *)
Theorem success_means_the_page_exists :
  forall w self arguments st t st',
    _create_task w self arguments st = (Ok [t], st') ->
    prefix Glyph.ok (text t) = true ->
    exists rq response result page_id,
      sent st' = (sent st ++ [rq])%list
      /\ creates_page self rq
      /\ http_post w (sent st) rq = Ok response
      /\ Http.status_code response = 200%Z
      /\ Http.body response = Ok result
      /\ py_getitem result "id" = Ok page_id.
Proof.
  intros w self arguments st t st'. unfold _create_task, creates_page.
  destruct (negb (configured (notion_api_key self))
            || negb (configured (notion_database_id self))).
  { cbv [bind note_task ret]. intros H. injection H as <- _. discriminate. }
  unfold dict_getitem.
  destruct (lookup arguments "title") as [title|];
    [|cbv [bind note_task lift]; intros H; discriminate H].
  cbv [bind note_task lift try_except ret post any_exception].
  set (due := dict_get arguments "due_date" (VStr "")).
  destruct (truthy due).
  - destruct (Dates.py_strptime due) as [day|e].
    + only_success w st.
    + destruct (is_ValueError e); [|intros H; discriminate H].
      only_success w st.
  - only_success w st.
Qed.

(** The sample server, whose remote API accepts every page, announces the
    page it was given. *)
Lemma success_means_the_page_exists_witness :
  exists rq response,
    sent (snd (_create_task Sample.world Sample.server [("title", VStr "Pay rent")] start))
    = [rq]
    /\ http_post Sample.world [] rq = Ok response
    /\ Http.status_code response = 200%Z.
Proof.
  destruct (success_means_the_page_exists Sample.world Sample.server
              [("title", VStr "Pay rent")] start _ _ eq_refl eq_refl)
    as (rq & response & result & page_id & H1 & _ & H3 & H4 & _).
  exists rq, response. auto.
Defined.

(** ** The bulk path, task by task *)

(** The answers of the remote API to one posted request, case by case. *)
Ltac post_cases w st :=
  cbn [sent handed];
  match goal with
  | |- context [http_post w (sent st) ?rq] =>
      let response := fresh "response" in
      destruct (http_post w (sent st) rq) as [response|?];
      [ destruct (Z.eqb (Http.status_code response) 200);
        [ let result := fresh "result" in
          destruct (Http.body response) as [result|?];
          [ destruct (py_getitem result "id") | ]
        | ]
      | ]
  end.

Lemma create_task_effect w self arguments st title due :
  lookup arguments "title" = Some title ->
  dict_get arguments "due_date" (VStr "") = VStr due ->
  exists out st' rqs,
    _create_task w self arguments st = (Ok out, st')
    /\ handed st' = (handed st ++ [arguments])%list
    /\ sent st' = (sent st ++ rqs)%list
    /\ Forall (creates_page self) rqs
    /\ List.length rqs
       = if configured (notion_api_key self) && configured (notion_database_id self)
         then 1 else 0.
Proof.
  intros Htitle Hdue.
  destruct (configured (notion_api_key self) && configured (notion_database_id self))
    eqn:Hconf.
  2:{ rewrite (create_task_not_configured w self arguments st Hconf).
      eexists _, _, []. rewrite app_nil_r. repeat split; auto. }
  assert (Hrun : exists out st' rq,
             _create_task w self arguments st = (Ok out, st')
             /\ sent st' = (sent st ++ [rq])%list
             /\ creates_page self rq).
  { apply andb_true_iff in Hconf as [Hk Hd].
    unfold _create_task, dict_getitem, creates_page.
    rewrite Hk, Hd, Htitle, Hdue. cbn [negb orb Dates.py_strptime].
    cbv [bind note_task lift try_except ret post any_exception].
    destruct (truthy (VStr due)).
    - destruct (Dates.strptime due) as [d|e] eqn:Hparse.
      + post_cases w st; eexists _, _, _; repeat split; reflexivity.
      + rewrite (strptime_raises_ValueError _ _ Hparse).
        post_cases w st; eexists _, _, _; repeat split; reflexivity.
    - post_cases w st; eexists _, _, _; repeat split; reflexivity. }
  destruct Hrun as (out & st' & rq & Hrun & Hsent & Hurl).
  exists out, st', [rq]. split; [exact Hrun|].
  pose proof (create_task_handed w self arguments st) as Hh. rewrite Hrun in Hh.
  repeat split; auto.
Qed.

Lemma action_loop_run w self title due (items : list string) :
  forall created st,
  exists st' rqs,
    for_each items created
      (fun created item =>
         bind (_create_task w self (action_task_args item title (VStr due)))
           (fun _ => ret (created ++ [("Action: " ++ item)%string])%list))
      st
    = (Ok (created ++ map (fun item => ("Action: " ++ item)%string) items)%list, st')
    /\ handed st'
       = (handed st ++ map (fun item => action_task_args item title (VStr due)) items)%list
    /\ sent st' = (sent st ++ rqs)%list
    /\ Forall (creates_page self) rqs
    /\ List.length rqs
       = if configured (notion_api_key self) && configured (notion_database_id self)
         then List.length items else 0.
Proof.
  induction items as [|item items IH]; intros created st.
  - exists st, []. cbn [for_each map List.length]. rewrite !app_nil_r.
    repeat split; auto. now destruct (_ && _).
  - cbn [for_each]. unfold bind at 1. unfold bind at 1.
    destruct (create_task_effect w self (action_task_args item title (VStr due)) st
                (VStr (Glyph.target ++ " " ++ item)) due eq_refl eq_refl)
      as (out & st1 & rqs1 & -> & Hh1 & Hs1 & Hp1 & Hl1).
    unfold ret at 1.
    destruct (IH (created ++ [("Action: " ++ item)%string])%list st1)
      as (st' & rqs & -> & Hh & Hs & Hp & Hl).
    exists st', (rqs1 ++ rqs)%list. cbn [map]. rewrite <- app_assoc. cbn [app].
    split; [reflexivity|].
    split; [rewrite Hh, Hh1, <- app_assoc; reflexivity|].
    split; [rewrite Hs, Hs1, <- app_assoc; reflexivity|].
    split; [apply Forall_app; auto|].
    rewrite length_app, Hl1, Hl. cbn [List.length].
    now destruct (_ && _).
Qed.

(** What the body of the loop does with a well-formed event. *)
Lemma process_event_run w self flag fields :
  well_formed_event (VDict fields) = true ->
  forall created st,
  exists st' main rqs,
    process_event w self flag created (VDict fields) st
    = (Ok (created ++ entries_of flag (VDict fields))%list, st')
    /\ handed st' = (handed st ++ main :: action_tasks_of flag (VDict fields))%list
    /\ is_main_task main
    /\ sent st' = (sent st ++ rqs)%list
    /\ Forall (creates_page self) rqs
    /\ List.length rqs
       = if configured (notion_api_key self) && configured (notion_database_id self)
         then 1 + List.length (action_items_of flag (VDict fields)) else 0.
Proof.
  intros Hwf created st.
  cbn [well_formed_event] in Hwf. apply andb_true_iff in Hwf as [Hd Hs].
  destruct (due_date_of_is_string _ Hs) as [due Hdue].
  unfold action_tasks_of, entries_of, action_items_of, title_of.
  destruct (dict_get fields "description" (VStr "")) as [| | |description| |] eqn:Hdesc;
    try discriminate Hd.
  unfold process_event. cbn [py_get].
  repeat (unfold bind at 1; unfold lift at 1).
  rewrite Hdesc, Hdue. cbv zeta.
  match goal with
  | |- context [_create_task w self (main_task_args ?t ?n (VStr due)) st] =>
      destruct (create_task_effect w self (main_task_args t n (VStr due)) st
                  (VStr (Glyph.calendar ++ " " ++ py_str t)) due eq_refl eq_refl)
        as (out & st1 & rqs1 & E & Hh1 & Hs1 & Hp1 & Hl1);
      assert (Hmain : is_main_task (main_task_args t n (VStr due)))
        by (split; reflexivity);
      revert E Hh1 Hmain; generalize (main_task_args t n (VStr due));
      intros main E Hh1 Hmain
  end.
  unfold bind at 1. rewrite E. cbn [eq_str as_str].
  destruct (truthy flag && negb (String.eqb description "No description")).
  - match goal with
    | |- context [for_each ?items ?acc _ st1] =>
        destruct (action_loop_run w self
                    (dict_get fields "title" (VStr "Untitled Event")) due items acc st1)
          as (st' & rqs & -> & Hh & Hs2 & Hp & Hl)
    end.
    exists st', main, (rqs1 ++ rqs)%list.
    split; [now rewrite <- app_assoc|].
    split; [rewrite Hh, Hh1, <- app_assoc; reflexivity|].
    split; [exact Hmain|].
    split; [rewrite Hs2, Hs1, <- app_assoc; reflexivity|].
    split; [apply Forall_app; auto|].
    rewrite length_app, Hl1, Hl. now destruct (_ && _).
  - exists st1, main, rqs1.
    repeat split; try apply Hmain; auto.
Qed.

(** The whole loop over well-formed events. *)
Lemma events_loop_run w self flag (events : list value) :
  forallb well_formed_event events = true ->
  forall created st,
  exists st' tasks rqs,
    for_each events created (process_event w self flag) st
    = (Ok (created ++ flat_map (entries_of flag) events)%list, st')
    /\ handed st' = (handed st ++ tasks)%list
    /\ handed_for flag events tasks
    /\ sent st' = (sent st ++ rqs)%list
    /\ Forall (creates_page self) rqs
    /\ List.length rqs
       = if configured (notion_api_key self) && configured (notion_database_id self)
         then List.length (flat_map (entries_of flag) events) else 0.
Proof.
  induction events as [|event events IH]; intros Hwf created st.
  - exists st, [], []. cbn. rewrite !app_nil_r. repeat split; auto.
    now destruct (_ && _).
  - cbn [forallb] in Hwf. apply andb_true_iff in Hwf as [Hev Hrest].
    destruct event as [| | | | |fields]; try discriminate Hev.
    cbn [for_each]. unfold bind at 1.
    destruct (process_event_run w self flag fields Hev created st)
      as (st1 & main & rqs1 & -> & Hh1 & Hm & Hs1 & Hp1 & Hl1).
    destruct (IH Hrest (created ++ entries_of flag (VDict fields))%list st1)
      as (st' & tasks & rqs & -> & Hh & Hf & Hs & Hp & Hl).
    exists st', (main :: action_tasks_of flag (VDict fields) ++ tasks)%list,
      (rqs1 ++ rqs)%list.
    split; [cbn [flat_map]; now rewrite app_assoc|].
    split; [rewrite Hh, Hh1, <- app_assoc; reflexivity|].
    split; [cbn [handed_for]; exists main, tasks; auto|].
    split; [rewrite Hs, Hs1, <- app_assoc; reflexivity|].
    split; [apply Forall_app; auto|].
    rewrite length_app, Hl1, Hl. cbn [flat_map]. rewrite length_app.
    unfold entries_of at 2. cbn [List.length]. rewrite length_map.
    now destruct (_ && _).
Qed.

(** ** The bulk path, call by call *)

Lemma action_tasks_count flag (event : value) :
  List.length (action_tasks_of flag event) = List.length (action_items_of flag event).
Proof.
  destruct event; try reflexivity. unfold action_tasks_of. apply length_map.
Qed.

Lemma handed_for_count flag (events : list value) :
  forall tasks,
    handed_for flag events tasks ->
    List.length tasks
    = List.length events + List.length (flat_map (action_items_of flag) events).
Proof.
  induction events as [|event events IH]; intros tasks H.
  - cbn in H. now subst.
  - cbn [handed_for] in H. destruct H as (main & tasks' & -> & _ & H).
    cbn [List.length flat_map]. rewrite !length_app, (IH _ H), action_tasks_count. lia.
Qed.

Lemma handed_for_mains flag (events : list value) :
  truthy flag = false ->
  forall tasks, handed_for flag events tasks -> Forall is_main_task tasks.
Proof.
  intros Hflag. induction events as [|event events IH]; intros tasks H.
  - cbn in H. subst. constructor.
  - cbn [handed_for] in H. destruct H as (main & tasks' & -> & Hm & H).
    constructor; [exact Hm|].
    replace (action_tasks_of flag event) with (@nil dict); [now apply IH|].
    destruct event as [| | | | |fields]; try reflexivity.
    unfold action_tasks_of, action_items_of.
    destruct (dict_get fields "description" (VStr "")); try reflexivity.
    now rewrite Hflag.
Qed.

(** On a configured server, a bulk call over well-formed events posts
    exactly one page for every task it reports: one per event and one per
    extracted action item, the main task of each event first and its action
    tasks after it. *)
Theorem bulk_posts_one_page_per_task :
  forall w self arguments st raw events,
    lookup arguments "events" = Some raw ->
    loads w raw = Ok (VList events) ->
    forallb well_formed_event events = true ->
    configured (notion_api_key self) && configured (notion_database_id self) = true ->
    let flag := dict_get arguments "extract_action_items" (VBool true) in
    let count :=
      List.length events + List.length (flat_map (action_items_of flag) events) in
    exists st' tasks rqs,
      _create_tasks_from_calendar_events w self arguments st
      = (Ok [text_content (created_summary (flat_map (entries_of flag) events))], st')
      /\ List.length (flat_map (entries_of flag) events) = count
      /\ handed st' = (handed st ++ tasks)%list
      /\ handed_for flag events tasks
      /\ List.length tasks = count
      /\ sent st' = (sent st ++ rqs)%list
      /\ Forall (creates_page self) rqs
      /\ List.length rqs = count.
Proof.
  intros w self arguments st raw events Hraw Hloads Hwf Hconf flag count.
  destruct (events_loop_run w self flag events Hwf [] st)
    as (st' & tasks & rqs & Hloop & Hh & Hf & Hs & Hp & Hl).
  exists st', tasks, rqs.
  unfold _create_tasks_from_calendar_events, dict_getitem.
  rewrite Hraw. fold flag.
  cbv [try_except bind lift any_exception ret]. rewrite Hloads. cbn [py_iter].
  rewrite Hloop. cbn [app].
  rewrite Hconf in Hl. rewrite entries_count in *.
  repeat split; auto. now apply handed_for_count.
Qed.

(** The two sample events on the sample server: three pages. *)
Lemma bulk_posts_one_page_per_task_witness :
  exists st' rqs,
    snd (_create_tasks_from_calendar_events Sample.world Sample.server
           [("events", VStr "<events>")] start) = st'
    /\ sent st' = rqs
    /\ List.length rqs = 3.
Proof.
  destruct (bulk_posts_one_page_per_task Sample.world Sample.server
              [("events", VStr "<events>")] start (VStr "<events>") Sample.events
              eq_refl eq_refl eq_refl eq_refl)
    as (st' & tasks & rqs & Hrun & _ & _ & _ & _ & Hs & _ & Hl).
  exists st', rqs. rewrite Hrun. repeat split; [exact Hs | exact Hl].
Defined.

(** With [extract_action_items] false (or any value Python takes for
    false), a bulk call over well-formed events hands over exactly one task
    per event, each with priority Medium and source Calendar, and reports
    as many created tasks as there are events. *)
Theorem bulk_without_extraction :
  forall w self arguments st raw events,
    lookup arguments "events" = Some raw ->
    loads w raw = Ok (VList events) ->
    forallb well_formed_event events = true ->
    truthy (dict_get arguments "extract_action_items" (VBool true)) = false ->
    exists st' tasks created,
      _create_tasks_from_calendar_events w self arguments st
      = (Ok [text_content (created_summary created)], st')
      /\ created = map (fun event => "Event: " ++ title_of event) events
      /\ handed st' = (handed st ++ tasks)%list
      /\ List.length tasks = List.length events
      /\ Forall is_main_task tasks.
Proof.
  intros w self arguments st raw events Hraw Hloads Hwf Hflag.
  set (flag := dict_get arguments "extract_action_items" (VBool true)) in *.
  destruct (events_loop_run w self flag events Hwf [] st)
    as (st' & tasks & rqs & Hloop & Hh & Hf & _).
  assert (Hnone : forall event, action_items_of flag event = []).
  { intros [| | | | |fields]; try reflexivity. unfold action_items_of.
    destruct (dict_get fields "description" (VStr "")); try reflexivity.
    now rewrite Hflag. }
  exists st', tasks, (flat_map (entries_of flag) events).
  unfold _create_tasks_from_calendar_events, dict_getitem.
  rewrite Hraw. fold flag.
  cbv [try_except bind lift any_exception ret]. rewrite Hloads. cbn [py_iter].
  rewrite Hloop. cbn [app].
  split; [reflexivity|]. split.
  { clear - Hnone. induction events as [|event events IH]; [reflexivity|].
    cbn [flat_map map]. unfold entries_of at 1. rewrite Hnone. cbn [map app].
    now rewrite IH. }
  split; [exact Hh|]. split.
  - rewrite (handed_for_count _ _ _ Hf).
    replace (flat_map (action_items_of flag) events) with (@nil string); [cbn; lia|].
    clear - Hnone. induction events as [|event events IH]; [reflexivity|].
    cbn [flat_map]. now rewrite Hnone, <- IH.
  - now apply (handed_for_mains flag events).
Qed.

(** The vendor event has an action item, which is not extracted when the
    flag is false. *)
Lemma bulk_without_extraction_witness :
  exists st' tasks,
    handed (snd (_create_tasks_from_calendar_events Sample.world Sample.server
                   [("events", VStr "<events>"); ("extract_action_items", VBool false)]
                   start))
    = tasks
    /\ snd (_create_tasks_from_calendar_events Sample.world Sample.server
              [("events", VStr "<events>"); ("extract_action_items", VBool false)]
              start) = st'
    /\ List.length tasks = 2.
Proof.
  destruct (bulk_without_extraction Sample.world Sample.server
              [("events", VStr "<events>"); ("extract_action_items", VBool false)]
              start (VStr "<events>") Sample.events eq_refl eq_refl eq_refl eq_refl)
    as (st' & tasks & created & Hrun & _ & Hh & Hl & _).
  exists st', tasks. rewrite Hrun. repeat split; [exact Hh | exact Hl].
Defined.

(** A bulk call whose [events] string is not JSON answers that the format
    is invalid and does nothing else: no task is handed over, nothing is
    sent. *)
Theorem bulk_rejects_invalid_json :
  forall w self arguments st raw e,
    lookup arguments "events" = Some (VStr raw) ->
    json_loads w raw = Raise e ->
    is_JSONDecodeError e = true ->
    _create_tasks_from_calendar_events w self arguments st
    = (Ok [text_content (Glyph.err ++ " Error: Invalid JSON format for events.")], st).
Proof.
  intros w self arguments st raw e Hraw Hloads Hjson.
  unfold _create_tasks_from_calendar_events, dict_getitem. rewrite Hraw.
  cbv [try_except bind lift any_exception ret loads]. rewrite Hloads, Hjson.
  reflexivity.
Qed.

(** A decoder that rejects the text leaves the state as it was. *)
Lemma bulk_rejects_invalid_json_witness :
  _create_tasks_from_calendar_events SampleNotion.undecodable Sample.server
    [("events", VStr "not json")] start
  = (Ok [text_content (Glyph.err ++ " Error: Invalid JSON format for events.")], start).
Proof.
  exact (bulk_rejects_invalid_json SampleNotion.undecodable Sample.server
           [("events", VStr "not json")] start "not json" _ eq_refl eq_refl eq_refl).
Defined.

Lemma for_each_app {S A X} (xs ys : list X) (body : A -> X -> M S A) :
  forall acc st,
    for_each (xs ++ ys) acc body st
    = bind (for_each xs acc body) (fun acc' => for_each ys acc' body) st.
Proof.
  induction xs as [|x xs IH]; intros acc st; [reflexivity|].
  cbn [app for_each]. unfold bind.
  destruct (body acc x st) as [[acc1|e] st1]; [|reflexivity].
  rewrite IH. reflexivity.
Qed.

(** A bulk call does not undo what it has done.  When the decoded list
    has, after some well-formed events, an item that is not a dictionary,
    the call answers with an error text, yet the tasks of the events before
    that item have all been handed over and, on a configured server, posted;
    the events after it are not looked at. *)
Theorem bulk_keeps_what_it_created :
  forall w self arguments st raw good bad rest,
    lookup arguments "events" = Some raw ->
    loads w raw = Ok (VList (good ++ bad :: rest)) ->
    forallb well_formed_event good = true ->
    (forall fields, bad <> VDict fields) ->
    let flag := dict_get arguments "extract_action_items" (VBool true) in
    exists st' tasks rqs,
      _create_tasks_from_calendar_events w self arguments st
      = (Ok [text_content (Glyph.err ++ " Error creating tasks from events: '"
                             ++ type_name bad ++ "' object has no attribute 'get'")],
         st')
      /\ handed st' = (handed st ++ tasks)%list
      /\ handed_for flag good tasks
      /\ sent st' = (sent st ++ rqs)%list
      /\ List.length rqs
         = if configured (notion_api_key self) && configured (notion_database_id self)
           then List.length tasks else 0.
Proof.
  intros w self arguments st raw good bad rest Hraw Hloads Hwf Hbad flag.
  destruct (events_loop_run w self flag good Hwf [] st)
    as (st' & tasks & rqs & Hloop & Hh & Hf & Hs & Hp & Hl).
  exists st', tasks, rqs.
  unfold _create_tasks_from_calendar_events, dict_getitem.
  rewrite Hraw. fold flag.
  cbv [try_except bind lift any_exception ret]. rewrite Hloads. cbn [py_iter].
  rewrite for_each_app. unfold bind at 1. rewrite Hloop.
  cbn [for_each]. unfold bind at 1.
  assert (Hget : process_event w self flag
                   ([] ++ flat_map (entries_of flag) good)%list bad st'
                 = (Raise (no_attribute bad "get"), st')).
  { unfold process_event.
    destruct bad as [| | | | |fields]; try reflexivity.
    exfalso. now apply (Hbad fields). }
  rewrite Hget. cbn [is_JSONDecodeError exn_cls no_attribute exn_str exn_msg quote].
  split; [reflexivity|]. repeat split; auto.
  rewrite Hl, (handed_for_count _ _ _ Hf), entries_count. reflexivity.
Qed.

(** The vendor event, a number, the lunch event: the two tasks of the
    vendor event are posted, the answer is an error, and the lunch event
    gets no task. *)
Lemma bulk_keeps_what_it_created_witness :
  exists st' message,
    _create_tasks_from_calendar_events SampleNotion.broken_batch Sample.server
      [("events", VStr "<events>")] start
    = (Ok [text_content message], st')
    /\ prefix (Glyph.err ++ " Error creating tasks from events:") message = true
    /\ List.length (handed st') = 2
    /\ List.length (sent st') = 2.
Proof.
  destruct (bulk_keeps_what_it_created SampleNotion.broken_batch Sample.server
              [("events", VStr "<events>")] start (VStr "<events>")
              [VDict Sample.vendor_fields] (VInt 7) [VDict Sample.lunch_fields]
              eq_refl eq_refl eq_refl ltac:(discriminate))
    as (st' & tasks & rqs & Hrun & Hh & Hf & Hs & Hl).
  eexists st', _. split; [exact Hrun|]. split; [vm_compute; reflexivity|].
  rewrite Hh, Hs, !length_app, Hl, (handed_for_count _ _ _ Hf).
  split; vm_compute; reflexivity.
Defined.

(** Two lines of notes, one with an action keyword and both with a topic
    keyword. *)
Lemma meeting_details_list_every_matching_line_witness :
  Calendar._extract_meeting_details SampleCalendar.world
    [("event_text", VStr ("Discuss budget" ++ nl ++ "  TODO: send Plan "))] false
  = (Ok [text_content
           ("{'summary': 'Meeting details extracted', "
              ++ "'potential_action_items': ['todo: send plan'], "
              ++ "'key_topics': ['discuss budget', 'todo: send plan'], "
              ++ "'attendees_mentioned': []}")],
     false).
Proof.
  exact (proj1 (meeting_details_list_every_matching_line SampleCalendar.world
                  [("event_text", VStr ("Discuss budget" ++ nl ++ "  TODO: send Plan "))]
                  ("Discuss budget" ++ nl ++ "  TODO: send Plan ") false eq_refl eq_refl)).
Defined.

(** ** Dates *)

(** Writes the year 9999 as a product that [lia] reads. *)
Ltac small_year := change 9999 with (99 * 101) in *.

Lemma between_digit (lo hi : nat) (c : ascii) :
  Dates.between lo hi c = true -> lo <= Dates.digit c <= hi.
Proof.
  unfold Dates.between, Dates.digit. intros H.
  apply andb_true_iff in H as [H1 H2].
  apply Nat.leb_le in H1, H2. lia.
Qed.

Lemma is_digit_digit (c : ascii) : Dates.is_digit c = true -> Dates.digit c <= 9.
Proof.
  unfold Dates.is_digit, Dates.digit. intros H.
  apply andb_true_iff in H as [H1 H2].
  apply Nat.leb_le in H1, H2. lia.
Qed.

Lemma two_some (p1 p2 : ascii -> bool) (s rest : string) (n : nat) :
  Dates.two p1 p2 s = Some (n, rest) ->
  exists a b, p1 a = true /\ p2 b = true /\ n = 10 * Dates.digit a + Dates.digit b.
Proof.
  unfold Dates.two. destruct s as [|a [|b s]]; try discriminate.
  destruct (p1 a) eqn:Ha; [|discriminate]. destruct (p2 b) eqn:Hb; [|discriminate].
  intros H. injection H as <- _. now exists a, b.
Qed.

Lemma one_some (p : ascii -> bool) (s rest : string) (n : nat) :
  Dates.one p s = Some (n, rest) -> exists a, p a = true /\ n = Dates.digit a.
Proof.
  unfold Dates.one. destruct s as [|a s]; try discriminate.
  destruct (p a) eqn:Ha; [|discriminate].
  intros H. injection H as <- _. now exists a.
Qed.

Lemma match_Y_bound (s rest : string) (y : nat) :
  Dates.match_Y s = Some (y, rest) -> y <= 9999.
Proof.
  unfold Dates.match_Y.
  destruct (Dates.two Dates.is_digit Dates.is_digit s) as [[hi s1]|] eqn:E1;
    [|discriminate].
  destruct (Dates.two Dates.is_digit Dates.is_digit s1) as [[lo s2]|] eqn:E2;
    [|discriminate].
  intros H. injection H as <- _.
  apply two_some in E1 as (a & b & Ha & Hb & ->).
  apply two_some in E2 as (c & d & Hc & Hd & ->).
  apply is_digit_digit in Ha, Hb, Hc, Hd. small_year. lia.
Qed.

Lemma match_m_bound (s rest : string) (m : nat) :
  Dates.match_m s = Some (m, rest) -> 1 <= m <= 12.
Proof.
  unfold Dates.match_m, Dates.orelse.
  destruct (Dates.two (Dates.between 1 1) (Dates.between 0 2) s) as [[n r]|] eqn:E1.
  { intros H. injection H as <- _. apply two_some in E1 as (a & b & Ha & Hb & ->).
    apply between_digit in Ha, Hb. lia. }
  destruct (Dates.two (Dates.between 0 0) (Dates.between 1 9) s) as [[n r]|] eqn:E2.
  { intros H. injection H as <- _. apply two_some in E2 as (a & b & Ha & Hb & ->).
    apply between_digit in Ha, Hb. lia. }
  intros H. apply one_some in H as (a & Ha & ->). apply between_digit in Ha. lia.
Qed.

Lemma match_d_bound (s rest : string) (d : nat) :
  Dates.match_d s = Some (d, rest) -> 1 <= d.
Proof.
  unfold Dates.match_d, Dates.orelse.
  destruct (Dates.two (Dates.between 3 3) (Dates.between 0 1) s) as [[n r]|] eqn:E1.
  { intros H. injection H as <- _. apply two_some in E1 as (a & b & Ha & Hb & ->).
    apply between_digit in Ha, Hb. lia. }
  destruct (Dates.two (Dates.between 1 2) Dates.is_digit s) as [[n r]|] eqn:E2.
  { intros H. injection H as <- _. apply two_some in E2 as (a & b & Ha & Hb & ->).
    apply between_digit in Ha. lia. }
  destruct (Dates.two (Dates.between 0 0) (Dates.between 1 9) s) as [[n r]|] eqn:E3.
  { intros H. injection H as <- _. apply two_some in E3 as (a & b & Ha & Hb & ->).
    apply between_digit in Ha, Hb. lia. }
  destruct (Dates.one (Dates.between 1 9) s) as [[n r]|] eqn:E4.
  { intros H. injection H as <- _. apply one_some in E4 as (a & Ha & ->).
    apply between_digit in Ha. lia. }
  destruct s as [|sp s]; [discriminate|].
  destruct (Ascii.eqb sp " "); [|discriminate].
  intros H. apply one_some in H as (a & Ha & ->). apply between_digit in Ha. lia.
Qed.

(** What [strptime] accepts is a date of the calendar. *)
Lemma strptime_valid (s : string) (d : Dates.date) :
  Dates.strptime s = Ok d -> valid_date d = true.
Proof.
  unfold Dates.strptime.
  destruct (Dates.match_Y s) as [[y s1]|] eqn:EY; [|discriminate].
  destruct (Dates.match_dash s1) as [s2|]; [|discriminate].
  destruct (Dates.match_m s2) as [[m s3]|] eqn:EM; [|discriminate].
  destruct (Dates.match_dash s3) as [s4|]; [|discriminate].
  destruct (Dates.match_d s4) as [[dd rest]|] eqn:ED; [|discriminate].
  destruct (nonempty rest); [discriminate|].
  destruct (Nat.eqb y 0) eqn:E0; [discriminate|].
  destruct (Nat.ltb (Dates.days_in_month y m) dd) eqn:EL; [discriminate|].
  intros H. injection H as <-.
  apply match_Y_bound in EY. apply match_m_bound in EM. apply match_d_bound in ED.
  apply Nat.eqb_neq in E0. apply Nat.ltb_ge in EL.
  unfold valid_date. small_year.
  repeat (apply andb_true_iff; split); apply Nat.leb_le; lia.
Qed.

Lemma valid_date_bounds (y m d : nat) :
  valid_date (y, m, d) = true ->
  1 <= y <= 9999 /\ 1 <= m <= 12 /\ 1 <= d <= Dates.days_in_month y m.
Proof.
  unfold valid_date. intros H.
  repeat (apply andb_true_iff in H as [H ?]).
  repeat match goal with H : Nat.leb _ _ = true |- _ => apply Nat.leb_le in H end.
  small_year. lia.
Qed.

Lemma days_in_month_bounds (y m : nat) : 28 <= Dates.days_in_month y m <= 31.
Proof.
  unfold Dates.days_in_month.
  do 12 (destruct m as [|m]; [try destruct (Dates.is_leap y); lia|]). lia.
Qed.

(** The day after a date of the calendar is a later date of the calendar;
    only the last day of the year 9999 has none. *)
Lemma next_day_valid (d : Dates.date) :
  valid_date d = true ->
  (d = (9999, 12, 31) /\ exists e, Dates.next_day d = Raise e)
  \/ (exists d', Dates.next_day d = Ok d' /\ valid_date d' = true /\ date_lt d d').
Proof.
  destruct d as [[y m] dd]. intros H. apply valid_date_bounds in H as (Hy & Hm & Hd).
  pose proof (days_in_month_bounds y m) as Hb.
  unfold Dates.next_day, valid_date. small_year.
  destruct (Nat.ltb dd (Dates.days_in_month y m)) eqn:E1.
  { apply Nat.ltb_lt in E1. right. eexists. split; [reflexivity|]. split.
    - repeat (apply andb_true_iff; split); apply Nat.leb_le; lia.
    - unfold date_lt. lia. }
  apply Nat.ltb_ge in E1.
  destruct (Nat.ltb m 12) eqn:E2.
  { apply Nat.ltb_lt in E2. right. eexists. split; [reflexivity|]. split.
    - pose proof (days_in_month_bounds y (m + 1)).
      repeat (apply andb_true_iff; split); apply Nat.leb_le; lia.
    - unfold date_lt. lia. }
  apply Nat.ltb_ge in E2.
  destruct (Nat.ltb y (99 * 101)) eqn:E3.
  { apply Nat.ltb_lt in E3. right. eexists. split; [reflexivity|]. split.
    - repeat (apply andb_true_iff; split); apply Nat.leb_le; try lia.
      change (Dates.days_in_month (y + 1) 1) with 31. lia.
    - unfold date_lt. lia. }
  apply Nat.ltb_ge in E3. left.
  assert (m = 12) by lia. subst m. assert (y = 99 * 101) by lia. subst y.
  assert (dd = 31) by (change (Dates.days_in_month (99 * 101) 12) with 31 in *; lia).
  subst dd.
  split; [reflexivity | eexists; reflexivity].
Qed.

(** *** Writing a date and reading it back *)

Lemma pad2_checked : forallb pad2_ok (seq 0 100) = true.
Proof. vm_compute. reflexivity. Qed.

Lemma pad4_checked : forallb pad4_ok (seq 0 (100 * 100)) = true.
Proof. vm_compute. reflexivity. Qed.

Lemma pad2_shape (n : nat) :
  n < 100 ->
  exists a b,
    Dates.pad2 n = String a (String b EmptyString)
    /\ Dates.is_digit a = true /\ Dates.is_digit b = true
    /\ 10 * Dates.digit a + Dates.digit b = n.
Proof.
  intros H. pose proof pad2_checked as Hc. rewrite forallb_forall in Hc.
  specialize (Hc n). unfold pad2_ok in Hc.
  destruct (Dates.pad2 n) as [|a [|b [|? ?]]];
    try (assert (false = true) by (apply Hc; apply in_seq; lia); discriminate).
  assert (Hok : Dates.is_digit a && Dates.is_digit b
                && Nat.eqb (10 * Dates.digit a + Dates.digit b) n = true)
    by (apply Hc; apply in_seq; lia).
  apply andb_true_iff in Hok as [Hok E]. apply andb_true_iff in Hok as [Ha Hb].
  apply Nat.eqb_eq in E. now exists a, b.
Qed.

Lemma pad4_shape (n : nat) :
  n < 100 * 100 ->
  exists a b c d,
    Dates.pad4 n = String a (String b (String c (String d EmptyString)))
    /\ Dates.is_digit a = true /\ Dates.is_digit b = true
    /\ Dates.is_digit c = true /\ Dates.is_digit d = true
    /\ 100 * (10 * Dates.digit a + Dates.digit b)
       + (10 * Dates.digit c + Dates.digit d) = n.
Proof.
  intros H. pose proof pad4_checked as Hc. rewrite forallb_forall in Hc.
  specialize (Hc n). unfold pad4_ok in Hc.
  destruct (Dates.pad4 n) as [|a [|b [|c [|d [|? ?]]]]];
    try (assert (false = true) by (apply Hc; apply in_seq; lia); discriminate).
  assert (Hok : Dates.is_digit a && Dates.is_digit b && Dates.is_digit c
                && Dates.is_digit d
                && Nat.eqb (100 * (10 * Dates.digit a + Dates.digit b)
                            + (10 * Dates.digit c + Dates.digit d)) n = true)
    by (apply Hc; apply in_seq; lia).
  apply andb_true_iff in Hok as [Hok E]. apply andb_true_iff in Hok as [Hok Hd].
  apply andb_true_iff in Hok as [Hok Hc']. apply andb_true_iff in Hok as [Ha Hb].
  apply Nat.eqb_eq in E. now exists a, b, c, d.
Qed.

Lemma match_Y_pad4 (y : nat) (rest : string) :
  y < 100 * 100 -> Dates.match_Y (Dates.pad4 y ++ rest) = Some (y, rest).
Proof.
  intros H. destruct (pad4_shape y H) as (a & b & c & d & -> & Ha & Hb & Hc & Hd & E).
  cbn [append]. unfold Dates.match_Y.
  unfold Dates.two at 1. rewrite Ha, Hb. cbn [andb].
  unfold Dates.two. rewrite Hc, Hd. cbn [andb]. now rewrite E.
Qed.

Lemma match_m_pad2 (m : nat) (rest : string) :
  1 <= m <= 12 -> Dates.match_m (Dates.pad2 m ++ rest) = Some (m, rest).
Proof.
  intros H. do 13 (destruct m as [|m]; [try lia; reflexivity|]). lia.
Qed.

Lemma match_d_pad2 (d : nat) :
  1 <= d <= 31 -> Dates.match_d (Dates.pad2 d) = Some (d, EmptyString).
Proof.
  intros H. do 32 (destruct d as [|d]; [try lia; reflexivity|]). lia.
Qed.

(** A date of the calendar written [YYYY-MM-DD] is read back by
    [strptime] as the same date. *)
Lemma strptime_iso_day (d : Dates.date) :
  valid_date d = true -> Dates.strptime (iso_day d) = Ok d.
Proof.
  destruct d as [[y m] dd]. intros H. apply valid_date_bounds in H as (Hy & Hm & Hd).
  pose proof (days_in_month_bounds y m) as Hb. small_year.
  unfold Dates.strptime, iso_day.
  rewrite match_Y_pad4 by lia.
  change ("-" ++ Dates.pad2 m ++ "-" ++ Dates.pad2 dd)
    with (String "-" (Dates.pad2 m ++ String "-" (Dates.pad2 dd))).
  cbn [Dates.match_dash]. rewrite Ascii.eqb_refl.
  rewrite match_m_pad2 by lia. cbn [Dates.match_dash]. rewrite Ascii.eqb_refl.
  rewrite match_d_pad2 by lia. cbn [nonempty].
  replace (Nat.eqb y 0) with false by (symmetry; apply Nat.eqb_neq; lia).
  replace (Nat.ltb (Dates.days_in_month y m) dd) with false
    by (symmetry; apply Nat.ltb_ge; lia).
  reflexivity.
Qed.

Lemma string_app_assoc (a b c : string) : (a ++ b) ++ c = a ++ b ++ c.
Proof. induction a as [|x a IH]; [reflexivity|]. simpl. now rewrite IH. Qed.

Lemma isoformat_iso_day (d : Dates.date) :
  Dates.isoformat d = iso_day d ++ "T00:00:00".
Proof.
  destruct d as [[y m] dd]. unfold Dates.isoformat, iso_day.
  now rewrite !string_app_assoc.
Qed.

(** ** The calendar server *)

Lemma ensure_service_ready (w : Calendar.world) (service : bool) :
  service = true \/ Calendar.authenticate w = Ok tt ->
  Calendar.ensure_service w service = (Ok tt, true).
Proof.
  unfold Calendar.ensure_service. intros [->| ->]; [reflexivity|].
  now destruct service.
Qed.

(** [get_events_by_date] asks the calendar for one day.  For a date
    string that [strptime] accepts as the date [d], not the last day of
    the year 9999, and once the service is there, the query runs from
    midnight of [d] to midnight of the next day of the calendar, both
    written as [YYYY-MM-DDT00:00:00Z]; the answer is "No events found for
    <date>." when the calendar returns no items, the encoding of the
    formatted events when it returns some, and an error text when the query
    raises (a [ValueError] raised by the query is reported as an invalid date
    format). *)
Theorem events_by_date_asks_for_one_day :
  forall w arguments service s d,
    service = true \/ Calendar.authenticate w = Ok tt ->
    lookup arguments "date" = Some (VStr s) ->
    Dates.strptime s = Ok d ->
    d <> (9999, 12, 31) ->
    exists d',
      Dates.next_day d = Ok d' /\ valid_date d' = true /\ date_lt d d'
      /\ let asked :=
           Calendar.events_list w (dict_get arguments "calendar_id" (VStr "primary"))
             (iso_day d ++ "T00:00:00Z") (iso_day d' ++ "T00:00:00Z") in
         let run := Calendar._get_events_by_date w arguments service in
         (forall result items,
             asked = Ok result ->
             py_get result "items" (VList []) = Ok items ->
             truthy items = false ->
             run = (Ok [text_content ("No events found for " ++ s ++ ".")], true))
         /\ (forall result items events infos,
                asked = Ok result ->
                py_get result "items" (VList []) = Ok items ->
                truthy items = true ->
                py_iter items = Ok events ->
                map_result Calendar.event_info events = Ok infos ->
                run = (Ok [text_content (Calendar.json_dumps w (VList infos))], true))
         /\ (forall e,
                asked = Raise e ->
                run = (Ok [text_content
                             (if is_ValueError e
                              then "Invalid date format. Please use YYYY-MM-DD."
                              else "Error fetching events: " ++ exn_str e)], true)).
Proof.
  intros w arguments service s d Hservice Hdate Hparse Hlast.
  pose proof (strptime_valid _ _ Hparse) as Hvalid.
  destruct (next_day_valid d Hvalid) as [[Heq _]|(d' & Hnext & Hvalid' & Hlt)];
    [contradiction|].
  exists d'. split; [exact Hnext|]. split; [exact Hvalid'|]. split; [exact Hlt|].
  cbv zeta.
  assert (Hrun : Calendar._get_events_by_date w arguments service
                 = try_except
                     (Calendar.list_events w
                        (dict_get arguments "calendar_id" (VStr "primary"))
                        (iso_day d ++ "T00:00:00Z") (iso_day d' ++ "T00:00:00Z")
                        ("No events found for " ++ s ++ "."))
                     any_exception
                     (fun e =>
                        if is_ValueError e
                        then ret [text_content "Invalid date format. Please use YYYY-MM-DD."]
                        else ret [text_content ("Error fetching events: " ++ exn_str e)])
                     true).
  { unfold Calendar._get_events_by_date, dict_getitem.
    unfold bind at 1. rewrite (ensure_service_ready _ _ Hservice).
    rewrite Hdate. unfold bind at 1, lift at 1.
    unfold try_except. unfold bind at 1, lift at 1. cbn [Dates.py_strptime].
    rewrite Hparse. unfold bind at 1, lift at 1. rewrite Hnext.
    rewrite !isoformat_iso_day, !string_app_assoc. reflexivity. }
  rewrite Hrun. unfold try_except, Calendar.list_events.
  split; [|split].
  - intros result items Ha Hi Ht. cbv [bind lift ret]. rewrite Ha, Hi, Ht. reflexivity.
  - intros result items events infos Ha Hi Ht He Hm.
    cbv [bind lift ret]. rewrite Ha, Hi, Ht, He, Hm. reflexivity.
  - intros e Ha. cbv [bind lift ret any_exception]. rewrite Ha.
    now destruct (is_ValueError e).
Qed.

(** The 29th of February 2024 runs to the 1st of March; the sample
    calendar has two events on it. *)
Lemma events_by_date_asks_for_one_day_witness :
  Dates.strptime "2024-02-29" = Ok (2024, 2, 29)
  /\ Dates.next_day (2024, 2, 29) = Ok (2024, 3, 1)
  /\ exists text,
      Calendar._get_events_by_date SampleCalendar.world [("date", VStr "2024-02-29")] false
      = (Ok [text_content text], true).
Proof.
  split; [reflexivity|]. split; [reflexivity|].
  destruct (events_by_date_asks_for_one_day SampleCalendar.world
              [("date", VStr "2024-02-29")] false "2024-02-29" (2024, 2, 29)
              (or_intror eq_refl) eq_refl eq_refl ltac:(discriminate))
    as (d' & Hnext & _ & _ & _ & Hsome & _).
  injection Hnext as <-.
  eexists. eapply Hsome; reflexivity.
Defined.

(** A [date] string that [strptime] rejects is answered with "Invalid
    date format. Please use YYYY-MM-DD."; the service is built before the
    date is looked at. *)
Theorem events_by_date_rejects_bad_date :
  forall w arguments service s e,
    service = true \/ Calendar.authenticate w = Ok tt ->
    lookup arguments "date" = Some (VStr s) ->
    Dates.strptime s = Raise e ->
    Calendar._get_events_by_date w arguments service
    = (Ok [text_content "Invalid date format. Please use YYYY-MM-DD."], true).
Proof.
  intros w arguments service s e Hservice Hdate Hparse.
  unfold Calendar._get_events_by_date, dict_getitem.
  unfold bind at 1. rewrite (ensure_service_ready _ _ Hservice).
  rewrite Hdate. cbv [bind lift try_except any_exception ret]. cbn [Dates.py_strptime].
  rewrite Hparse, (strptime_raises_ValueError _ _ Hparse). reflexivity.
Qed.

(** There is no 30th of February. *)
Lemma events_by_date_rejects_bad_date_witness :
  Calendar._get_events_by_date SampleCalendar.world [("date", VStr "2024-02-30")] false
  = (Ok [text_content "Invalid date format. Please use YYYY-MM-DD."], true).
Proof.
  exact (events_by_date_rejects_bad_date SampleCalendar.world
           [("date", VStr "2024-02-30")] false "2024-02-30" _
           (or_intror eq_refl) eq_refl eq_refl).
Defined.

Lemma todays_events_run (w : Calendar.world) (arguments : dict) (service : bool)
      (tomorrow : Dates.date) :
  service = true \/ Calendar.authenticate w = Ok tt ->
  Dates.next_day (Calendar.today w) = Ok tomorrow ->
  Calendar._get_todays_events w arguments service
  = try_except
      (Calendar.list_events w (dict_get arguments "calendar_id" (VStr "primary"))
         (Dates.isoformat (Calendar.today w) ++ "Z") (Dates.isoformat tomorrow ++ "Z")
         "No events found for today.")
      any_exception
      (fun e => ret [text_content ("Error fetching events: " ++ exn_str e)])
      true.
Proof.
  intros Hservice Hnext. unfold Calendar._get_todays_events.
  unfold bind at 1. rewrite (ensure_service_ready _ _ Hservice).
  unfold bind at 1, lift at 1. rewrite Hnext. reflexivity.
Qed.

(** [get_todays_events] asks the calendar for the day on the clock.  Once
    the service is there and the day has a next day, the query runs from
    midnight of today to midnight of tomorrow; the answer is "No events
    found for today." when the calendar returns no items (an empty day is no
    error), the encoding of the formatted events when it returns some, and
    "Error fetching events: ..." when the query raises. *)
Theorem todays_events_asks_for_today :
  forall w arguments service,
    service = true \/ Calendar.authenticate w = Ok tt ->
    valid_date (Calendar.today w) = true ->
    Calendar.today w <> (9999, 12, 31) ->
    exists tomorrow,
      Dates.next_day (Calendar.today w) = Ok tomorrow
      /\ date_lt (Calendar.today w) tomorrow
      /\ let asked :=
           Calendar.events_list w (dict_get arguments "calendar_id" (VStr "primary"))
             (iso_day (Calendar.today w) ++ "T00:00:00Z")
             (iso_day tomorrow ++ "T00:00:00Z") in
         let run := Calendar._get_todays_events w arguments service in
         (forall result items,
             asked = Ok result ->
             py_get result "items" (VList []) = Ok items ->
             truthy items = false ->
             run = (Ok [text_content "No events found for today."], true))
         /\ (forall result items events infos,
                asked = Ok result ->
                py_get result "items" (VList []) = Ok items ->
                truthy items = true ->
                py_iter items = Ok events ->
                map_result Calendar.event_info events = Ok infos ->
                run = (Ok [text_content (Calendar.json_dumps w (VList infos))], true))
         /\ (forall e,
                asked = Raise e ->
                run = (Ok [text_content ("Error fetching events: " ++ exn_str e)], true)).
Proof.
  intros w arguments service Hservice Hvalid Hlast.
  destruct (next_day_valid _ Hvalid) as [[Heq _]|(d' & Hnext & Hvalid' & Hlt)];
    [contradiction|].
  exists d'. split; [exact Hnext|]. split; [exact Hlt|]. cbv zeta.
  rewrite (todays_events_run w arguments service d' Hservice Hnext).
  rewrite !isoformat_iso_day, !string_app_assoc.
  unfold try_except, Calendar.list_events.
  split; [|split].
  - intros result items Ha Hi Ht. cbv [bind lift ret].
    change ("T00:00:00" ++ "Z") with "T00:00:00Z". rewrite Ha, Hi, Ht. reflexivity.
  - intros result items events infos Ha Hi Ht He Hm. cbv [bind lift ret].
    change ("T00:00:00" ++ "Z") with "T00:00:00Z". rewrite Ha, Hi, Ht, He, Hm.
    reflexivity.
  - intros e Ha. cbv [bind lift ret any_exception].
    change ("T00:00:00" ++ "Z") with "T00:00:00Z". rewrite Ha. reflexivity.
Qed.

(** An empty calendar on the 29th of February. *)
Lemma todays_events_asks_for_today_witness :
  Calendar._get_todays_events SampleCalendar.empty_world [] false
  = (Ok [text_content "No events found for today."], true).
Proof.
  destruct (todays_events_asks_for_today SampleCalendar.empty_world [] false
              (or_intror eq_refl) eq_refl ltac:(discriminate))
    as (tomorrow & Hnext & _ & Hnone & _).
  injection Hnext as <-.
  eapply Hnone; reflexivity.
Defined.

Lemma map_result_stops {A B} (f : A -> result B) (before after : list A) (bad : A)
      (done : list B) (e : exn) :
  map_result f before = Ok done -> f bad = Raise e ->
  map_result f (before ++ bad :: after) = Raise e.
Proof.
  revert done. induction before as [|x before IH]; intros done Hb Hbad.
  - cbn [app map_result]. now rewrite Hbad.
  - cbn [app map_result] in *. destruct (f x) as [y|e']; [|discriminate Hb].
    cbn [rbind] in *. destruct (map_result f before) as [ys|e']; [|discriminate Hb].
    now rewrite (IH ys eq_refl Hbad).
Qed.

Lemma map_result_stops_early {A B} (f : A -> result B) (before rest : list A) (e : exn) :
  map_result f before = Raise e -> map_result f (before ++ rest) = Raise e.
Proof.
  induction before as [|x before IH]; intros Hb.
  - discriminate Hb.
  - cbn [app map_result] in *. destruct (f x) as [y|e']; [|exact Hb].
    cbn [rbind] in *. destruct (map_result f before) as [ys|e']; [discriminate Hb|].
    now rewrite (IH Hb).
Qed.

(** One raw event without a ['start'] spoils the whole listing: whatever
    the other events of the day are, the answer is an error text, "Error
    fetching events: ...", and none of them is shown.  The error is that of
    the first event that cannot be formatted: it is ['start'] when the
    events before the one without a start are formatted without error, and
    the error of an earlier event otherwise. *)
Theorem event_without_start_spoils_the_listing :
  forall w arguments service tomorrow result before bad after,
    service = true \/ Calendar.authenticate w = Ok tt ->
    Dates.next_day (Calendar.today w) = Ok tomorrow ->
    Calendar.events_list w (dict_get arguments "calendar_id" (VStr "primary"))
      (Dates.isoformat (Calendar.today w) ++ "Z") (Dates.isoformat tomorrow ++ "Z")
    = Ok result ->
    py_get result "items" (VList []) = Ok (VList (before ++ VDict bad :: after)) ->
    lookup bad "start" = None ->
    exists message,
      Calendar._get_todays_events w arguments service
      = (Ok [text_content ("Error fetching events: " ++ message)], true)
      /\ (forall infos,
             map_result Calendar.event_info before = Ok infos -> message = "'start'")
      /\ (forall e,
             map_result Calendar.event_info before = Raise e -> message = exn_str e).
Proof.
  intros w arguments service tomorrow result before bad after
         Hservice Hnext Hasked Hitems Hbad.
  rewrite (todays_events_run w arguments service tomorrow Hservice Hnext).
  unfold try_except, Calendar.list_events. cbv [bind lift ret any_exception].
  rewrite Hasked, Hitems.
  replace (truthy (VList (before ++ VDict bad :: after))) with true
    by (now destruct before).
  cbn [negb py_iter].
  destruct (map_result Calendar.event_info before) as [infos|e] eqn:Hbefore.
  - rewrite (map_result_stops Calendar.event_info before after (VDict bad) infos
               (mk_exn KeyError "'start'") Hbefore).
    + exists "'start'". split; [reflexivity|]. split; [reflexivity|].
      intros e H. discriminate H.
    + unfold Calendar.event_info. cbn [py_getitem]. unfold dict_getitem.
      now rewrite Hbad.
  - rewrite (map_result_stops_early Calendar.event_info before _ e Hbefore).
    exists (exn_str e). split; [reflexivity|]. split.
    + intros infos H. discriminate H.
    + intros e' H. now injection H as <-.
Qed.

(** The sample day with a draft that has no start. *)
Lemma event_without_start_spoils_the_listing_witness :
  Calendar._get_todays_events SampleCalendar.spoiled_world [] false
  = (Ok [text_content "Error fetching events: 'start'"], true).
Proof.
  destruct (event_without_start_spoils_the_listing SampleCalendar.spoiled_world [] false
              (2024, 3, 1) _ [Sample.raw_event] [("summary", VStr "Draft")] []
              (or_intror eq_refl) eq_refl eq_refl eq_refl eq_refl)
    as (message & Hrun & Hstart & _).
  rewrite Hrun, (Hstart _ eq_refl). reflexivity.
Defined.

(** *** Signing in *)

Lemma list_events_keeps_service w calendar_id time_min time_max none_found :
  keeps (fun service : bool => service)
    (Calendar.list_events w calendar_id time_min time_max none_found).
Proof. unfold Calendar.list_events. keeps_go. Qed.

Lemma extract_meeting_details_keeps_service w arguments :
  keeps (fun service : bool => service) (Calendar._extract_meeting_details w arguments).
Proof. unfold Calendar._extract_meeting_details. keeps_go. Qed.

Lemma try_keeps_built_service {A} (body : Calendar.C A) caught handler :
  snd (body true) = true ->
  (forall e, keeps (fun service : bool => service) (handler e)) ->
  snd (try_except body caught handler true) = true.
Proof.
  intros Hb Hh. unfold try_except.
  destruct (body true) as [[a|e] service]; cbn [snd] in *; [exact Hb|].
  destruct (caught e); cbn [snd]; [|exact Hb].
  subst service. apply (Hh e true).
Qed.

Lemma built_service_then {A} w (rest : Calendar.C A) :
  keeps (fun service : bool => service) rest ->
  snd (bind (Calendar.ensure_service w) (fun _ => rest) true) = true.
Proof. intros Hrest. unfold bind. cbn [Calendar.ensure_service]. apply (Hrest true). Qed.

Lemma calendar_tool_keeps_built_service w name arguments :
  snd (Calendar.handle_call_tool w name arguments true) = true.
Proof.
  unfold Calendar.handle_call_tool.
  apply try_keeps_built_service; [|intros e; apply keeps_ret'].
  destruct (String.eqb name "get_todays_events").
  { apply built_service_then. cbv zeta. keeps_go. apply list_events_keeps_service. }
  destruct (String.eqb name "get_events_by_date").
  { apply built_service_then. cbv zeta. keeps_go. apply list_events_keeps_service. }
  destruct (String.eqb name "extract_meeting_details").
  { apply (extract_meeting_details_keeps_service w _ true). }
  reflexivity.
Qed.

(** The service is built once.  When it is there, no tool call consults
    the credential flow again (the answer is the same whatever that flow
    would do) and no tool call takes the service away.  The tool
    [extract_meeting_details] never consults it: built or not, the service
    is left as it was. *)
Theorem service_is_built_once :
  forall w flow name arguments,
    (Calendar.handle_call_tool (with_authenticate w flow) name arguments true
     = Calendar.handle_call_tool w name arguments true
     /\ snd (Calendar.handle_call_tool w name arguments true) = true)
    /\ forall service,
        Calendar.handle_call_tool (with_authenticate w flow) "extract_meeting_details"
          arguments service
        = Calendar.handle_call_tool w "extract_meeting_details" arguments service
        /\ snd (Calendar.handle_call_tool w "extract_meeting_details" arguments service)
           = service.
Proof.
  intros w flow name arguments. split; [split|].
  - unfold Calendar.handle_call_tool, try_except.
    destruct (String.eqb name "get_todays_events"); [reflexivity|].
    destruct (String.eqb name "get_events_by_date"); [reflexivity|].
    destruct (String.eqb name "extract_meeting_details"); reflexivity.
  - apply calendar_tool_keeps_built_service.
  - intros service. split; [reflexivity|].
    unfold Calendar.handle_call_tool.
    change (String.eqb "extract_meeting_details" "get_todays_events") with false.
    change (String.eqb "extract_meeting_details" "get_events_by_date") with false.
    change (String.eqb "extract_meeting_details" "extract_meeting_details") with true.
    cbv iota.
    apply (keeps_try' (fun service : bool => service)).
    + apply extract_meeting_details_keeps_service.
    + intros e. apply keeps_ret'.
Qed.

(** When the credential flow fails, the two listing tools answer
    "Error executing <tool>: <message of the failure>" without asking the
    calendar anything, and the service is still not built, so the next call
    tries to sign in again. *)
Theorem failed_sign_in_is_reported :
  forall w name arguments e,
    Calendar.authenticate w = Raise e ->
    name = "get_todays_events" \/ name = "get_events_by_date" ->
    Calendar.handle_call_tool w name arguments false
    = (Ok [text_content ("Error executing " ++ name ++ ": " ++ exn_str e)], false).
Proof.
  intros w name arguments e Hauth [-> | ->];
    unfold Calendar.handle_call_tool;
    [ change (String.eqb "get_todays_events" "get_todays_events") with true
    | change (String.eqb "get_events_by_date" "get_todays_events") with false;
      change (String.eqb "get_events_by_date" "get_events_by_date") with true ];
    cbv iota;
    [ unfold Calendar._get_todays_events | unfold Calendar._get_events_by_date ];
    unfold try_except at 1; unfold bind at 1; unfold Calendar.ensure_service;
    rewrite Hauth; reflexivity.
Qed.

(** Nobody can sign in to the locked calendar. *)
Lemma failed_sign_in_is_reported_witness :
  exists text,
    Calendar.handle_call_tool SampleCalendar.locked_world "get_todays_events" None false
    = (Ok [text_content ("Error executing get_todays_events: " ++ text)], false).
Proof.
  eexists.
  refine (failed_sign_in_is_reported SampleCalendar.locked_world "get_todays_events" None _
            eq_refl (or_introl eq_refl)).
Defined.

(** ** From the calendar to the Notion server *)

Lemma event_info_shape (raw start : dict) (info : value) :
  lookup raw "start" = Some (VDict start) ->
  Calendar.event_info (VDict raw) = Ok info ->
  exists attendees,
    info = VDict [ ("title", dict_get raw "summary" (VStr "No title"));
                   ("start_time", dict_get start "dateTime" (dict_get start "date" VNone));
                   ("description", dict_get raw "description" (VStr "No description"));
                   ("location", dict_get raw "location" (VStr "No location specified"));
                   ("attendees", VList attendees) ].
Proof.
  intros Hstart. unfold Calendar.event_info. cbn [py_getitem py_get]. unfold dict_getitem.
  rewrite Hstart. cbn [rbind py_get].
  destruct (py_iter _) as [records|e]; [|discriminate]. cbn [rbind].
  destruct (map_result _ records) as [attendees|e]; [|discriminate]. cbn [rbind].
  intros H. injection H as <-. now exists attendees.
Qed.

(** What the calendar server lists, the bulk path of the Notion server
    can take.  For a raw event whose start is an object with string
    entries and whose description, when it has one, is a string, the
    formatted event goes through the body of the bulk loop without an
    exception: one main task is handed over, then the action tasks of its
    description.  When the raw event has no description, the calendar's
    default "No description" is exactly what the bulk path tests for: the
    only task is the main one, reported as "Event: <summary>" (or "Event:
    No title"), even when extraction is asked for. *)
Theorem listed_event_suits_the_bulk_path :
  forall raw start info w self flag created st,
    lookup raw "start" = Some (VDict start) ->
    (forall v, lookup raw "description" = Some v -> is_str v = true) ->
    (forall v, lookup start "dateTime" = Some v -> is_str v = true) ->
    (forall v, lookup start "date" = Some v -> is_str v = true) ->
    Calendar.event_info (VDict raw) = Ok info ->
    exists st' main,
      process_event w self flag created info st
      = (Ok (created ++ entries_of flag info)%list, st')
      /\ handed st' = (handed st ++ main :: action_tasks_of flag info)%list
      /\ is_main_task main
      /\ (lookup raw "description" = None ->
          entries_of flag info
          = ["Event: " ++ py_str (dict_get raw "summary" (VStr "No title"))]
          /\ action_tasks_of flag info = []).
Proof.
  intros raw start info w self flag created st Hstart Hdesc HdateTime Hdate Hinfo.
  destruct (event_info_shape raw start info Hstart Hinfo) as [attendees ->].
  assert (Hwf : well_formed_event
                  (VDict [ ("title", dict_get raw "summary" (VStr "No title"));
                           ("start_time",
                            dict_get start "dateTime" (dict_get start "date" VNone));
                           ("description",
                            dict_get raw "description" (VStr "No description"));
                           ("location",
                            dict_get raw "location" (VStr "No location specified"));
                           ("attendees", VList attendees) ]) = true).
  { unfold well_formed_event, dict_get at 1 3. cbn [lookup String.eqb Ascii.eqb Bool.eqb].
    apply andb_true_iff. split.
    - unfold dict_get. destruct (lookup raw "description") as [v|]; [now apply Hdesc|].
      reflexivity.
    - unfold dict_get. destruct (lookup start "dateTime") as [v|].
      + now rewrite HdateTime.
      + destruct (lookup start "date") as [v|]; [now rewrite Hdate|reflexivity]. }
  destruct (process_event_run w self flag _ Hwf created st)
    as (st' & main & rqs & Hrun & Hh & Hmain & _).
  exists st', main. split; [exact Hrun|]. split; [exact Hh|]. split; [exact Hmain|].
  intros Hnone.
  replace (dict_get raw "description" (VStr "No description"))
    with (VStr "No description") by (unfold dict_get; now rewrite Hnone).
  set (title := dict_get raw "summary" (VStr "No title")).
  set (start_time := dict_get start "dateTime" (dict_get start "date" VNone)).
  set (location := dict_get raw "location" (VStr "No location specified")).
  cbv [entries_of action_tasks_of action_items_of title_of dict_get lookup
       String.eqb Ascii.eqb Bool.eqb negb].
  rewrite andb_false_r. split; reflexivity.
Qed.

(** The review of the 1st of March, listed by the calendar and handed to
    the bulk path with extraction asked for. *)
Lemma listed_event_suits_the_bulk_path_witness :
  exists info st' main,
    Calendar.event_info (VDict SampleCalendar.review) = Ok info
    /\ process_event Sample.world Sample.server (VBool true) [] info Notion.start
       = (Ok ["Event: Review"], st')
    /\ handed st' = [main].
Proof.
  eexists.
  destruct (listed_event_suits_the_bulk_path SampleCalendar.review
              [("dateTime", VStr "2024-03-01T10:00:00Z")] _
              Sample.world Sample.server (VBool true) [] Notion.start eq_refl
              ltac:(intros v H; discriminate H)
              ltac:(intros v H; injection H as <-; reflexivity)
              ltac:(intros v H; discriminate H)
              eq_refl)
    as (st' & main & Hrun & Hh & _ & Hone).
  destruct (Hone eq_refl) as [He Ha].
  exists st', main. split; [reflexivity|].
  rewrite He in Hrun. rewrite Ha in Hh. split; [exact Hrun|exact Hh].
Defined.

(** ** Meeting summaries *)

Lemma summary_loop_run w self title due (items : list value) :
  forall count st,
  exists st' rqs,
    for_each items count
      (fun created_actions item =>
         bind (_create_task w self (action_task_args (py_str item) title (VStr due)))
           (fun _ => ret (created_actions + 1)))
      st
    = (Ok (count + List.length items), st')
    /\ handed st'
       = (handed st
            ++ map (fun item => action_task_args (py_str item) title (VStr due)) items)%list
    /\ sent st' = (sent st ++ rqs)%list
    /\ Forall (creates_page self) rqs
    /\ List.length rqs
       = if configured (notion_api_key self) && configured (notion_database_id self)
         then List.length items else 0.
Proof.
  induction items as [|item items IH]; intros count st.
  - exists st, []. cbn [for_each map List.length]. rewrite !app_nil_r, Nat.add_0_r.
    repeat split; auto. now destruct (_ && _).
  - cbn [for_each]. unfold bind at 1. unfold bind at 1.
    destruct (create_task_effect w self (action_task_args (py_str item) title (VStr due)) st
                (VStr (Glyph.target ++ " " ++ py_str item)) due eq_refl eq_refl)
      as (out & st1 & rqs1 & -> & Hh1 & Hs1 & Hp1 & Hl1).
    unfold ret at 1.
    destruct (IH (count + 1) st1) as (st' & rqs & -> & Hh & Hs & Hp & Hl).
    exists st', (rqs1 ++ rqs)%list. cbn [map List.length].
    split; [f_equal; f_equal; lia|].
    split; [rewrite Hh, Hh1, <- app_assoc; reflexivity|].
    split; [rewrite Hs, Hs1, <- app_assoc; reflexivity|].
    split; [apply Forall_app; auto|].
    rewrite length_app, Hl1, Hl.
    now destruct (_ && _).
Qed.

(** What [_create_meeting_summary] does once its action items are
    decoded to a value whose first five items can be taken. *)
Lemma meeting_summary_run w self arguments meeting_title summary decoded listed due st :
  lookup arguments "meeting_title" = Some meeting_title ->
  lookup arguments "summary" = Some summary ->
  dict_get arguments "meeting_date" (VStr (now_ymd w)) = VStr due ->
  (if truthy (dict_get arguments "action_items" (VStr "[]"))
   then loads w (dict_get arguments "action_items" (VStr "[]"))
   else Ok (VList []))
  = Ok decoded ->
  first_items 5 decoded = Ok listed ->
  exists st' main rqs,
    _create_meeting_summary w self arguments st
    = (Ok [text_content (Glyph.ok ++ " Created meeting summary and "
                           ++ str_of_nat (List.length listed)
                           ++ " action items for: " ++ py_str meeting_title)], st')
    /\ handed st'
       = (handed st
            ++ main :: map (fun item =>
                              action_task_args (py_str item) meeting_title (VStr due))
                         listed)%list
    /\ (lookup main "title"
        = Some (VStr (Glyph.chart ++ " Meeting Summary: " ++ py_str meeting_title))
        /\ lookup main "due_date" = Some (VStr due)
        /\ lookup main "priority" = Some (VStr "Medium")
        /\ lookup main "source" = Some (VStr "Meeting"))
    /\ sent st' = (sent st ++ rqs)%list
    /\ Forall (creates_page self) rqs
    /\ List.length rqs
       = if configured (notion_api_key self) && configured (notion_database_id self)
         then 1 + List.length listed else 0.
Proof.
  intros Htitle Hsummary Hdue Hitems Hlisted.
  unfold _create_meeting_summary, dict_getitem. rewrite Htitle, Hsummary, Hdue. cbv zeta.
  unfold bind at 1, lift at 1. unfold bind at 1, lift at 1.
  unfold try_except. unfold bind at 1, lift at 1. rewrite Hitems.
  unfold bind at 1.
  match goal with
  | |- context [(if truthy decoded then ?a else ?b) st] =>
      assert (Hdesc : exists text, (if truthy decoded then a else b) st = (Ok text, st))
  end.
  { destruct (truthy decoded); [|eexists; reflexivity].
    rewrite Hlisted. eexists. reflexivity. }
  destruct Hdesc as [text ->].
  unfold bind at 1.
  match goal with
  | |- context [_create_task w self ?args st] =>
      destruct (create_task_effect w self args st
                  (VStr (Glyph.chart ++ " Meeting Summary: " ++ py_str meeting_title))
                  due eq_refl eq_refl)
        as (out & st1 & rqs1 & E & Hh1 & Hs1 & Hp1 & Hl1);
      assert (Hmain : lookup args "title"
                      = Some (VStr (Glyph.chart ++ " Meeting Summary: "
                                      ++ py_str meeting_title))
                      /\ lookup args "due_date" = Some (VStr due)
                      /\ lookup args "priority" = Some (VStr "Medium")
                      /\ lookup args "source" = Some (VStr "Meeting"))
        by (repeat split; reflexivity);
      revert E Hh1 Hmain; generalize args; intros main E Hh1 Hmain
  end.
  rewrite E, Hlisted.
  unfold bind at 1, lift at 1. unfold bind at 1.
  destruct (summary_loop_run w self meeting_title due listed 0 st1)
    as (st' & rqs & -> & Hh & Hs & Hp & Hl).
  cbn [Nat.add]. unfold ret.
  exists st', main, (rqs1 ++ rqs)%list.
  split; [reflexivity|].
  split; [rewrite Hh, Hh1, <- app_assoc; reflexivity|].
  split; [exact Hmain|].
  split; [rewrite Hs, Hs1, <- app_assoc; reflexivity|].
  split; [apply Forall_app; auto|].
  rewrite length_app, Hl1, Hl. now destruct (_ && _).
Qed.

(** [create_meeting_summary] hands over the summary task first, then one
    action task for each of the first five decoded action items, in their
    order, and no more; the answer counts those action tasks.  An absent or
    empty [action_items] argument counts as the empty list.  Every task
    carries the meeting date as its due date ([meeting_date], or the day on
    the clock); what is sent is one page per task when both secrets are
    there and nothing otherwise, yet the answer reads the same. *)
Theorem meeting_summary_takes_five_items :
  forall w self arguments meeting_title summary items due st,
    lookup arguments "meeting_title" = Some meeting_title ->
    lookup arguments "summary" = Some summary ->
    dict_get arguments "meeting_date" (VStr (now_ymd w)) = VStr due ->
    (if truthy (dict_get arguments "action_items" (VStr "[]"))
     then loads w (dict_get arguments "action_items" (VStr "[]"))
     else Ok (VList []))
    = Ok (VList items) ->
    exists st' main rqs,
      _create_meeting_summary w self arguments st
      = (Ok [text_content (Glyph.ok ++ " Created meeting summary and "
                             ++ str_of_nat (Nat.min 5 (List.length items))
                             ++ " action items for: " ++ py_str meeting_title)], st')
      /\ handed st'
         = (handed st
              ++ main :: map (fun item =>
                                action_task_args (py_str item) meeting_title (VStr due))
                           (firstn 5 items))%list
      /\ lookup main "title"
         = Some (VStr (Glyph.chart ++ " Meeting Summary: " ++ py_str meeting_title))
      /\ lookup main "due_date" = Some (VStr due)
      /\ lookup main "priority" = Some (VStr "Medium")
      /\ lookup main "source" = Some (VStr "Meeting")
      /\ sent st' = (sent st ++ rqs)%list
      /\ Forall (creates_page self) rqs
      /\ List.length rqs
         = if configured (notion_api_key self) && configured (notion_database_id self)
           then 1 + Nat.min 5 (List.length items) else 0.
Proof.
  intros w self arguments meeting_title summary items due st Htitle Hsummary Hdue Hitems.
  destruct (meeting_summary_run w self arguments meeting_title summary (VList items)
              (firstn 5 items) due st Htitle Hsummary Hdue Hitems eq_refl)
    as (st' & main & rqs & Hrun & Hh & (Ht & Hd & Hp & Hsrc) & Hs & Hpages & Hl).
  rewrite length_firstn in Hrun, Hl.
  exists st', main, rqs. repeat (split; [assumption|]). assumption.
Qed.

(** Seven decoded action items: the summary and five of them. *)
Lemma meeting_summary_takes_five_items_witness :
  exists st',
    _create_meeting_summary SampleNotion.listing Sample.server
      [("meeting_title", VStr "Kickoff"); ("summary", VStr "We met.");
       ("action_items", VStr "<items>")] Notion.start
    = (Ok [text_content (Glyph.ok
                           ++ " Created meeting summary and 5 action items for: Kickoff")],
       st')
    /\ List.length (handed st') = 6
    /\ List.length (sent st') = 6.
Proof.
  destruct (meeting_summary_takes_five_items SampleNotion.listing Sample.server
              [("meeting_title", VStr "Kickoff"); ("summary", VStr "We met.");
               ("action_items", VStr "<items>")]
              (VStr "Kickoff") (VStr "We met.")
              (map VStr ["one"; "two"; "three"; "four"; "five"; "six"; "seven"])
              "2024-03-01" Notion.start eq_refl eq_refl eq_refl eq_refl)
    as (st' & main & rqs & Hrun & Hh & _ & _ & _ & _ & Hs & _ & Hl).
  exists st'. split; [exact Hrun|].
  rewrite Hh, Hs, !length_app, Hl. split; reflexivity.
Defined.

(** [create_meeting_summary] creates nothing, not even the summary task,
    when its [action_items] cannot be used: when the text is not JSON, or
    when it decodes to something that is neither empty nor a list or a
    string (an object, a number).  The answer is the error text and no task
    is handed over or sent. *)
Theorem meeting_summary_needs_usable_items :
  forall w self arguments meeting_title summary e st,
    lookup arguments "meeting_title" = Some meeting_title ->
    lookup arguments "summary" = Some summary ->
    truthy (dict_get arguments "action_items" (VStr "[]")) = true ->
    loads w (dict_get arguments "action_items" (VStr "[]")) = Raise e
    \/ (exists decoded,
           loads w (dict_get arguments "action_items" (VStr "[]")) = Ok decoded
           /\ truthy decoded = true
           /\ first_items 5 decoded = Raise e) ->
    _create_meeting_summary w self arguments st
    = (Ok [text_content (Glyph.err ++ " Error creating meeting summary: " ++ exn_str e)],
       st).
Proof.
  intros w self arguments meeting_title summary e st Htitle Hsummary Htruthy Hbad.
  unfold _create_meeting_summary, dict_getitem. rewrite Htitle, Hsummary. cbv zeta.
  unfold bind at 1, lift at 1. unfold bind at 1, lift at 1.
  unfold try_except. unfold bind at 1, lift at 1. rewrite Htruthy.
  destruct Hbad as [-> | (decoded & -> & Hd & Hfirst)]; [reflexivity|].
  unfold bind at 1. rewrite Hd. unfold bind at 1, lift at 1. rewrite Hfirst.
  reflexivity.
Qed.

(** Text that is not JSON. *)
Lemma meeting_summary_needs_usable_items_witness :
  exists text,
    _create_meeting_summary SampleNotion.undecodable Sample.server
      [("meeting_title", VStr "Kickoff"); ("summary", VStr "We met.");
       ("action_items", VStr "call the vendor")] Notion.start
    = (Ok [text_content (Glyph.err ++ " Error creating meeting summary: " ++ text)],
       Notion.start).
Proof.
  eexists.
  refine (meeting_summary_needs_usable_items SampleNotion.undecodable Sample.server
            [("meeting_title", VStr "Kickoff"); ("summary", VStr "We met.");
             ("action_items", VStr "call the vendor")]
            (VStr "Kickoff") (VStr "We met.") _ Notion.start
            eq_refl eq_refl eq_refl (or_introl eq_refl)).
Defined.

(** ** From the workflow to the Notion server *)

Lemma summary_step_call jd today fields description start_time arguments :
  dict_get fields "description" (VStr "") = VStr description ->
  dict_get fields "start_time" (VStr "") = VStr start_time ->
  Workflow.summary_step_of jd today (VDict fields) = Ok (Workflow.Call arguments) ->
  exists joined,
    arguments
    = [ ("meeting_title", dict_get fields "title" (VStr ""));
        ("meeting_date",
         VStr (if String.eqb start_time "" then today else before "T" start_time));
        ("attendees", VStr joined);
        ("summary", VStr description);
        ("action_items",
         VStr (jd (VList (map VStr (Extract._extract_action_items_simple description))))) ].
Proof.
  intros Hdesc Hstart. unfold Workflow.summary_step_of. cbn [py_get rbind].
  rewrite Hdesc, Hstart.
  destruct (Workflow.looks_like_meeting (VStr description)) as [[|]|e];
    cbn [rbind as_str]; try discriminate.
  destruct (if truthy _ then _ else _) as [joined|e]; [|discriminate].
  intros H. injection H as <-. exists joined. repeat f_equal.
  destruct (String.eqb_spec start_time "") as [->|Hne]; [reflexivity|].
  apply (due_date_of_string today start_time Hne).
Qed.

(** A summary the workflow asks for has at most three action items.
    For an event that looks like a meeting, the arguments the workflow
    builds make [create_meeting_summary] hand over the summary task and one
    action task for each item the workflow extracted from the description,
    all due on the day of the event (the date part of its start time, or
    the day on the clock of the workflow when it has none): the cut to five
    on the Notion side never applies.  The encoder of the workflow and the
    decoder of the server are assumed to agree on that list of items. *)
Theorem workflow_summary_has_three_items :
  forall jd today fields description start_time arguments w self st,
    dict_get fields "description" (VStr "") = VStr description ->
    dict_get fields "start_time" (VStr "") = VStr start_time ->
    Workflow.summary_step_of jd today (VDict fields) = Ok (Workflow.Call arguments) ->
    let items := Extract._extract_action_items_simple description in
    jd (VList (map VStr items)) <> "" ->
    json_loads w (jd (VList (map VStr items))) = Ok (VList (map VStr items)) ->
    exists st' main,
      _create_meeting_summary w self arguments st
      = (Ok [text_content (Glyph.ok ++ " Created meeting summary and "
                             ++ str_of_nat (List.length items)
                             ++ " action items for: "
                             ++ py_str (dict_get fields "title" (VStr "")))], st')
      /\ List.length items <= 3
      /\ handed st'
         = (handed st
              ++ main :: map (fun item =>
                                action_task_args item (dict_get fields "title" (VStr ""))
                                  (VStr (if String.eqb start_time "" then today
                                         else before "T" start_time)))
                           items)%list
      /\ lookup main "due_date"
         = Some (VStr (if String.eqb start_time "" then today
                       else before "T" start_time)).
Proof.
  intros jd today fields description start_time arguments w self st
         Hdesc Hstart Hstep items Hne Hloads.
  destruct (summary_step_call jd today fields description start_time arguments
              Hdesc Hstart Hstep) as [joined ->].
  fold items.
  assert (Hcap : List.length items <= 3).
  { unfold items, Extract._extract_action_items_simple, Extract.extract_action_items.
    rewrite length_firstn. apply Nat.le_min_l. }
  assert (Hfirst : first_items 5 (VList (map VStr items)) = Ok (map VStr items)).
  { cbn [first_items]. rewrite firstn_all2; [reflexivity|]. rewrite length_map. lia. }
  match goal with
  | |- context [_create_meeting_summary w self ?args st] =>
      destruct (meeting_summary_run w self args
                  (dict_get fields "title" (VStr "")) (VStr description)
                  (VList (map VStr items)) (map VStr items)
                  (if String.eqb start_time "" then today else before "T" start_time)
                  st eq_refl eq_refl eq_refl)
        as (st' & main & rqs & Hrun & Hh & (_ & Hd & _) & _); [|exact Hfirst|]
  end.
  { cbv [dict_get lookup String.eqb Ascii.eqb Bool.eqb]. cbn [truthy].
    replace (nonempty (jd (VList (map VStr items)))) with true
      by (destruct (jd (VList (map VStr items))); [congruence|reflexivity]).
    cbn [loads]. exact Hloads. }
  exists st', main. rewrite length_map in Hrun. rewrite map_map in Hh.
  split; [exact Hrun|]. split; [exact Hcap|]. split; [exact Hh|exact Hd].
Qed.

(** The kickoff of the 4th of March has two action items. *)
Lemma workflow_summary_has_three_items_witness :
  exists arguments st',
    Workflow.summary_step_of py_repr "2024-03-01" (VDict SampleNotion.kickoff_fields)
    = Ok (Workflow.Call arguments)
    /\ _create_meeting_summary SampleNotion.kickoff_world Sample.server arguments
         Notion.start
       = (Ok [text_content (Glyph.ok
                              ++ " Created meeting summary and 2 action items for: Kickoff")],
          st')
    /\ List.length (handed st') = 3.
Proof.
  eexists.
  destruct (workflow_summary_has_three_items py_repr "2024-03-01"
              SampleNotion.kickoff_fields SampleNotion.kickoff_notes
              "2024-03-04T09:00:00Z" _ SampleNotion.kickoff_world Sample.server
              Notion.start eq_refl eq_refl eq_refl ltac:(discriminate) eq_refl)
    as (st' & main & Hrun & _ & Hh & _).
  exists st'. split; [reflexivity|]. split; [exact Hrun|].
  rewrite Hh, length_app. reflexivity.
Defined.

(** ** Listing tasks *)

Lemma query_payload_unknown (s : string) :
  ~ In (lower s) ["high"; "medium"; "low"] ->
  query_payload (VStr s) = Ok [("page_size", VInt 10)].
Proof.
  intros Hnot. unfold query_payload. destruct (truthy (VStr s)); [|reflexivity].
  cbn [as_str rbind].
  destruct (existsb (String.eqb (lower s)) ["high"; "medium"; "low"]) eqn:E;
    [|reflexivity].
  apply existsb_exists in E as (level & Hin & Heq).
  apply String.eqb_eq in Heq. subst level. contradiction.
Qed.

(** A [filter_by] that is none of "high", "medium" and "low" in any
    letter case is ignored without a word: the query that is posted has no
    filter, only [page_size] 10, as when no filter is given at all.  The
    listing hands no task over. *)
Theorem unknown_filter_lists_everything :
  forall w self arguments st s,
    dict_get arguments "filter_by" (VStr "") = VStr s ->
    ~ In (lower s) ["high"; "medium"; "low"] ->
    exists rq,
      sent (snd (_get_tasks w self arguments st)) = (sent st ++ [rq])%list
      /\ Http.url rq = notion_url self ++ "/databases/"
                         ++ str_of_option (notion_database_id self) ++ "/query"
      /\ Http.json rq = VDict [("page_size", VInt 10)]
      /\ handed (snd (_get_tasks w self arguments st)) = handed st.
Proof.
  intros w self arguments st s Hf Hnot.
  eexists. unfold _get_tasks. rewrite Hf, (query_payload_unknown _ Hnot).
  cbv [try_except bind lift post ret any_exception]. cbn [sent handed].
  match goal with
  | |- context [http_post w (sent st) ?rq] =>
      destruct (http_post w (sent st) rq) as [response|e]
  end; [|repeat split; reflexivity].
  destruct (Z.eqb (Http.status_code response) 200); [|repeat split; reflexivity].
  destruct (Http.body response) as [data|e]; [|repeat split; reflexivity].
  destruct (py_get data "results" (VList [])) as [results|e];
    [|repeat split; reflexivity].
  destruct (py_iter results) as [pages|e]; [|repeat split; reflexivity].
  destruct (map_result task_line pages) as [[|line lines]|e];
    repeat split; reflexivity.
Qed.

(** "urgent" is no priority. *)
Lemma unknown_filter_lists_everything_witness :
  exists rq,
    sent (snd (_get_tasks Sample.world Sample.server [("filter_by", VStr "Urgent")]
                 Notion.start))
    = [rq]
    /\ Http.json rq = VDict [("page_size", VInt 10)].
Proof.
  destruct (unknown_filter_lists_everything Sample.world Sample.server
              [("filter_by", VStr "Urgent")] Notion.start "Urgent" eq_refl
              ltac:(intros [H|[H|[H|[]]]]; discriminate H))
    as (rq & Hs & _ & Hj & _).
  exists rq. split; [exact Hs|exact Hj].
Defined.

(** What [create_task] posts, [get_tasks] can read back.  On a
    configured server, for a call with a title and a due date that is a
    string (or none), the properties of the page that is posted have the
    shape the listing reads: taken as the properties of a page of a query
    result, they give the line "<bullet> <title> [Not started] - <priority>
    priority", with "Medium" for a call without a priority. *)
Theorem posted_page_reads_back :
  forall w self arguments st title due,
    configured (notion_api_key self) && configured (notion_database_id self) = true ->
    lookup arguments "title" = Some title ->
    dict_get arguments "due_date" (VStr "") = VStr due ->
    exists rq payload properties,
      sent (snd (_create_task w self arguments st)) = (sent st ++ [rq])%list
      /\ Http.json rq = VDict payload
      /\ lookup payload "properties" = Some properties
      /\ task_line (VDict [("properties", properties)])
         = Ok (Glyph.bullet ++ " " ++ py_str title ++ " [Not started] - "
                 ++ py_str (dict_get arguments "priority" (VStr "Medium"))
                 ++ " priority").
Proof.
  intros w self arguments st title due Hconf Htitle Hdue.
  apply andb_true_iff in Hconf as [Hk Hd].
  unfold _create_task, dict_getitem. rewrite Hk, Hd, Htitle, Hdue.
  cbn [negb orb Dates.py_strptime].
  generalize (dict_get arguments "priority" (VStr "Medium")); intros priority.
  generalize (dict_get arguments "source" (VStr "Calendar")); intros source.
  generalize (dict_get arguments "description" (VStr "")); intros description.
  cbv [bind note_task lift try_except ret post any_exception].
  destruct (truthy (VStr due));
    [destruct (Dates.strptime due) as [day|e] eqn:Hparse;
     [|rewrite (strptime_raises_ValueError _ _ Hparse)]|];
    cbn [sent handed set_due_date lookup String.eqb Ascii.eqb Bool.eqb dict_set];
    destruct (truthy description);
    cbn [dict_set String.eqb Ascii.eqb Bool.eqb];
    match goal with
    | |- context [http_post w (sent st) ?rq] =>
        destruct (http_post w (sent st) rq) as [response|e']
    end;
    try destruct (Z.eqb (Http.status_code response) 200);
    try destruct (Http.body response) as [result|e''];
    try destruct (py_getitem result "id") as [page_id|e'''].
  all: do 3 eexists.
  all: repeat match goal with |- _ /\ _ => split end; reflexivity.
Qed.

(** The rent is due on the 5th of March. *)
Lemma posted_page_reads_back_witness :
  exists rq payload properties,
    sent (snd (_create_task Sample.world Sample.server
                 [("title", VStr "Pay rent"); ("due_date", VStr "2024-03-05");
                  ("priority", VStr "High")] Notion.start))
    = [rq]
    /\ Http.json rq = VDict payload
    /\ lookup payload "properties" = Some properties
    /\ task_line (VDict [("properties", properties)])
       = Ok (Glyph.bullet ++ " Pay rent [Not started] - High priority").
Proof.
  exact (posted_page_reads_back Sample.world Sample.server
           [("title", VStr "Pay rent"); ("due_date", VStr "2024-03-05");
            ("priority", VStr "High")] Notion.start (VStr "Pay rent") "2024-03-05"
           eq_refl eq_refl eq_refl).
Defined.

(** ** The day an event is due *)

Lemma digit_is_not_T (c : ascii) : Dates.is_digit c = true -> Ascii.eqb c "T" = false.
Proof.
  intros H. destruct (Ascii.eqb_spec c "T") as [->|]; [discriminate H | reflexivity].
Qed.

Lemma string_app_nil (s : string) : s ++ "" = s.
Proof. induction s as [|c s IH]; [reflexivity|]. simpl. now rewrite IH. Qed.

Lemma iso_day_has_no_T (d : Dates.date) :
  valid_date d = true -> contains "T" (iso_day d) = false.
Proof.
  destruct d as [[y m] dd]. intros H. apply valid_date_bounds in H as (Hy & Hm & Hd).
  pose proof (days_in_month_bounds y m) as Hb. small_year. unfold iso_day.
  destruct (pad4_shape y ltac:(lia)) as (a & b & c & e & -> & Ha & Hb' & Hc & He & _).
  destruct (pad2_shape m ltac:(lia)) as (f & g & -> & Hf & Hg & _).
  destruct (pad2_shape dd ltac:(lia)) as (h & i & -> & Hh & Hi & _).
  cbn [append]. rewrite !contains_sep_cons.
  rewrite (digit_is_not_T a Ha), (digit_is_not_T b Hb'), (digit_is_not_T c Hc),
    (digit_is_not_T e He), (digit_is_not_T f Hf), (digit_is_not_T g Hg),
    (digit_is_not_T h Hh), (digit_is_not_T i Hi).
  reflexivity.
Qed.

Lemma iso_day_nonempty (d : Dates.date) : valid_date d = true -> iso_day d <> "".
Proof.
  intros H E. pose proof (strptime_iso_day d H) as Hp. rewrite E in Hp. discriminate Hp.
Qed.

Lemma due_date_of_iso (d : Dates.date) (rest : string) :
  valid_date d = true ->
  rest = "" \/ (exists time, rest = String "T" time) ->
  due_date_of (VStr (iso_day d ++ rest)) = VStr (iso_day d).
Proof.
  intros Hvalid Hrest.
  assert (Hne : iso_day d ++ rest <> "").
  { pose proof (iso_day_nonempty d Hvalid). destruct (iso_day d); [congruence|discriminate]. }
  rewrite (proj1 (due_date_of_string "" _ Hne)). f_equal.
  destruct Hrest as [-> | [time ->]].
  - rewrite string_app_nil. apply before_without, iso_day_has_no_T, Hvalid.
  - apply before_first, iso_day_has_no_T, Hvalid.
Qed.

Lemma create_task_posts_due_date w self arguments st title due day :
  configured (notion_api_key self) && configured (notion_database_id self) = true ->
  lookup arguments "title" = Some title ->
  dict_get arguments "due_date" (VStr "") = VStr due ->
  Dates.strptime due = Ok day ->
  exists out st' rq payload properties,
    _create_task w self arguments st = (Ok out, st')
    /\ handed st' = (handed st ++ [arguments])%list
    /\ sent st' = (sent st ++ [rq])%list
    /\ creates_page self rq
    /\ Http.json rq = VDict payload
    /\ lookup payload "properties" = Some (VDict properties)
    /\ lookup properties "Due Date" = Some (VDict [("date", VDict [("start", VStr due)])]).
Proof.
  intros Hconf Htitle Hdue Hparse.
  apply andb_true_iff in Hconf as [Hk Hd].
  unfold _create_task, dict_getitem, creates_page. rewrite Hk, Hd, Htitle, Hdue.
  cbn [negb orb Dates.py_strptime].
  rewrite (strptime_ok_nonempty _ _ Hparse), Hparse.
  cbv [bind note_task lift try_except ret post any_exception].
  cbn [sent handed set_due_date lookup String.eqb Ascii.eqb Bool.eqb dict_set].
  destruct (truthy (dict_get arguments "description" (VStr "")));
    cbn [dict_set String.eqb Ascii.eqb Bool.eqb];
    match goal with
    | |- context [http_post w (sent st) ?rq] =>
        destruct (http_post w (sent st) rq) as [response|e']
    end;
    try destruct (Z.eqb (Http.status_code response) 200);
    try destruct (Http.body response) as [result|e''];
    try destruct (py_getitem result "id") as [page_id|e'''].
  all: do 5 eexists.
  all: repeat match goal with |- _ /\ _ => split end; reflexivity.
Qed.

(** An event is due on its day.  On a configured server, for an event
    whose start time is a date of the calendar written [YYYY-MM-DD], alone
    (an all-day event) or followed by ["T"] and a time of day, the bulk path
    posts the page of the event first, and that page has a Due Date that
    starts on that date: the date part always passes the check of
    [create_task].  The pages of its action items follow. *)
Theorem event_page_is_due_on_its_day :
  forall w self flag created fields d rest description st,
    configured (notion_api_key self) && configured (notion_database_id self) = true ->
    valid_date d = true ->
    rest = "" \/ (exists time, rest = String "T" time) ->
    dict_get fields "start_time" (VStr "") = VStr (iso_day d ++ rest) ->
    dict_get fields "description" (VStr "") = VStr description ->
    exists st' rq rqs payload properties,
      process_event w self flag created (VDict fields) st
      = (Ok (created ++ entries_of flag (VDict fields))%list, st')
      /\ sent st' = (sent st ++ rq :: rqs)%list
      /\ List.length rqs = List.length (action_items_of flag (VDict fields))
      /\ Http.json rq = VDict payload
      /\ lookup payload "properties" = Some (VDict properties)
      /\ lookup properties "Due Date"
         = Some (VDict [("date", VDict [("start", VStr (iso_day d))])]).
Proof.
  intros w self flag created fields d rest description st
         Hconf Hvalid Hrest Hstart Hdesc.
  unfold entries_of, action_items_of, title_of.
  unfold process_event. cbn [py_get].
  repeat (unfold bind at 1; unfold lift at 1).
  rewrite Hdesc, Hstart, (due_date_of_iso d rest Hvalid Hrest). cbv zeta.
  match goal with
  | |- context [_create_task w self (main_task_args ?t ?n (VStr (iso_day d))) st] =>
      destruct (create_task_posts_due_date w self (main_task_args t n (VStr (iso_day d)))
                  st (VStr (Glyph.calendar ++ " " ++ py_str t)) (iso_day d) d
                  Hconf eq_refl eq_refl (strptime_iso_day d Hvalid))
        as (out & st1 & rq & payload & properties & E & _ & Hs1 & _ & Hj & Hp & Hdue)
  end.
  unfold bind at 1. rewrite E. cbn [eq_str as_str].
  destruct (truthy flag && negb (String.eqb description "No description")).
  - match goal with
    | |- context [for_each ?items ?acc _ st1] =>
        destruct (action_loop_run w self
                    (dict_get fields "title" (VStr "Untitled Event")) (iso_day d)
                    items acc st1)
          as (st' & rqs & -> & _ & Hs2 & _ & Hl)
    end.
    rewrite Hconf in Hl.
    exists st', rq, rqs, payload, properties.
    split; [now rewrite <- app_assoc|].
    split; [rewrite Hs2, Hs1, <- app_assoc; reflexivity|].
    repeat (split; [assumption|]). assumption.
  - exists st1, rq, [], payload, properties.
    split; [reflexivity|]. split; [exact Hs1|].
    repeat (split; [reflexivity || assumption|]). assumption.
Qed.

(** The vendor sync of the 1st of March at ten. *)
Lemma event_page_is_due_on_its_day_witness :
  exists st' rq rqs payload properties,
    process_event Sample.world Sample.server (VBool true) [] (VDict Sample.vendor_fields)
      Notion.start
    = (Ok ["Event: Vendor sync"; "Action: todo: call vendor"], st')
    /\ sent st' = rq :: rqs
    /\ Http.json rq = VDict payload
    /\ lookup payload "properties" = Some (VDict properties)
    /\ lookup properties "Due Date"
       = Some (VDict [("date", VDict [("start", VStr "2024-03-01")])]).
Proof.
  destruct (event_page_is_due_on_its_day Sample.world Sample.server (VBool true) []
              Sample.vendor_fields (2024, 3, 1) "T10:00:00Z" "- TODO: call vendor"
              Notion.start eq_refl eq_refl (or_intror (ex_intro _ "10:00:00Z" eq_refl))
              eq_refl eq_refl)
    as (st' & rq & rqs & payload & properties & Hrun & Hs & _ & Hj & Hp & Hd).
  exists st', rq, rqs, payload, properties.
  repeat split; assumption.
Defined.

(** ** Calendar calls without their required key *)

(** A call of an advertised calendar tool that lacks the key its schema
    requires is answered with ["Error executing <tool>: '<key>'"].  For
    [get_events_by_date] the service is built before the arguments are
    looked at, so the call signs in although it cannot be served;
    [extract_meeting_details] leaves the service as it was. *)
Theorem calendar_call_without_required_key :
  forall w tool key arguments service,
    In tool Tools.calendar_tools ->
    In key (Tools.required_keys tool) ->
    lookup arguments key = None ->
    (Tools.name tool = "get_events_by_date" ->
     service = true \/ Calendar.authenticate w = Ok tt) ->
    Calendar.handle_call_tool w (Tools.name tool) (Some arguments) service
    = (Ok [text_content ("Error executing " ++ Tools.name tool ++ ": '" ++ key ++ "'")],
       if String.eqb (Tools.name tool) "get_events_by_date" then true else service).
Proof.
  intros w tool key arguments service Htool Hkey Hnone Hservice.
  cbn [Tools.calendar_tools In] in Htool.
  destruct Htool as [<-|[<-|[<-|[]]]]; cbn in Hkey.
  - destruct Hkey.
  - destruct Hkey as [<-|[]]. specialize (Hservice eq_refl).
    cbn [Tools.name]. unfold Calendar.handle_call_tool.
    cbn [String.eqb Ascii.eqb Bool.eqb].
    unfold Calendar._get_events_by_date, dict_getitem, try_except.
    unfold bind at 1. rewrite (ensure_service_ready _ _ Hservice), Hnone. reflexivity.
  - destruct Hkey as [<-|[]].
    cbn [Tools.name]. unfold Calendar.handle_call_tool.
    cbn [String.eqb Ascii.eqb Bool.eqb].
    unfold Calendar._extract_meeting_details, dict_getitem, try_except.
    unfold bind at 1, lift at 1. rewrite Hnone. reflexivity.
Qed.

(** A date is asked for and none is given. *)
Lemma calendar_call_without_required_key_witness :
  Calendar.handle_call_tool SampleCalendar.world "get_events_by_date"
    (Some [("calendar_id", VStr "primary")]) false
  = (Ok [text_content "Error executing get_events_by_date: 'date'"], true).
Proof.
  refine (calendar_call_without_required_key SampleCalendar.world
            (nth 1 Tools.calendar_tools (Tools.Build_Tool "" "" VNone)) "date"
            [("calendar_id", VStr "primary")] false _ _ eq_refl _).
  - right. left. reflexivity.
  - left. reflexivity.
  - intros _. right. reflexivity.
Defined.
